(** * Astrality: module actions and the module manager

    A shallow embedding of [astrality/module.py] (classes [Module] and
    [ModuleManager]) and of the configuration loader [src/config.py].

    Python values that come out of the configuration file are kept dynamic
    ([pyval]); dictionaries are insertion-ordered association lists, as Python
    dictionaries are; a raised exception is a value of [exn]; the collaborators
    that live outside these two files (event listeners, the template compiler,
    the shell, the file system) are fields of an environment record [Env]. *)

From Stdlib Require Import String Ascii List Bool Arith ZArith Lia.
Import ListNotations.
Local Open Scope string_scope.
Local Open Scope list_scope.

(** ** Python strings *)

Module PyStr.

(** [s.split(sep)] for a one-character separator: at least one part. *)
Fixpoint split (sep : ascii) (s : string) : list string :=
  match s with
  | EmptyString => [EmptyString]
  | String c s' =>
      if Ascii.eqb c sep then EmptyString :: split sep s'
      else match split sep s' with
           | [] => [String c EmptyString]
           | h :: t => String c h :: t
           end
  end.

(** [needle in s] on strings: substring test. *)
Fixpoint contains (needle s : string) : bool :=
  String.prefix needle s
  || match s with
     | EmptyString => false
     | String _ s' => contains needle s'
     end.

(** [s[n:]]. *)
Fixpoint slice_from (n : nat) (s : string) : string :=
  match n, s with
  | O, _ => s
  | S _, EmptyString => EmptyString
  | S k, String _ s' => slice_from k s'
  end.

(** [skip] counts the characters of a match of [old] still to be dropped. *)
Fixpoint replace_aux (old new s : string) (skip : nat) : string :=
  match s with
  | EmptyString => EmptyString
  | String c s' =>
      match skip with
      | S k => replace_aux old new s' k
      | O =>
          if String.prefix old s
          then (new ++ replace_aux old new s' (String.length old - 1))%string
          else String c (replace_aux old new s' 0)
      end
  end.

Fixpoint interleave (new s : string) : string :=
  match s with
  | EmptyString => EmptyString
  | String c s' => String c (new ++ interleave new s')%string
  end.

(** [s.replace(old, new)]: every non-overlapping occurrence, left to right. *)
Definition replace (old new s : string) : string :=
  match old with
  | EmptyString => (new ++ interleave new s)%string
  | _ => replace_aux old new s 0
  end.

(** The characters of a string, as iterating over it yields them. *)
Fixpoint chars (s : string) : list string :=
  match s with
  | EmptyString => []
  | String c s' => String c EmptyString :: chars s'
  end.

(** The double quote character, for the f-strings that print one. *)
Definition dq : string := String (ascii_of_nat 34) EmptyString.

End PyStr.

(** ** Exceptions and results *)

Inductive exn : Type :=
| KeyError
| IndexError
| TypeError
| AttributeError
| AssertionError
| RuntimeError (msg : string)
| TemplateNotFound
| ParsingError (msg : string).

Inductive Result (A : Type) : Type :=
| Ok (a : A)
| Raise (e : exn).
Arguments Ok {A} a.
Arguments Raise {A} e.

Definition rbind {A B : Type} (r : Result A) (k : A -> Result B) : Result B :=
  match r with
  | Ok a => k a
  | Raise e => Raise e
  end.

Notation "'let?' x ':=' c 'in' k" := (rbind c (fun x => k))
  (at level 10, x pattern, c at level 100, k at level 200).

(** [for x in l: acc = f(acc, x)], stopping at the first exception. *)
Fixpoint for_each {A S : Type} (l : list A) (f : S -> A -> Result S) (s : S)
  : Result S :=
  match l with
  | [] => Ok s
  | x :: l' => let? s' := f s x in for_each l' f s'
  end.

(** [tuple(f(x) for x in l)]. *)
Fixpoint map_result {A B : Type} (f : A -> Result B) (l : list A)
  : Result (list B) :=
  match l with
  | [] => Ok []
  | x :: l' => let? y := f x in let? ys := map_result f l' in Ok (y :: ys)
  end.

(** ** Dictionaries: insertion-ordered, one entry per key *)

Definition dict (V : Type) : Type := list (string * V).

Fixpoint dget {V : Type} (d : dict V) (k : string) : option V :=
  match d with
  | [] => None
  | (k', v) :: d' => if String.eqb k k' then Some v else dget d' k
  end.

(** [d[k] = v]: an existing key keeps its place, a new key goes last. *)
Fixpoint dset {V : Type} (d : dict V) (k : string) (v : V) : dict V :=
  match d with
  | [] => [(k, v)]
  | (k', v') :: d' =>
      if String.eqb k k' then (k', v) :: d' else (k', v') :: dset d' k v
  end.

Definition dmem {V : Type} (d : dict V) (k : string) : bool :=
  match dget d k with Some _ => true | None => false end.

Definition dkeys {V : Type} (d : dict V) : list string := map fst d.
Definition dvalues {V : Type} (d : dict V) : list V := map snd d.

(** [d.update(e)]. *)
Definition dupdate {V : Type} (d e : dict V) : dict V :=
  fold_left (fun acc kv => dset acc (fst kv) (snd kv)) e d.

(** [d.pop(k)] without the value. *)
Fixpoint dremove {V : Type} (d : dict V) (k : string) : dict V :=
  match d with
  | [] => []
  | (k', v) :: d' => if String.eqb k k' then d' else (k', v) :: dremove d' k
  end.

(** [d1 == d2] on dictionaries: same size, and every entry of [d1] is in [d2]. *)
Definition dict_eqb {V : Type} (veqb : V -> V -> bool) (d1 d2 : dict V) : bool :=
  Nat.eqb (List.length d1) (List.length d2)
  && forallb (fun kv => match dget d2 (fst kv) with
                        | Some v => veqb (snd kv) v
                        | None => false
                        end) d1.

(** [d[k]], which raises [KeyError]. *)
Definition ditem {V : Type} (d : dict V) (k : string) : Result V :=
  match dget d k with
  | Some v => Ok v
  | None => Raise KeyError
  end.

(** ** Dynamic values of the configuration *)

#[local] Set Warnings "-register-all".

Inductive pyval : Type :=
| PNone
| PBool (b : bool)
| PInt (n : Z)
| PStr (s : string)
| PList (l : list pyval)
| PDict (d : list (string * pyval)).

(** Truth value of an object in a condition. *)
Definition truthy (v : pyval) : bool :=
  match v with
  | PNone => false
  | PBool b => b
  | PInt n => negb (Z.eqb n 0)
  | PStr s => negb (String.eqb s EmptyString)
  | PList l => match l with [] => false | _ => true end
  | PDict d => match d with [] => false | _ => true end
  end.

Definition is_list (v : pyval) : bool :=
  match v with PList _ => true | _ => false end.

Definition is_str (v : pyval) : bool :=
  match v with PStr _ => true | _ => false end.

(** [v[k]] with a string key. *)
Definition getitem (v : pyval) (k : string) : Result pyval :=
  match v with
  | PDict d => ditem d k
  | _ => Raise TypeError
  end.

(** [k in v] with a string [k]. *)
Definition py_contains (v : pyval) (k : string) : Result bool :=
  match v with
  | PDict d => Ok (dmem d k)
  | PStr s => Ok (PyStr.contains k s)
  | PList l =>
      Ok (existsb (fun x => match x with
                            | PStr s => String.eqb k s
                            | _ => false
                            end) l)
  | _ => Raise TypeError
  end.

(** The elements a [for] loop or [list.extend] draws from an object. *)
Definition py_iter (v : pyval) : Result (list pyval) :=
  match v with
  | PList l => Ok l
  | PDict d => Ok (map PStr (dkeys d))
  | PStr s => Ok (map PStr (PyStr.chars s))
  | _ => Raise TypeError
  end.

(** A value used as a mapping ([.get], [.keys], [.values]). *)
Definition as_dict (v : pyval) : Result (dict pyval) :=
  match v with
  | PDict d => Ok d
  | _ => Raise AttributeError
  end.

(** A value used as a list ([len], [.extend]). *)
Definition as_list (v : pyval) : Result (list pyval) :=
  match v with
  | PList l => Ok l
  | _ => Raise AttributeError
  end.

Definition as_str (v : pyval) : Result string :=
  match v with
  | PStr s => Ok s
  | _ => Raise TypeError
  end.

(** ** Collaborators outside the two source files *)

(** A [pathlib.Path], kept as the string [str] shows: the normal form the
    constructor of [Path] gives every path. *)
Definition Path : Type := string.

(** Modelled from the spec: [astrality/event_listener.py] is not part of the
    sources. The spec gives a listener the interface
    [EventListener.event() -> string]; a listener is kept as the configuration
    it was made from, and the environment says what it reports now. *)
Inductive EventListener : Type :=
| Listener (config : pyval).

(** A section of a configuration file: option name to value. *)
Definition Section_ : Type := dict pyval.

(** [ApplicationConfig], and the shared application context: section name to
    section. *)
Definition ApplicationConfig : Type := dict Section_.
Definition Context : Type := dict Section_.

(** What the program reads from outside at one instant: the clock-dependent
    listeners, the shell, the file system, the compiler and the modules of
    the package that are not among the sources. Nothing in it is written by
    the program. *)
Record Env : Type := {
  (** [event_listener_factory(config)] of [astrality.event_listener]. *)
  event_listener_factory : pyval -> Result EventListener;
  (** [listener.event()] at this instant. *)
  listener_event : EventListener -> string;
  (** whether [astrality.utils.run_shell] succeeds on a command. *)
  shell_succeeds : string -> bool;
  (** [Path.is_file()] and [Path.is_dir()]. *)
  is_file : Path -> bool;
  is_dir : Path -> bool;
  (** what [os.mkdir] raises on a directory, if anything. *)
  mkdir_failure : Path -> option exn;
  (** the home directory [Path.expanduser] substitutes for a leading tilde. *)
  home : Path;
  (** the home directory of the user a tilde is followed by, or what
      [Path.expanduser] raises when it cannot determine one. *)
  user_home : string -> Result Path;
  (** [compiler.context(config)]: the initial application context. *)
  compiler_context : ApplicationConfig -> Context;
  (** a failure of the compiler on a template that exists, if any. *)
  render_failure : Path -> Path -> option exn;
  (** [astrality.config.insert_into(context, section, from_section,
      from_config_file)]. *)
  insert_into :
    Context -> option string -> option string -> Path -> Result Context;
  (** what [ConfigParser] makes of a file, interpolation included, with its
      [DEFAULT] section. *)
  configparser_read : Path -> Result ApplicationConfig;
  (** [os.environ] with every value expanded. *)
  expanded_env : Section_;
  (** [os.environ] lookups of [ASTRALITY_CONFIG_HOME], [XDG_CONFIG_HOME]
      and [TMPDIR], as the paths [Path] makes of them. *)
  astrality_config_home : option Path;
  xdg_config_home : option Path;
  tmpdir : option Path;
  (** [Path(__file__).parents[1]] of [config.py]. *)
  source_root : Path;
  (** the name [NamedTemporaryFile] gives its n-th file for a prefix. *)
  temp_file_name : nat -> string -> Path
}.

(** What the program does to the outside, oldest first. Only records of level
    error and critical are kept from the log. *)
Inductive effect : Type :=
| Shell (command : string)
| Compile (source target : Path) (context : Context)
| LogError (msg : string)
| LogCritical (msg : string)
| TempFileCreated (path : Path)
| TempFileClosed (path : Path)
| Mkdir (path : Path).

Record World : Type := {
  trace : list effect;
  temp_files_created : nat
}.

Definition emit (w : World) (e : effect) : World :=
  {| trace := trace w ++ [e]; temp_files_created := temp_files_created w |}.

(** A computation on a mutable state [S] that may raise: the state is threaded
    through, and what was done to it before an exception stays done. *)
Definition ST (S A : Type) : Type := S -> S * Result A.

Definition ret {S A : Type} (a : A) : ST S A := fun s => (s, Ok a).
Definition raise {S A : Type} (e : exn) : ST S A := fun s => (s, Raise e).
Definition lift {S A : Type} (r : Result A) : ST S A := fun s => (s, r).

Definition mbind {S A B : Type} (c : ST S A) (k : A -> ST S B) : ST S B :=
  fun s => match c s with
           | (s', Ok a) => k a s'
           | (s', Raise e) => (s', Raise e)
           end.

Notation "'let!' x ':=' c 'in' k" := (mbind c (fun x => k))
  (at level 10, x pattern, c at level 100, k at level 200).

(** [try: body  except: handler], for the exceptions [handles] selects. *)
Definition try_except {S A : Type} (body : ST S A) (handles : exn -> bool)
  (handler : ST S A) : ST S A :=
  fun s => match body s with
           | (s', Ok a) => (s', Ok a)
           | (s', Raise e) => if handles e then handler s' else (s', Raise e)
           end.

(** [for x in l: body(x)]. *)
Fixpoint mfor_each {S A : Type} (l : list A) (body : A -> ST S unit)
  : ST S unit :=
  match l with
  | [] => ret tt
  | x :: l' => let! _ := body x in mfor_each l' body
  end.

(** Code that touches nothing but the outside world. *)
Definition M (A : Type) : Type := ST World A.

Definition do_effect (e : effect) : M unit := fun w => (emit w e, Ok tt).

(** A state made of an object and the world: reading and writing the object,
    running code that only touches the world, and running code on an object
    of its own, whose exceptions reach the caller. *)
Definition get_fst {S W : Type} : ST (S * W) S := fun s => (s, Ok (fst s)).

Definition put_fst {S W : Type} (x : S) : ST (S * W) unit :=
  fun s => ((x, snd s), Ok tt).

Definition modify_fst {S W : Type} (f : S -> S) : ST (S * W) unit :=
  fun s => ((f (fst s), snd s), Ok tt).

Definition in_snd {S W A : Type} (c : ST W A) : ST (S * W) A :=
  fun s => let (w', r) := c (snd s) in ((fst s, w'), r).

Definition run_with {S W A : Type} (init : S) (c : ST (S * W) A)
  : ST W (S * A) :=
  fun w =>
    match c (init, w) with
    | ((s', w'), Ok a) => (w', Ok (s', a))
    | ((s', w'), Raise e) => (w', Raise e)
    end.

(** [astrality.utils.run_shell]: the command is run and its success
    reported. *)
Definition utils_run_shell (env : Env) (command : string) : M bool :=
  let! _ := do_effect (Shell command) in ret (shell_succeeds env command).

(** ** [pathlib] *)

Module PyPath.

Definition is_absolute (p : Path) : bool := String.prefix "/" p.

(** The path without components, which [str] shows as a dot. *)
Definition is_empty (p : Path) : bool :=
  String.eqb p EmptyString || String.eqb p ".".

Fixpoint ends_with_slash (p : Path) : bool :=
  match p with
  | EmptyString => false
  | String c EmptyString => Ascii.eqb c "/"
  | String _ p' => ends_with_slash p'
  end.

(** [Path(a, b)] on paths in the normal form of [pathlib]: an absolute [b]
    replaces [a], a path without components adds nothing, and a root is
    not followed by a second separator. *)
Definition join (a b : Path) : Path :=
  if is_absolute b then b
  else if is_empty b then (if is_empty a then "." else a)
  else if is_empty a then b
  else if ends_with_slash a then (a ++ b)%string
  else (a ++ "/" ++ b)%string.

(** [p.parent]: the path without its last component. *)
Fixpoint dirname (p : Path) : Path :=
  match p with
  | EmptyString => EmptyString
  | String c p' =>
      if PyStr.contains "/" p' then String c (dirname p') else EmptyString
  end.

Definition parent (p : Path) : Path :=
  match dirname p with
  | EmptyString => if is_absolute p then "/" else "."
  | d => d
  end.

(** [Path.expanduser(p)]: a first component that starts with a tilde is
    replaced by the home directory of the user it names, the current user
    when it names none. *)
Definition expanduser (env : Env) (p : Path) : Result Path :=
  if String.prefix "~" p then
    let first := hd EmptyString (PyStr.split "/" p) in
    let username := PyStr.slice_from 1 first in
    let rest := PyStr.slice_from (S (String.length first)) p in
    let? homedir :=
      if String.eqb username EmptyString then Ok (home env)
      else user_home env username in
    Ok (join homedir rest)
  else Ok p.

End PyPath.

(** ** class [Module] *)

Record ContextSectionImport : Type := {
  into_section : option string;
  from_section : option string;
  from_config_file : Path
}.

Record Template : Type := {
  source : Path;
  target : Path
}.

(** [v[k] = x] on a dynamic value. *)
Definition setitem (v : pyval) (k : string) (x : pyval) : Result pyval :=
  match v with
  | PDict d => Ok (PDict (dset d k x))
  | _ => Raise TypeError
  end.

(** The three event blocks every module has. *)
Definition top_level_blocks : list string := ["on_startup"; "on_event"; "on_exit"].

(** The four kinds of action of an event block. *)
Definition action_kinds : list string :=
  ["import_context"; "compile"; "run"; "trigger"].

Module AstralityModule.

(** An instance of [Module]. [module_config] is the section the module was
    made from, as the constructor leaves it. *)
Record t : Type := {
  name : string;
  module_config : Section_;
  event_listener : EventListener
}.

(** The literal every event block starts from in [populate_event_blocks]. *)
Definition empty_event_block : dict pyval :=
  [("import_context", PList []); ("compile", PList []);
   ("run", PList []); ("trigger", PList [])].

(** The empty block, then [.update(configured_event_block)]; an event block
    is a mapping. *)
Definition populated (configured_event_block : pyval) : Result pyval :=
  match configured_event_block with
  | PDict d => Ok (PDict (dupdate empty_event_block d))
  | _ => Raise TypeError
  end.

(** The inner loop that wraps a single action into a list. *)
Definition listify_actions (event_block : pyval) : Result pyval :=
  for_each action_kinds
    (fun blk action =>
       let? v := getitem blk action in
       if is_list v then Ok blk else setitem blk action (PList [v]))
    event_block.

(** One pass over the entries of [on_modified], each replaced by [f] of it. *)
Definition map_on_modified (f : pyval -> Result pyval) (cfg : Section_)
  : Result Section_ :=
  let? on_modified := ditem cfg "on_modified" in
  let? entries := as_dict on_modified in
  let? entries' :=
    for_each (dkeys entries)
      (fun d template_name =>
         let? blk := ditem d template_name in
         let? blk' := f blk in
         Ok (dset d template_name blk'))
      entries in
  Ok (dset cfg "on_modified" (PDict entries')).

Definition populate_event_blocks (cfg : Section_) : Result Section_ :=
  let? cfg1 :=
    for_each top_level_blocks
      (fun c event_block =>
         let configured_event_block :=
           match dget c event_block with Some v => v | None => PDict [] end in
         let? blk := populated configured_event_block in
         Ok (dset c event_block blk))
      cfg in
  let? cfg2 :=
    if negb (dmem cfg1 "on_modified")
    then Ok (dset cfg1 "on_modified" (PDict []))
    else map_on_modified populated cfg1 in
  let? cfg3 :=
    for_each top_level_blocks
      (fun c event_block =>
         let? blk := ditem c event_block in
         let? blk' := listify_actions blk in
         Ok (dset c event_block blk'))
      cfg2 in
  map_on_modified listify_actions cfg3.

(** [into[action].extend(from_event_block_dict[action])], [into] being the
    block named [into] of the module. The list is extended in place; the
    lists of different blocks and kinds are different objects, as the loader
    makes them from a file that shares no node. *)
Definition extend_action (cfg : Section_) (into : string)
  (from_event_block_dict : pyval) (action : string) : Result Section_ :=
  let? into_block := ditem cfg into in
  let? own := getitem into_block action in
  let? own_list := as_list own in
  let? imported := getitem from_event_block_dict action in
  let? imported_list := py_iter imported in
  let? into_block' :=
    setitem into_block action (PList (own_list ++ imported_list)%list) in
  Ok (dset cfg into into_block').

Definition _import_event_block (cfg : Section_) (from_event_block : pyval)
  (into : string) : Result Section_ :=
  let? from_name := as_str from_event_block in
  let? from_event_block_dict :=
    if PyStr.contains "on_modified." from_name
    then
      let template := PyStr.slice_from 12 from_name in
      let? on_modified := ditem cfg "on_modified" in
      let? entries := as_dict on_modified in
      Ok (match dget entries template with Some b => b | None => PDict [] end)
    else ditem cfg from_name in
  let? cfg1 := extend_action cfg into from_event_block_dict "run" in
  let? cfg2 := extend_action cfg1 into from_event_block_dict "import_context" in
  extend_action cfg2 into from_event_block_dict "compile".

(** The body of the loop of [import_trigger_actions] for one of the three
    top-level blocks. *)
Definition import_triggers_of (cfg : Section_) (event_block : string)
  : Result Section_ :=
  let? blk := ditem cfg event_block in
  let? has_trigger := py_contains blk "trigger" in
  if has_trigger then
    let? trigger := getitem blk "trigger" in
    let? event_blocks_to_import :=
      if is_str trigger then Ok [trigger] else py_iter trigger in
    for_each event_blocks_to_import
      (fun c event_block_to_import =>
         _import_event_block c event_block_to_import event_block)
      cfg
  else Ok cfg.

(** ['trigger' in d.values()]: is one of the values the string itself. *)
Definition trigger_among_values (entries : dict pyval) : bool :=
  existsb (fun v => match v with
                    | PStr s => String.eqb "trigger" s
                    | _ => false
                    end) (dvalues entries).

(** The fourth element of the tuple [event_blocks] is the view
    [on_modified.values()] itself, not its elements: the loop tests
    ['trigger' in] that view, and would index the view if the test held. *)
Definition import_trigger_actions (cfg : Section_) : Result Section_ :=
  let? _ := ditem cfg "on_startup" in
  let? _ := ditem cfg "on_event" in
  let? _ := ditem cfg "on_exit" in
  let? on_modified := ditem cfg "on_modified" in
  let? entries := as_dict on_modified in
  let? cfg1 := import_triggers_of cfg "on_startup" in
  let? cfg2 := import_triggers_of cfg1 "on_event" in
  let? cfg3 := import_triggers_of cfg2 "on_exit" in
  if trigger_among_values entries then Raise TypeError else Ok cfg3.

(** [Module.__init__]. *)
Definition __init__ (env : Env) (module_config : dict Section_) : Result t :=
  match module_config with
  | [(section, options)] =>
      let? name :=
        match nth_error (PyStr.split "/" section) 1 with
        | Some n => Ok n
        | None => Raise IndexError
        end in
      let? cfg1 := populate_event_blocks options in
      let? cfg2 := import_trigger_actions cfg1 in
      let? listener :=
        event_listener_factory env
          (match dget cfg2 "event_listener" with
           | Some v => v
           | None => PDict [("type", PStr "static")]
           end) in
      Ok {| name := name; module_config := cfg2; event_listener := listener |}
  | _ => Raise AssertionError
  end.

(** [Module.interpolate_string]. *)
Definition interpolate_string (env : Env) (m : t) (s : pyval) : Result string :=
  match s with
  | PStr s => Ok (PyStr.replace "{event}" (listener_event env (event_listener m)) s)
  | _ => Raise AttributeError
  end.

(** The common body of the four command accessors. *)
Definition interpolated_commands (env : Env) (m : t) (commands : pyval)
  : Result (list string) :=
  let? l := as_list commands in
  match l with
  | [] => Ok []
  | _ => map_result (interpolate_string env m) l
  end.

Definition startup_commands (env : Env) (m : t) : Result (list string) :=
  let? blk := ditem (module_config m) "on_startup" in
  let? startup_commands := getitem blk "run" in
  interpolated_commands env m startup_commands.

Definition on_event_commands (env : Env) (m : t) : Result (list string) :=
  let? blk := ditem (module_config m) "on_event" in
  let? on_event_commands := getitem blk "run" in
  interpolated_commands env m on_event_commands.

Definition exit_commands (env : Env) (m : t) : Result (list string) :=
  let? blk := ditem (module_config m) "on_exit" in
  let? exit_commands := getitem blk "run" in
  interpolated_commands env m exit_commands.

Definition modified_commands (env : Env) (m : t) (template_name : string)
  : Result (list string) :=
  let? on_modified := ditem (module_config m) "on_modified" in
  let? blk := getitem on_modified template_name in
  let? modified_commands := getitem blk "run" in
  interpolated_commands env m modified_commands.

(** One pass of the loop of [context_section_imports]. *)
Definition context_section_import (env : Env) (m : t) (context_import : pyval)
  : Result ContextSectionImport :=
  let? raw_path := getitem context_import "from_path" in
  let? from_path := interpolate_string env m raw_path in
  let? has_from := py_contains context_import "from_section" in
  let? sections :=
    if has_from then
      let? raw_from := getitem context_import "from_section" in
      let? from_section := interpolate_string env m raw_from in
      let? d := as_dict context_import in
      let? to_section :=
        interpolate_string env m
          (match dget d "to_section" with
           | Some v => v
           | None => PStr from_section
           end) in
      Ok (Some to_section, Some from_section)
    else Ok (None, None) in
  Ok {| into_section := fst sections;
        from_section := snd sections;
        from_config_file := from_path |}.

(** The tuple the assertion of [context_section_imports] tests against. *)
Definition context_import_triggers : list string :=
  ["on_startup"; "on_event"; "on_startup"].

Definition context_section_imports (env : Env) (m : t) (trigger : string)
  : Result (list ContextSectionImport) :=
  if negb (existsb (String.eqb trigger) context_import_triggers)
  then Raise AssertionError
  else
    let? blk :=
      Ok (match dget (module_config m) trigger with
          | Some v => v
          | None => PDict []
          end) in
    let? d := as_dict blk in
    let? import_config :=
      py_iter (match dget d "import_context" with
               | Some v => v
               | None => PList []
               end) in
    map_result (context_section_import env m) import_config.

(** The loop over the requirements of a module: the first one that fails
    rejects it. *)
Fixpoint requirements_satisfied (env : Env) (requires : list pyval) : M bool :=
  match requires with
  | [] => ret true
  | requirement :: rest =>
      let! command := lift (as_str requirement) in
      let! ok := utils_run_shell env command in
      if ok then requirements_satisfied env rest else ret false
  end.

(** [Module.valid_class_section]. The operations of its [try] block raise no
    [KeyError] on a mapping of sections, so the handler has no case here. *)
Definition valid_class_section (env : Env) (section : dict Section_) : M bool :=
  match section with
  | [(module_name, options)] =>
      let valid_module_name :=
        match PyStr.split "/" module_name with
        | first :: _ => String.eqb first "module"
        | [] => false
        end in
      let enabled :=
        match dget options "enabled" with Some v => v | None => PBool true end in
      if negb (valid_module_name && truthy enabled) then ret false
      else
        let requires :=
          match dget options "requires" with Some v => v | None => PNone end in
        if negb (truthy requires) then ret true
        else
          let! requirements :=
            lift (if is_str requires then Ok [requires] else py_iter requires) in
          requirements_satisfied env requirements
  | _ =>
      raise (RuntimeError
               "Tried to check module section with dict which does not have exactly one item.")
  end.

End AstralityModule.

(** ** [config.py] *)

Module Config.

Definition infer_config_location (env : Env) (config_directory : option Path)
  : Path * Path :=
  let config_directory :=
    match config_directory with
    | Some d => d
    | None =>
        match astrality_config_home env with
        | Some h => h
        | None =>
            PyPath.join
              (match xdg_config_home env with
               | Some x => x
               | None => "~/.config"
               end)
              "astrality"
        end
    end in
  let config_file := PyPath.join config_directory "astrality.conf" in
  if negb (is_file env config_file)
  then (source_root env, PyPath.join (source_root env) "astrality.conf.example")
  else (config_directory, config_file).

Definition could_not_load (config_file : Path) : string :=
  "Could not load config file " ++ PyStr.dq ++ config_file ++ PyStr.dq ++ ".".

(** [configparser_read] stands for the lines from the expansion of the
    environment to the end of the loop that copies the parser into
    [conf_dict]; a [Resolver] is kept as the dictionary it wraps. *)
Definition resolver_from_config_file (env : Env) (config_file : Path)
  (with_env : bool) : M ApplicationConfig :=
  if negb (is_file env config_file) then
    let! _ := do_effect (LogCritical (could_not_load config_file)) in
    raise (RuntimeError (could_not_load config_file))
  else
    let! conf_dict := lift (configparser_read env config_file) in
    let conf_dict :=
      if with_env then dset conf_dict "env" (expanded_env env) else conf_dict in
    let! _ := lift (ditem conf_dict "DEFAULT") in
    ret (dremove conf_dict "DEFAULT").

Definition infer_runtime_variables_from_config (env : Env)
  (config_directory config_file : Path) (config : ApplicationConfig)
  : M ApplicationConfig :=
  let temp_directory :=
    PyPath.join (match tmpdir env with Some d => d | None => "/tmp" end)
      "astrality" in
  let! _ :=
    if negb (is_dir env temp_directory) then
      match mkdir_failure env temp_directory with
      | Some e => raise e
      | None => do_effect (Mkdir temp_directory)
      end
    else ret tt in
  ret [("_runtime",
        [("config_directory", PStr config_directory);
         ("config_file", PStr config_file);
         ("temp_directory", PStr temp_directory)])].

Definition user_configuration (env : Env) (config_directory : option Path)
  : M ApplicationConfig :=
  let (config_directory, config_file) :=
    infer_config_location env config_directory in
  let! config := resolver_from_config_file env config_file true in
  let! runtime :=
    infer_runtime_variables_from_config env config_directory config_file config in
  ret (dupdate config runtime).

(** [insert_into] of [config.py]: the section [from_section] of the file is
    put under [section] of the configuration, which is changed in place and
    returned; a [Resolver] is read as the dictionary it wraps. *)
Definition insert_into (env : Env) (config : ApplicationConfig)
  (section : string) (from_config_file : Path) (from_section : string)
  : M ApplicationConfig :=
  let! conf_resolver := resolver_from_config_file env from_config_file false in
  let! subtree := lift (ditem conf_resolver from_section) in
  ret (dset config section subtree).

End Config.

(** ** class [ModuleManager] *)

Record WatchedFile : Type := {
  path : Path;
  module : AstralityModule.t;
  specified_path : string
}.

(** Modelled from the spec: [astrality/filewatcher.py] is not part of the
    sources. The spec gives the watcher a root, [.start()] and [.stop()];
    it is kept as its root and whether it is running. *)
Record DirectoryWatcher : Type := {
  directory : Path;
  running : bool
}.

Module ModuleManager.

(** The attributes of an instance. [temp_files] is empty until the first
    temporary file is made, where the source has no attribute yet. *)
Record t : Type := {
  application_config : ApplicationConfig;
  config_directory : Path;
  temp_directory : Path;
  application_context : Context;
  modules : dict AstralityModule.t;
  startup_done : bool;
  last_module_events : dict string;
  templates : dict Template;
  string_replacements : dict string;
  on_modified_paths : dict WatchedFile;
  temp_files : list Path;
  directory_watcher : DirectoryWatcher
}.

Definition set_application_context (self : t) (c : Context) : t :=
  {| application_config := application_config self;
     config_directory := config_directory self;
     temp_directory := temp_directory self;
     application_context := c;
     modules := modules self;
     startup_done := startup_done self;
     last_module_events := last_module_events self;
     templates := templates self;
     string_replacements := string_replacements self;
     on_modified_paths := on_modified_paths self;
     temp_files := temp_files self;
     directory_watcher := directory_watcher self |}.

Definition set_startup_done (self : t) (b : bool) : t :=
  {| application_config := application_config self;
     config_directory := config_directory self;
     temp_directory := temp_directory self;
     application_context := application_context self;
     modules := modules self;
     startup_done := b;
     last_module_events := last_module_events self;
     templates := templates self;
     string_replacements := string_replacements self;
     on_modified_paths := on_modified_paths self;
     temp_files := temp_files self;
     directory_watcher := directory_watcher self |}.

Definition set_last_module_events (self : t) (e : dict string) : t :=
  {| application_config := application_config self;
     config_directory := config_directory self;
     temp_directory := temp_directory self;
     application_context := application_context self;
     modules := modules self;
     startup_done := startup_done self;
     last_module_events := e;
     templates := templates self;
     string_replacements := string_replacements self;
     on_modified_paths := on_modified_paths self;
     temp_files := temp_files self;
     directory_watcher := directory_watcher self |}.

Definition set_watcher_running (self : t) (b : bool) : t :=
  {| application_config := application_config self;
     config_directory := config_directory self;
     temp_directory := temp_directory self;
     application_context := application_context self;
     modules := modules self;
     startup_done := startup_done self;
     last_module_events := last_module_events self;
     templates := templates self;
     string_replacements := string_replacements self;
     on_modified_paths := on_modified_paths self;
     temp_files := temp_files self;
     directory_watcher :=
       {| directory := directory (directory_watcher self); running := b |} |}.

(** A method: it reads and writes the attributes of [self] and acts on the
    world. *)
Definition Method (A : Type) : Type := ST (t * World) A.

Definition get_self : Method t := get_fst.

(** An assignment to attributes of [self]. *)
Definition modify_self (f : t -> t) : Method unit := modify_fst f.

(** Code that does not touch [self], run inside a method. *)
Definition in_world {A : Type} (c : M A) : Method A := in_snd c.

(** A method of another instance, called from a method of [self]: what it
    raises is raised in the caller. *)
Definition call_on {A : Type} (other : t) (c : Method A) : Method (t * A) :=
  in_snd (run_with other c).

(** [self.application_config[section][option]]. *)
Definition config_option (self : t) (section option : string) : Result pyval :=
  let? sec := ditem (application_config self) section in
  ditem sec option.

Definition expand_path_in (env : Env) (config_directory : Path) (path : Path)
  : Result Path :=
  let? path := PyPath.expanduser env path in
  if negb (PyPath.is_absolute path) then Ok (PyPath.join config_directory path)
  else Ok path.

(** [ModuleManager.expand_path]. *)
Definition expand_path (env : Env) (self : t) (path : Path) : Result Path :=
  expand_path_in env (config_directory self) path.

(** [ModuleManager.interpolate_string]. *)
Definition interpolate_string (self : t) (s : string) : string :=
  fold_left
    (fun s kv => PyStr.replace ("{" ++ fst kv ++ "}") (target (snd kv)) s)
    (templates self) s.

(** [ModuleManager.run_shell]. *)
Definition run_shell (env : Env) (command : string) : Method unit :=
  let! self := get_self in
  let command := interpolate_string self command in
  let! _ := lift (config_option self "_runtime" "config_directory") in
  let! _ := in_world (utils_run_shell env command) in
  ret tt.

(** [ModuleManager.module_events]. *)
Definition module_events (env : Env) (self : t) : dict string :=
  fold_left
    (fun module_events kv =>
       dset module_events (fst kv)
         (listener_event env (AstralityModule.event_listener (snd kv))))
    (modules self) [].

(** [ModuleManager.import_context_sections]. *)
Definition import_context_sections (env : Env) (trigger : string)
  : Method unit :=
  if negb (existsb (String.eqb trigger) top_level_blocks)
  then raise AssertionError
  else
    let! self := get_self in
    mfor_each (dvalues (modules self))
      (fun module =>
         let! context_section_imports :=
           lift (AstralityModule.context_section_imports env module trigger) in
         mfor_each context_section_imports
           (fun csi =>
              let! self := get_self in
              let! from_config_file :=
                lift (expand_path env self (from_config_file csi)) in
              let! context :=
                lift (insert_into env (application_context self)
                        (into_section csi) (from_section csi)
                        from_config_file) in
              modify_self (fun self => set_application_context self context))).

Definition template_missing (source target : Path) : string :=
  "Could not compile template " ++ PyStr.dq ++ source ++ PyStr.dq
  ++ " to target " ++ PyStr.dq ++ target ++ PyStr.dq
  ++ ". Template does not exist.".

(** Modelled from the spec: [astrality/compiler.py] is not part of the
    sources. The spec says [Compiler.compile] fails with a template not found
    condition when the source path does not resolve to an existing file;
    other failures are left to the environment. *)
Definition compiler_compile_template (env : Env) (template target : Path)
  (context : Context) (shell_command_working_directory : Path) : M unit :=
  if is_file env template then
    match render_failure env template target with
    | Some e => raise e
    | None => do_effect (Compile template target context)
    end
  else raise TemplateNotFound.

Definition is_TemplateNotFound (e : exn) : bool :=
  match e with TemplateNotFound => true | _ => false end.

(** [ModuleManager.compile_template]. *)
Definition compile_template (env : Env) (source target : Path) : Method unit :=
  let! self := get_self in
  in_world
    (try_except
       (compiler_compile_template env source target
          (application_context self) (config_directory self))
       is_TemplateNotFound
       (do_effect (LogError (template_missing source target)))).

(** The loop both [compile_templates] and [modified] run over the [compile]
    list of a block: the template is looked up by its specified path, then
    compiled. *)
Definition compile_compilations (env : Env) (compilations : list pyval)
  : Method unit :=
  mfor_each compilations
    (fun compilation =>
       let! self := get_self in
       let! specified_path :=
         lift (let? v := getitem compilation "template" in as_str v) in
       let! template := lift (ditem (templates self) specified_path) in
       compile_template env (source template) (target template)).

(** [ModuleManager.compile_templates]. *)
Definition compile_templates (env : Env) (trigger : string) : Method unit :=
  if negb (existsb (String.eqb trigger) top_level_blocks)
  then raise AssertionError
  else
    let! self := get_self in
    mfor_each (dvalues (modules self))
      (fun module =>
         let! compilations :=
           lift (let? blk := ditem (AstralityModule.module_config module) trigger in
                 let? c := getitem blk "compile" in
                 py_iter c) in
         compile_compilations env compilations).

(** The loop over the commands of one module in [startup], [on_event],
    [exit] and [modified]: the timeout is looked up, then the command run. *)
Definition run_commands (env : Env) (commands : list string) : Method unit :=
  mfor_each commands
    (fun command =>
       let! self := get_self in
       let! _ := lift (config_option self "settings/astrality" "run_timeout") in
       run_shell env command).

(** [ModuleManager.startup]. *)
Definition startup (env : Env) : Method unit :=
  let! self := get_self in
  let! _ :=
    mfor_each (dvalues (modules self))
      (fun module =>
         let! startup_commands :=
           lift (AstralityModule.startup_commands env module) in
         run_commands env startup_commands) in
  let! _ := modify_self (fun self => set_startup_done self true) in
  modify_self (fun self => set_watcher_running self true).

(** [ModuleManager.on_event]. *)
Definition on_event (env : Env) : Method unit :=
  let! self := get_self in
  let! _ :=
    mfor_each (dvalues (modules self))
      (fun module =>
         let! on_event_commands :=
           lift (AstralityModule.on_event_commands env module) in
         run_commands env on_event_commands) in
  modify_self (fun self => set_last_module_events self (module_events env self)).

(** [ModuleManager.exit]. *)
Definition exit (env : Env) : Method unit :=
  let! self := get_self in
  let! _ :=
    mfor_each (dvalues (modules self))
      (fun module =>
         let! exit_commands :=
           lift (AstralityModule.exit_commands env module) in
         run_commands env exit_commands) in
  let! self := get_self in
  let! _ :=
    mfor_each (temp_files self)
      (fun temp_file => in_world (do_effect (TempFileClosed temp_file))) in
  modify_self (fun self => set_watcher_running self false).

(** [ModuleManager.finish_tasks]. *)
Definition finish_tasks (env : Env) : Method unit :=
  let! self := get_self in
  if negb (startup_done self) then
    let! _ :=
      modify_self
        (fun self => set_last_module_events self (module_events env self)) in
    let! _ := import_context_sections env "on_startup" in
    let! _ := compile_templates env "on_startup" in
    startup env
  else if negb (dict_eqb String.eqb (last_module_events self)
                  (module_events env self)) then
    let! _ := import_context_sections env "on_event" in
    let! _ := compile_templates env "on_event" in
    on_event env
  else ret tt.

(** [ModuleManager.has_unfinished_tasks]. *)
Definition has_unfinished_tasks (env : Env) (self : t) : bool :=
  if negb (startup_done self) then true
  else negb (dict_eqb String.eqb (last_module_events self)
               (module_events env self)).

(** While an instance is built, the registry of templates and the list
    [temp_files] are the object the loops of [prepare_templates] write. *)
Definition Preparing (A : Type) : Type :=
  ST ((dict Template * list Path) * World) A.

(** [ModuleManager.create_temp_file]. *)
Definition create_temp_file (env : Env) (name : string) : Preparing Path :=
  fun s =>
    let '((templates, temp_files), w) := s in
    let temp_file := temp_file_name env (temp_files_created w) (name ++ "-") in
    (((templates, (temp_files ++ [temp_file])%list),
      {| trace := (trace w ++ [TempFileCreated temp_file])%list;
         temp_files_created := S (temp_files_created w) |}),
     Ok temp_file).

(** The blocks of a module that can hold compile actions. *)
Definition blocks_of (module : AstralityModule.t) : Result (list pyval) :=
  let cfg := AstralityModule.module_config module in
  let? on_startup := ditem cfg "on_startup" in
  let? on_event := ditem cfg "on_event" in
  let? on_exit := ditem cfg "on_exit" in
  let? on_modified := ditem cfg "on_modified" in
  let? entries := as_dict on_modified in
  Ok ([on_startup; on_event; on_exit] ++ dvalues entries)%list.

(** [ModuleManager.prepare_templates]. *)
Definition prepare_templates (env : Env) (config_directory : Path)
  (modules : list AstralityModule.t) : Preparing unit :=
  mfor_each modules
    (fun module =>
       let! blocks := lift (blocks_of module) in
       mfor_each blocks
         (fun block =>
            let! compile_actions :=
              lift (let? c := getitem block "compile" in py_iter c) in
            mfor_each compile_actions
              (fun compile_action =>
                 let! specified_source :=
                   lift (let? v := getitem compile_action "template" in
                         as_str v) in
                 let! absolute_source :=
                   lift (expand_path_in env config_directory specified_source) in
                 let! has_target := lift (py_contains compile_action "target") in
                 let! target :=
                   if has_target then
                     let! t :=
                       lift (let? v := getitem compile_action "target" in
                             as_str v) in
                     lift (expand_path_in env config_directory t)
                   else create_temp_file env (AstralityModule.name module) in
                 let! st := get_fst in
                 put_fst
                   (dset (fst st) specified_source
                      {| source := absolute_source; target := target |},
                    snd st)))).

(** [ModuleManager.find_on_modified_paths]. *)
Definition find_on_modified_paths (env : Env) (config_directory : Path)
  (modules : list AstralityModule.t) : Result (dict WatchedFile) :=
  for_each modules
    (fun on_modified_paths module =>
       let? on_modified := ditem (AstralityModule.module_config module) "on_modified" in
       let? entries := as_dict on_modified in
       for_each (dkeys entries)
         (fun paths watched_for_modification =>
            let? on_modified_path :=
              expand_path_in env config_directory watched_for_modification in
            Ok (dset paths on_modified_path
                  {| path := on_modified_path;
                     module := module;
                     specified_path := watched_for_modification |}))
         on_modified_paths)
    [].

(** [ModuleManager.generate_string_replacements]. *)
Definition generate_string_replacements (templates : dict Template)
  : dict string :=
  fold_left (fun acc kv => dset acc (fst kv) (target (snd kv))) templates [].

(** The loop of the constructor over the sections of the configuration. A
    module normalizes its section in place, so the configuration the manager
    keeps holds the normalized section. *)
Definition load_modules (env : Env) (config : ApplicationConfig)
  : ST ((ApplicationConfig * dict AstralityModule.t) * World) unit :=
  mfor_each config
    (fun kv =>
       let module_config := [kv] in
       let! st := get_fst in
       let! _ :=
         lift (let? s := ditem (fst st) "settings/astrality" in
               ditem s "requires_timeout") in
       let! _ :=
         lift (let? r := ditem (fst st) "_runtime" in
               ditem r "config_directory") in
       let! valid :=
         in_snd (AstralityModule.valid_class_section env module_config) in
       if valid then
         let! module := lift (AstralityModule.__init__ env module_config) in
         put_fst
           (dset (fst st) (fst kv) (AstralityModule.module_config module),
            dset (snd st) (AstralityModule.name module) module)
       else ret tt).

(** [ModuleManager.__init__]. *)
Definition __init__ (env : Env) (config : ApplicationConfig) : M t :=
  let! config_directory :=
    lift (let? r := ditem config "_runtime" in
          let? v := ditem r "config_directory" in
          as_str v) in
  let! temp_directory :=
    lift (let? r := ditem config "_runtime" in
          let? v := ditem r "temp_directory" in
          as_str v) in
  let application_context := compiler_context env config in
  let! loaded := run_with (config, []) (load_modules env config) in
  let '((config', modules), _) := loaded in
  let! prepared :=
    run_with ([], []) (prepare_templates env config_directory (dvalues modules)) in
  let '((templates, temp_files), _) := prepared in
  let! on_modified_paths :=
    lift (find_on_modified_paths env config_directory (dvalues modules)) in
  let! watched :=
    lift (let? r := ditem config' "_runtime" in
          let? v := ditem r "config_directory" in
          as_str v) in
  ret {| application_config := config';
         config_directory := config_directory;
         temp_directory := temp_directory;
         application_context := application_context;
         modules := modules;
         startup_done := false;
         last_module_events := [];
         templates := templates;
         string_replacements := generate_string_replacements templates;
         on_modified_paths := on_modified_paths;
         temp_files := temp_files;
         directory_watcher := {| directory := watched; running := false |} |}.

Definition any_exception (e : exn) : bool := true.

(** [ModuleManager.modified]. The assignment [self = new_module_manager]
    rebinds a local name: the rest of the [try] block runs on the new
    instance, and the instance the method was called on is the one the
    caller keeps. *)
Definition modified (env : Env) (modified : Path) : Method unit :=
  let! self := get_self in
  let! runtime_directory :=
    lift (let? v := config_option self "_runtime" "config_directory" in
          as_str v) in
  if String.eqb modified (PyPath.join runtime_directory "astrality.yaml") then
    let! hot_reload := lift (config_option self "settings/astrality" "hot_reload") in
    if negb (truthy hot_reload) then ret tt
    else
      let! new_application_config :=
        in_world (Config.user_configuration env (Some (PyPath.parent modified))) in
      try_except
        (let! new_module_manager :=
           in_world (__init__ env new_application_config) in
         let! _ := exit env in
         let! _ := call_on new_module_manager (finish_tasks env) in
         ret tt)
        any_exception
        (in_world
           (do_effect (LogError "New configuration detected, but it is invalid!")))
  else if negb (dmem (on_modified_paths self) modified) then ret tt
  else
    let! watched_file := lift (ditem (on_modified_paths self) modified) in
    let module := module watched_file in
    let specified_path := specified_path watched_file in
    let! template := lift (ditem (templates self) specified_path) in
    let! compilations :=
      lift (let? on_modified :=
              ditem (AstralityModule.module_config module) "on_modified" in
            let? blk := getitem on_modified specified_path in
            let? c := getitem blk "compile" in
            py_iter c) in
    let! _ := compile_compilations env compilations in
    let! modified_commands :=
      lift (AstralityModule.modified_commands env module specified_path) in
    run_commands env modified_commands.

(** [ModuleManager.__len__]. *)
Definition __len__ (self : t) : nat := List.length (modules self).

(** [ModuleManager.time_until_next_event]. [time_left] is what
    [listener.time_until_next_event()] returns, a [timedelta] counted in
    microseconds; [min] of no value raises [ValueError], which is [None]
    here. *)
Definition time_until_next_event (time_left : EventListener -> Z) (self : t)
  : option Z :=
  match map (fun module => time_left (AstralityModule.event_listener module))
          (dvalues (modules self)) with
  | [] => None
  | first :: rest => Some (fold_left Z.min rest first)
  end.

End ModuleManager.

(** ** Vocabulary of the statements *)

(** Every run of [c] relates the state before to the state after, whether it
    returns or raises. *)
Definition preserves {S A : Type} (R : S -> S -> Prop) (c : ST S A) : Prop :=
  forall s s' r, c s = (s', r) -> R s s'.

(** The attribute [f] of [self] is the same before and after. *)
Definition keeps {X : Type} (f : ModuleManager.t -> X)
  (s s' : ModuleManager.t * World) : Prop :=
  f (fst s') = f (fst s).

(** The world after the effects [es] were added to its trace. *)
Definition add_effects (w : World) (es : list effect) : World :=
  {| trace := (trace w ++ es)%list; temp_files_created := temp_files_created w |}.

(** The list an event block holds for one kind of action. *)
Definition block_list (cfg : Section_) (event_block action : string)
  : Result (list pyval) :=
  let? blk := ditem cfg event_block in
  let? v := getitem blk action in
  as_list v.

(** The position of a top-level block in the order in which
    [import_trigger_actions] goes through them. *)
Definition resolution_rank (event_block : string) : nat :=
  if String.eqb event_block "on_startup" then 0
  else if String.eqb event_block "on_event" then 1
  else 2.

(** The first path component of a section name. *)
Definition first_component (section : string) : string :=
  hd EmptyString (PyStr.split "/" section).

(** The template a compile action resolves to in the registry. *)
Definition resolves (self : ModuleManager.t) (compilation : pyval)
  (template : Template) : Prop :=
  exists specified_path,
    getitem compilation "template" = Ok (PStr specified_path)
    /\ dget (ModuleManager.templates self) specified_path = Some template.

(** What compiling one template leaves in the trace: the compilation, or the
    error record when the source is missing. *)
Definition compilation_outcome (env : Env) (self : ModuleManager.t)
  (template : Template) : effect :=
  if is_file env (source template)
  then Compile (source template) (target template)
         (ModuleManager.application_context self)
  else LogError (ModuleManager.template_missing (source template)
                   (target template)).

(** No module reports another event in [env'] than in [env]. *)
Definition same_events (env env' : Env) (self : ModuleManager.t) : Prop :=
  forall name m,
    In (name, m) (ModuleManager.modules self) ->
    listener_event env' (AstralityModule.event_listener m)
    = listener_event env (AstralityModule.event_listener m).

(** An event block that holds a list for each of the four kinds of action. *)
Definition holds_lists (blk : pyval) : Prop :=
  exists d, blk = PDict d
    /\ forall a, In a action_kinds -> exists l, dget d a = Some (PList l).

(** The list normalization makes of what a block declares for one kind of
    action: nothing declared, a list, or a single action. *)
Definition normal_action (declared : option pyval) : list pyval :=
  match declared with
  | None => []
  | Some (PList l) => l
  | Some v => [v]
  end.




(** What running a command of a module leaves in the trace: the shell
    command, with the placeholders of the templates replaced by their
    targets. *)
Definition shell_effect (self : ModuleManager.t) (command : string) : effect :=
  Shell (ModuleManager.interpolate_string self command).

(** The registry of templates is complete for a manager: every block of
    every managed module has a compile list, and each compile action in it
    resolves to a template of the registry. *)
Definition registry_complete (self : ModuleManager.t) : Prop :=
  forall name m,
    In (name, m) (ModuleManager.modules self) ->
    exists blocks,
      ModuleManager.blocks_of m = Ok blocks
      /\ forall blk, In blk blocks ->
           exists compilations,
             (let? c := getitem blk "compile" in py_iter c) = Ok compilations
             /\ forall c, In c compilations -> exists t, resolves self c t.

(** An entry of the registry of watched paths is sound: it is keyed by the
    expansion of its specified path, and its module is managed and has an
    [on_modified] entry for that specified path. *)
Definition watched_entry_sound (env : Env) (self : ModuleManager.t) (p : Path)
  (watched_file : WatchedFile) : Prop :=
  path watched_file = p
  /\ ModuleManager.expand_path env self (specified_path watched_file) = Ok p
  /\ (exists name, In (name, module watched_file) (ModuleManager.modules self))
  /\ exists entries,
       dget (AstralityModule.module_config (module watched_file)) "on_modified"
       = Some (PDict entries)
       /\ In (specified_path watched_file) (dkeys entries).

(** The templates of the registry while it is being prepared are kept. *)
Definition registry_grows
  (s s' : (dict Template * list Path) * World) : Prop :=
  forall k, dmem (fst (fst s)) k = true -> dmem (fst (fst s')) k = true.

(** A compile action is registered in the registry being prepared. *)
Definition registered (c : pyval) (s : (dict Template * list Path) * World)
  : Prop :=
  exists sp,
    (let? v := getitem c "template" in as_str v) = Ok sp
    /\ dmem (fst (fst s)) sp = true.

(** The registry of watched paths covers a module: every key of the
    [on_modified] block of the module is registered under its expanded
    path. *)
Definition watches_module (env : Env) (self : ModuleManager.t)
  (m : AstralityModule.t) : Prop :=
  exists entries,
    dget (AstralityModule.module_config m) "on_modified" = Some (PDict entries)
    /\ forall k, In k (dkeys entries) ->
         exists p,
           ModuleManager.expand_path env self k = Ok p
           /\ dmem (ModuleManager.on_modified_paths self) p = true.

(** The entries of a dictionary, each value replaced by [f] of it. *)
Definition map_values {V W : Type} (f : V -> W) (d : dict V) : dict W :=
  map (fun kv => (fst kv, f (snd kv))) d.

(** The context a list of imports leaves, done one after the other from the
    application context of the manager. *)
Definition context_after (env : Env) (self : ModuleManager.t)
  (imports : list ContextSectionImport) : Result Context :=
  for_each imports
    (fun context csi =>
       let? from_config_file :=
         ModuleManager.expand_path env self (from_config_file csi) in
       insert_into env context (into_section csi) (from_section csi)
         from_config_file)
    (ModuleManager.application_context self).

(** The batch of a trigger for a manager: for each module, in order, its
    context imports, the templates its compile actions resolve to and its
    commands. [context] is what the imports leave, and no template that
    exists fails to render. *)
Definition batch (env : Env) (self : ModuleManager.t) (trigger : string)
  (commands_of : Env -> AstralityModule.t -> Result (list string))
  (imports : list (list ContextSectionImport)) (context : Context)
  (templates : list (list Template)) (commands : list (list string)) : Prop :=
  Forall2
    (fun m i => AstralityModule.context_section_imports env m trigger = Ok i)
    (dvalues (ModuleManager.modules self)) imports
  /\ context_after env self (concat imports) = Ok context
  /\ Forall2
       (fun m ts =>
          exists compilations,
            (let? blk := ditem (AstralityModule.module_config m) trigger in
             let? c := getitem blk "compile" in
             py_iter c) = Ok compilations
            /\ Forall2 (resolves self) compilations ts)
       (dvalues (ModuleManager.modules self)) templates
  /\ (forall t, In t (concat templates) -> is_file env (source t) = true ->
                render_failure env (source t) (target t) = None)
  /\ Forall2 (fun m cs => commands_of env m = Ok cs)
       (dvalues (ModuleManager.modules self)) commands.

(** What a batch leaves in the trace: the outcome of each compilation, then
    each command. *)
Definition batch_effects (env : Env) (self : ModuleManager.t)
  (templates : list (list Template)) (commands : list (list string))
  : list effect :=
  (map (compilation_outcome env self) (concat templates)
   ++ map (shell_effect self) (concat commands))%list.

(** ** Concrete configurations *)

Module Examples.

(** Modelled from the spec: [astrality/event_listener.py] is not part of the
    sources. The spec's end-to-end property has a listener declared as
    [{type: static, value: now}] report the event [now]; a listener with no
    declared value reports the name of its type here. *)
Definition declared_event (l : EventListener) : string :=
  match l with
  | Listener (PDict d) =>
      match dget d "value", dget d "type" with
      | Some (PStr v), _ => v
      | _, Some (PStr ty) => ty
      | _, _ => "static"
      end
  | Listener _ => "static"
  end.

(** Modelled from the spec: [astrality.config.insert_into] with the keyword
    [context] is not part of the sources. The spec's context import protocol
    overwrites the named subtree of the context with the subtree of that name
    loaded from the file, and imports the whole file when both section
    fields are unset. [files] gives the sections of the files that exist. *)
Definition spec_insert_into (files : dict Context) (context : Context)
  (section from_section : option string) (from_config_file : Path)
  : Result Context :=
  match dget files from_config_file with
  | None => Raise (RuntimeError "Could not load config file.")
  | Some contents =>
      match section, from_section with
      | Some into, Some from =>
          let? subtree := ditem contents from in Ok (dset context into subtree)
      | None, None => Ok (dupdate context contents)
      | _, _ => Raise KeyError
      end
  end.

(** An environment given by the regular files that exist, the importable
    configuration files and what the parser makes of the root
    configuration. *)
Definition env_of (existing : list Path) (files : dict Context)
  (root : Result ApplicationConfig) : Env :=
  {| event_listener_factory := fun config => Ok (Listener config);
     listener_event := declared_event;
     shell_succeeds := fun _ => true;
     is_file := fun p => existsb (String.eqb p) existing;
     is_dir := fun _ => true;
     mkdir_failure := fun _ => None;
     home := "/home/user";
     user_home :=
       fun username =>
         if String.eqb username "root" then Ok "/root"
         else Raise (RuntimeError
                       ("Can't determine home directory for '" ++ username
                        ++ "'"));
     compiler_context := fun config => config;
     render_failure := fun _ _ => None;
     insert_into := spec_insert_into files;
     configparser_read := fun _ => root;
     expanded_env := [];
     astrality_config_home := None;
     xdg_config_home := None;
     tmpdir := None;
     source_root := "/usr/lib/astrality";
     temp_file_name := fun n prefix => ("/tmp/" ++ prefix ++ "tmp")%string |}.

Definition env0 : Env := env_of [] [] (Ok []).

Definition w0 : World := {| trace := []; temp_files_created := 0 |}.

Definition settings (hot_reload : bool) : string * Section_ :=
  ("settings/astrality",
   [("hot_reload", PBool hot_reload);
    ("requires_timeout", PInt 1);
    ("run_timeout", PInt 1)]).

Definition runtime : string * Section_ :=
  ("_runtime",
   [("config_directory", PStr "/cfg");
    ("config_file", PStr "/cfg/astrality.conf");
    ("temp_directory", PStr "/tmp/astrality")]).

(** What [__init__] returns on a configuration, for configurations it
    accepts. *)
Definition manager_of (env : Env) (config : ApplicationConfig)
  : option ModuleManager.t :=
  match ModuleManager.__init__ env config w0 with
  | (_, Ok self) => Some self
  | (_, Raise _) => None
  end.

(** A module that triggers [on_startup] from [on_exit] and from a watched
    file, [on_startup] itself triggering [on_event]. *)
Definition chained_triggers : Section_ :=
  [("on_startup",
    PDict [("run", PList [PStr "b"]); ("trigger", PStr "on_event")]);
   ("on_event", PDict [("run", PStr "c")]);
   ("on_exit",
    PDict [("run", PList [PStr "a"]); ("trigger", PStr "on_startup")]);
   ("on_modified",
    PDict [("notes.txt",
            PDict [("run", PStr "y"); ("trigger", PStr "on_startup")])])].

(** The module of the spec's end-to-end property. *)
Definition echo_event : Section_ :=
  [("event_listener",
    PDict [("type", PStr "static"); ("value", PStr "now")]);
   ("on_startup", PDict [("run", PStr "echo {event}")])].

(** A module that watches the root configuration file. *)
Definition watches_root : ApplicationConfig :=
  [settings false; runtime;
   ("module/m",
    [("on_modified",
      PDict [("astrality.yaml", PDict [("run", PStr "echo changed")])])])].

(** A module that watches a file no compile action names. *)
Definition watches_notes (hot_reload : bool) : ApplicationConfig :=
  [settings hot_reload; runtime;
   ("module/m",
    [("on_modified",
      PDict [("notes.txt", PDict [("run", PStr "echo changed")])])])].

(** A module whose block for a watched template imports a context section,
    compiles the template and runs a command; [on_exit] imports the same
    section. *)
Definition dark_colors : pyval :=
  PDict [("from_path", PStr "colors.conf");
         ("from_section", PStr "dark");
         ("to_section", PStr "colors")].

Definition imports_on_modified : ApplicationConfig :=
  [settings false; runtime;
   ("module/m",
    [("on_startup", PDict [("import_context", dark_colors)]);
     ("on_modified",
      PDict [("bar.tpl",
              PDict [("import_context", dark_colors);
                     ("compile",
                      PDict [("template", PStr "bar.tpl");
                             ("target", PStr "/out/bar")]);
                     ("run", PStr "reload {bar.tpl}")])])])].

Definition colors_file : dict Context :=
  [("/cfg/colors.conf", [("dark", [("background", PStr "black")])])].

Definition env_colors : Env := env_of ["/cfg/bar.tpl"] colors_file (Ok []).

(** Two templates compiled at startup, the first of which is missing. *)
Definition two_templates : ApplicationConfig :=
  [settings false; runtime;
   ("module/m",
    [("on_startup",
      PDict [("compile",
              PList [PDict [("template", PStr "missing.tpl");
                            ("target", PStr "/out/missing")];
                     PDict [("template", PStr "bar.tpl");
                            ("target", PStr "/out/bar")]]);
             ("run", PStr "echo {event}")])])].

(** The root configuration file exists and is not well formed. *)
Definition env_unparsable : Env :=
  env_of ["/cfg/astrality.conf"] []
    (Raise (ParsingError "File contains no section headers.")).

(** The root configuration file parses, and lacks the settings section a
    manager needs. *)
Definition env_unusable : Env :=
  env_of ["/cfg/astrality.conf"] [] (Ok [("DEFAULT", [])]).

Definition blank_module : AstralityModule.t :=
  {| AstralityModule.name := EmptyString;
     AstralityModule.module_config := [];
     AstralityModule.event_listener := Listener PNone |}.

(** The module [__init__] makes of a section, for sections it accepts. *)
Definition module_of (env : Env) (section : string) (options : Section_)
  : AstralityModule.t :=
  match AstralityModule.__init__ env [(section, options)] with
  | Ok m => m
  | Raise _ => blank_module
  end.

Definition normalized (options : Section_) : Section_ :=
  match AstralityModule.populate_event_blocks options with
  | Ok norm => norm
  | Raise _ => []
  end.

Definition chained_module : AstralityModule.t :=
  Eval vm_compute in module_of env0 "module/m" chained_triggers.

Definition chained_normalized : Section_ :=
  Eval vm_compute in normalized chained_triggers.

Definition echo_module : AstralityModule.t :=
  Eval vm_compute in module_of env0 "module/test" echo_event.

Definition silent_module : AstralityModule.t :=
  Eval vm_compute in module_of env0 "module/test" [].

Definition blank_manager : ModuleManager.t :=
  {| ModuleManager.application_config := [];
     ModuleManager.config_directory := EmptyString;
     ModuleManager.temp_directory := EmptyString;
     ModuleManager.application_context := [];
     ModuleManager.modules := [];
     ModuleManager.startup_done := false;
     ModuleManager.last_module_events := [];
     ModuleManager.templates := [];
     ModuleManager.string_replacements := [];
     ModuleManager.on_modified_paths := [];
     ModuleManager.temp_files := [];
     ModuleManager.directory_watcher :=
       {| directory := EmptyString; running := false |} |}.

Definition manager (env : Env) (config : ApplicationConfig) : ModuleManager.t :=
  match manager_of env config with
  | Some self => self
  | None => blank_manager
  end.

Definition root_watcher : ModuleManager.t :=
  Eval vm_compute in manager env0 watches_root.

Definition notes_watcher : ModuleManager.t :=
  Eval vm_compute in manager env0 (watches_notes false).

Definition reloading_manager : ModuleManager.t :=
  Eval vm_compute in manager env0 (watches_notes true).

Definition bar_manager : ModuleManager.t :=
  Eval vm_compute in manager env_colors imports_on_modified.

Definition two_templates_manager : ModuleManager.t :=
  Eval vm_compute in manager env_colors two_templates.

(** The manager of [two_templates] and the world after a first
    [finish_tasks]. *)
Definition started : ModuleManager.t * World :=
  Eval vm_compute in
    fst (ModuleManager.finish_tasks env_colors (two_templates_manager, w0)).

(** A module whose [on_exit] block triggers itself. *)
Definition self_triggered : Section_ :=
  [("on_exit", PDict [("run", PList [PStr "a"; PStr "b"]);
                      ("trigger", PStr "on_exit")])].

Definition self_triggered_module : AstralityModule.t :=
  Eval vm_compute in module_of env0 "module/m" self_triggered.

Definition self_triggered_normalized : Section_ :=
  Eval vm_compute in normalized self_triggered.

(** A module whose [on_startup] block triggers the block of a watched file,
    and one that triggers a block that is not there. *)
Definition dotted_trigger : Section_ :=
  [("on_startup", PDict [("run", PStr "first");
                         ("trigger", PStr "on_modified.notes.txt")]);
   ("on_modified",
    PDict [("notes.txt", PDict [("run", PList [PStr "y"; PStr "z"])])])].

Definition dotted_module : AstralityModule.t :=
  Eval vm_compute in module_of env0 "module/m" dotted_trigger.

Definition dotted_normalized : Section_ :=
  Eval vm_compute in normalized dotted_trigger.




(** Listeners that declare the seconds left to their next event, and a
    manager of two modules with such listeners. *)
Definition seconds_left (l : EventListener) : Z :=
  match l with
  | Listener (PDict d) =>
      match dget d "seconds" with
      | Some (PInt n) => (n * 1000000)%Z
      | _ => 0%Z
      end
  | Listener _ => 0%Z
  end.

Definition two_listeners : ApplicationConfig :=
  [settings false; runtime;
   ("module/a",
    [("event_listener", PDict [("type", PStr "periodic"); ("seconds", PInt 10)])]);
   ("module/b",
    [("event_listener", PDict [("type", PStr "periodic"); ("seconds", PInt 5)])])].

Definition two_listeners_manager : ModuleManager.t :=
  Eval vm_compute in manager env0 two_listeners.

(** A module that compiles a template to a temporary file at startup, uses
    the file in a command, and says goodbye at exit. *)
Definition temporary_target : ApplicationConfig :=
  [settings false; runtime;
   ("module/m",
    [("on_startup",
      PDict [("compile", PDict [("template", PStr "bar.tpl")]);
             ("run", PStr "cat {bar.tpl}")]);
     ("on_exit", PDict [("run", PStr "echo bye {event}")])])].

Definition temporary_manager : ModuleManager.t :=
  Eval vm_compute in manager env_colors temporary_target.

(** What the parser makes of a configuration file with one section of its
    own, and an environment where that file is the root configuration. *)
Definition parsed_file : ApplicationConfig :=
  [("DEFAULT", []);
   ("colors", [("background", PStr "black")]);
   ("env", [("shadowed", PStr "yes")])].

Definition env_parsed : Env :=
  {| event_listener_factory := event_listener_factory env0;
     listener_event := listener_event env0;
     shell_succeeds := shell_succeeds env0;
     is_file := fun p => String.eqb p "/cfg/astrality.conf";
     is_dir := fun _ => false;
     mkdir_failure := mkdir_failure env0;
     home := home env0;
     user_home := user_home env0;
     compiler_context := compiler_context env0;
     render_failure := render_failure env0;
     insert_into := insert_into env0;
     configparser_read := fun _ => Ok parsed_file;
     expanded_env := [("HOME", PStr "/home/user")];
     astrality_config_home := Some "/cfg";
     xdg_config_home := None;
     tmpdir := None;
     source_root := source_root env0;
     temp_file_name := temp_file_name env0 |}.

(** The configuration [user_configuration] loads there. *)
Definition loaded_configuration : ApplicationConfig :=
  Eval vm_compute in
    match snd (Config.user_configuration env_parsed None w0) with
    | Ok config => config
    | Raise _ => []
    end.

(** Two modules with commands for a change of event. *)
Definition announcing : ApplicationConfig :=
  [settings false; runtime;
   ("module/a",
    [("on_event", PDict [("run", PList [PStr "echo a"; PStr "echo {event}"])])]);
   ("module/b", [("on_event", PDict [("run", PStr "echo b")])])].

Definition announcing_manager : ModuleManager.t :=
  Eval vm_compute in manager env0 announcing.

(** A module with the three kinds of action at startup and when the event
    changes. *)
Definition two_batches : ApplicationConfig :=
  [settings false; runtime;
   ("module/m",
    [("on_startup",
      PDict [("import_context", dark_colors);
             ("compile",
              PDict [("template", PStr "bar.tpl"); ("target", PStr "/out/bar")]);
             ("run", PStr "reload {bar.tpl}")]);
     ("on_event",
      PDict [("import_context",
              PDict [("from_path", PStr "colors.conf");
                     ("from_section", PStr "dark");
                     ("to_section", PStr "{event}")]);
             ("compile",
              PDict [("template", PStr "missing.tpl");
                     ("target", PStr "/out/missing")]);
             ("run", PStr "echo {event}")])])].

Definition two_batches_manager : ModuleManager.t :=
  Eval vm_compute in manager env_colors two_batches.

(** The same environment at an instant when every listener reports
    [night]. *)
Definition env_night : Env :=
  {| event_listener_factory := event_listener_factory env_colors;
     listener_event := fun _ => "night";
     shell_succeeds := shell_succeeds env_colors;
     is_file := is_file env_colors;
     is_dir := is_dir env_colors;
     mkdir_failure := mkdir_failure env_colors;
     home := home env_colors;
     user_home := user_home env_colors;
     compiler_context := compiler_context env_colors;
     render_failure := render_failure env_colors;
     insert_into := insert_into env_colors;
     configparser_read := configparser_read env_colors;
     expanded_env := expanded_env env_colors;
     astrality_config_home := astrality_config_home env_colors;
     xdg_config_home := xdg_config_home env_colors;
     tmpdir := tmpdir env_colors;
     source_root := source_root env_colors;
     temp_file_name := temp_file_name env_colors |}.

(** The manager of [two_batches] and the world after a first
    [finish_tasks], and after another one at night. *)
Definition two_batches_started : ModuleManager.t * World :=
  Eval vm_compute in
    fst (ModuleManager.finish_tasks env_colors (two_batches_manager, w0)).

Definition two_batches_at_night : ModuleManager.t * World :=
  Eval vm_compute in
    fst (ModuleManager.finish_tasks env_night two_batches_started).

End Examples.

Import Examples.

(** * Facts *)

(** ** [str.replace] *)

Lemma replace_aux_skip (old new s : string) (skip : nat) :
  PyStr.replace_aux old new s skip
  = PyStr.replace_aux old new (PyStr.slice_from skip s) 0.
Proof.
  revert skip. induction s as [|c s IH]; intros [|k]; try reflexivity.
  simpl. apply IH.
Qed.

(** Where the string starts with [old], the occurrence is replaced and the
    scan goes on behind it. *)
Lemma replace_at_occurrence (c : ascii) (old new s : string) :
  String.prefix (String c old) s = true ->
  PyStr.replace (String c old) new s
  = (new ++ PyStr.replace (String c old) new
              (PyStr.slice_from (String.length (String c old)) s))%string.
Proof.
  intros H. unfold PyStr.replace.
  destruct s as [|c' s]; [discriminate|].
  cbn [PyStr.replace_aux]. rewrite H. f_equal.
  rewrite replace_aux_skip. simpl. rewrite Nat.sub_0_r. reflexivity.
Qed.

(** Where it does not, the first character is kept. *)
Lemma replace_elsewhere (c c' : ascii) (old new s : string) :
  String.prefix (String c old) (String c' s) = false ->
  PyStr.replace (String c old) new (String c' s)
  = String c' (PyStr.replace (String c old) new s).
Proof.
  intros H. unfold PyStr.replace. cbn [PyStr.replace_aux]. rewrite H.
  reflexivity.
Qed.

(** ** Results and loops *)

Lemma rbind_Ok {A B : Type} (r : Result A) (k : A -> Result B) (b : B) :
  rbind r k = Ok b -> exists a, r = Ok a /\ k a = Ok b.
Proof.
  destruct r as [a|e]; simpl; intros H; [eauto | discriminate].
Qed.

(** Unfolds the first binding of a successful computation in [H]. *)
Ltac bind_as H a E := apply rbind_Ok in H; destruct H as [a [E H]].

Lemma for_each_invariant {A S : Type} (P : S -> Prop)
  (f : S -> A -> Result S) (l : list A) :
  (forall s x s', P s -> f s x = Ok s' -> P s') ->
  forall s s', P s -> for_each l f s = Ok s' -> P s'.
Proof.
  intros Hf. induction l as [|x l IH]; simpl; intros s s' Hs H.
  - inversion H; subst; assumption.
  - bind_as H s1 E. eapply IH; [eapply Hf; eassumption | exact H].
Qed.

(** ** Dictionaries *)

Section DictFacts.
Context {V : Type}.
Implicit Types (d : dict V) (k : string) (v : V).

Lemma dget_dset_same d k v : dget (dset d k v) k = Some v.
Proof.
  induction d as [|[k' v'] d IH]; simpl.
  - rewrite String.eqb_refl. reflexivity.
  - destruct (String.eqb k k') eqn:E; simpl; rewrite E; [reflexivity | exact IH].
Qed.

Lemma dget_dset_other d k k' v : k <> k' -> dget (dset d k v) k' = dget d k'.
Proof.
  intros Hne. induction d as [|[k0 v0] d IH]; simpl.
  - destruct (String.eqb_spec k' k); [congruence | reflexivity].
  - destruct (String.eqb_spec k k0) as [->|Hk]; simpl.
    + destruct (String.eqb_spec k' k0); [congruence | reflexivity].
    + destruct (String.eqb k' k0); [reflexivity | exact IH].
Qed.

Lemma dkeys_dset d k v :
  dkeys (dset d k v) = if dmem d k then dkeys d else dkeys d ++ [k].
Proof.
  unfold dmem. induction d as [|[k' v'] d IH]; simpl; [reflexivity|].
  destruct (String.eqb k k') eqn:E; simpl; [reflexivity|].
  rewrite IH. destruct (dget d k); reflexivity.
Qed.

Lemma dget_None_not_In d k : dget d k = None -> ~ In k (dkeys d).
Proof.
  induction d as [|[k' v'] d IH]; simpl; intros H; [tauto|].
  destruct (String.eqb_spec k k') as [->|Hk]; [discriminate|].
  intros [Heq|Hin]; [congruence | exact (IH H Hin)].
Qed.

Lemma NoDup_snoc {A : Type} (l : list A) (x : A) :
  NoDup l -> ~ In x l -> NoDup (l ++ [x]).
Proof.
  induction 1 as [|y l Hy Hl IH]; simpl; intros Hx.
  - constructor; [tauto | constructor].
  - constructor.
    + rewrite in_app_iff. simpl. intros [H|[H|[]]]; [tauto | subst; tauto].
    + apply IH. tauto.
Qed.

Lemma NoDup_dkeys_dset d k v : NoDup (dkeys d) -> NoDup (dkeys (dset d k v)).
Proof.
  intros Hd. rewrite dkeys_dset. unfold dmem.
  destruct (dget d k) eqn:E; [exact Hd|].
  apply NoDup_snoc; [exact Hd | apply dget_None_not_In; exact E].
Qed.

End DictFacts.

Lemma dget_In_NoDup {V : Type} (d : dict V) (k : string) (v : V) :
  NoDup (dkeys d) -> In (k, v) d -> dget d k = Some v.
Proof.
  induction d as [|[k' v'] d IH]; simpl; intros Hnd Hin; [tauto|].
  inversion Hnd as [|? ? Hk' Hd]; subst.
  destruct Hin as [Heq|Hin].
  - inversion Heq; subst. rewrite String.eqb_refl. reflexivity.
  - destruct (String.eqb_spec k k') as [->|Hne].
    + exfalso. apply Hk'. apply (in_map fst) in Hin. exact Hin.
    + apply IH; assumption.
Qed.

Lemma dict_eqb_refl (d : dict string) :
  NoDup (dkeys d) -> dict_eqb String.eqb d d = true.
Proof.
  intros Hnd. unfold dict_eqb. rewrite Nat.eqb_refl. simpl.
  apply forallb_forall. intros [k v] Hin. simpl.
  rewrite (dget_In_NoDup d k v Hnd Hin). apply String.eqb_refl.
Qed.

(** ** Normalization of the event blocks *)

Lemma block_list_ext (cfg cfg' : Section_) (blk action : string) :
  dget cfg' blk = dget cfg blk ->
  block_list cfg' blk action = block_list cfg blk action.
Proof.
  intros H. unfold block_list, ditem. rewrite H. reflexivity.
Qed.

Lemma ditem_Ok {V : Type} (d : dict V) (k : string) (v : V) :
  ditem d k = Ok v -> dget d k = Some v.
Proof.
  unfold ditem. destruct (dget d k); intros H; inversion H; reflexivity.
Qed.

Lemma getitem_Ok (v : pyval) (k : string) (x : pyval) :
  getitem v k = Ok x -> exists d, v = PDict d /\ dget d k = Some x.
Proof.
  destruct v; simpl; try discriminate. intros H. eauto using ditem_Ok.
Qed.

(** One pass of the loop of [listify_actions] leaves a list under the action
    it looks at and touches no other key. *)
Lemma listify_step (blk blk' : pyval) (action : string) :
  (let? v := getitem blk action in
   if is_list v then Ok blk else setitem blk action (PList [v])) = Ok blk' ->
  exists d d',
    blk = PDict d /\ blk' = PDict d'
    /\ (exists l, dget d' action = Some (PList l))
    /\ (forall k, k <> action -> dget d' k = dget d k).
Proof.
  intros H. bind_as H a E. apply getitem_Ok in E. destruct E as [d [-> Hd]].
  destruct (is_list a) eqn:L.
  - inversion H; subst. exists d, d.
    split; [reflexivity|]. split; [reflexivity|]. split; [|reflexivity].
    destruct a; try discriminate. eauto.
  - simpl in H. inversion H; subst.
    exists d, (dset d action (PList [a])).
    split; [reflexivity|]. split; [reflexivity|]. split.
    + eexists. apply dget_dset_same.
    + intros k Hk. apply dget_dset_other. congruence.
Qed.

Lemma listify_actions_lists (blk blk' : pyval) :
  AstralityModule.listify_actions blk = Ok blk' ->
  exists d', blk' = PDict d'
    /\ forall a, In a action_kinds -> exists l, dget d' a = Some (PList l).
Proof.
  unfold AstralityModule.listify_actions, action_kinds. simpl. intros H.
  repeat (let a := fresh "b" in let E := fresh "S" in
          apply rbind_Ok in H; destruct H as [a [E H]];
          apply listify_step in E).
  inversion H; subst; clear H.
  destruct S as (d0 & d1 & -> & -> & [l1 H1] & F1).
  destruct S0 as (d1' & d2 & Heq & -> & [l2 H2] & F2). inversion Heq; subst d1'.
  destruct S1 as (d2' & d3 & Heq' & -> & [l3 H3] & F3). inversion Heq'; subst d2'.
  destruct S2 as (d3' & d4 & Heq'' & -> & [l4 H4] & F4). inversion Heq''; subst d3'.
  exists d4. split; [reflexivity|].
  intros a [<-|[<-|[<-|[<-|[]]]]].
  - exists l1. rewrite F4, F3, F2 by discriminate. exact H1.
  - exists l2. rewrite F4, F3 by discriminate. exact H2.
  - exists l3. rewrite F4 by discriminate. exact H3.
  - exists l4. exact H4.
Qed.

Lemma map_on_modified_frame (f : pyval -> Result pyval) (cfg cfg' : Section_)
  (k : string) :
  AstralityModule.map_on_modified f cfg = Ok cfg' ->
  k <> "on_modified" -> dget cfg' k = dget cfg k.
Proof.
  unfold AstralityModule.map_on_modified. intros H Hk.
  bind_as H om E1. bind_as H entries E2. bind_as H entries' E3.
  inversion H; subst.
  apply dget_dset_other. congruence.
Qed.

Lemma listify_top_level (cfg cfg' : Section_) :
  for_each top_level_blocks
    (fun c event_block =>
       let? blk := ditem c event_block in
       let? blk' := AstralityModule.listify_actions blk in
       Ok (dset c event_block blk'))
    cfg = Ok cfg' ->
  forall blk, In blk top_level_blocks ->
    exists v, dget cfg' blk = Some v /\ holds_lists v.
Proof.
  unfold top_level_blocks. simpl. intros H.
  bind_as H c1 E1. bind_as E1 b1 G1. bind_as E1 n1 L1.
  bind_as H c2 E2. bind_as E2 b2 G2. bind_as E2 n2 L2.
  bind_as H c3 E3. bind_as E3 b3 G3. bind_as E3 n3 L3.
  inversion E1; inversion E2; inversion E3; inversion H; subst; clear E1 E2 E3 H.
  apply listify_actions_lists in L1, L2, L3.
  intros blk [<-|[<-|[<-|[]]]].
  - exists n1. rewrite !dget_dset_other by discriminate.
    rewrite dget_dset_same. split; [reflexivity | exact L1].
  - exists n2. rewrite dget_dset_other by discriminate.
    rewrite dget_dset_same. split; [reflexivity | exact L2].
  - exists n3. rewrite dget_dset_same. split; [reflexivity | exact L3].
Qed.

(** The invariant of the data model: once normalized, each of the three
    top-level blocks holds a list for each of the four kinds of action. *)
Lemma populate_event_blocks_lists (options norm : Section_) (blk action : string) :
  AstralityModule.populate_event_blocks options = Ok norm ->
  In blk top_level_blocks -> In action action_kinds ->
  exists l, block_list norm blk action = Ok l.
Proof.
  unfold AstralityModule.populate_event_blocks. intros H Hblk Hact.
  bind_as H cfg1 E1. bind_as H cfg2 E2. bind_as H cfg3 E3.
  destruct (listify_top_level _ _ E3 blk Hblk) as (v & Hv & d & -> & Hd).
  destruct (Hd action Hact) as [l Hl].
  exists l. unfold block_list, ditem.
  rewrite (map_on_modified_frame _ _ _ blk H).
  - rewrite Hv. simpl. unfold ditem. rewrite Hl. reflexivity.
  - destruct Hblk as [<-|[<-|[<-|[]]]]; discriminate.
Qed.

(** ** Trigger resolution *)

Lemma extend_action_inv (cfg cfg' : Section_) (into : string) (from : pyval)
  (action : string) :
  AstralityModule.extend_action cfg into from action = Ok cfg' ->
  exists d own items,
    dget cfg into = Some (PDict d)
    /\ dget d action = Some (PList own)
    /\ (let? v := getitem from action in py_iter v) = Ok items
    /\ cfg' = dset cfg into (PDict (dset d action (PList (own ++ items)))).
Proof.
  unfold AstralityModule.extend_action. intros H.
  bind_as H blk E1. bind_as H own E2. bind_as H l E3.
  bind_as H imp E4. bind_as H items E5. bind_as H blk' E6.
  apply ditem_Ok in E1. apply getitem_Ok in E2. destruct E2 as [d [-> Hd]].
  destruct own; try discriminate. inversion E3; subst.
  simpl in E6. inversion E6; subst. inversion H; subst.
  exists d, l, items. repeat split; try assumption.
  rewrite E4. simpl. exact E5.
Qed.

Lemma extend_action_other_block (cfg cfg' : Section_) (into : string)
  (from : pyval) (action k : string) :
  AstralityModule.extend_action cfg into from action = Ok cfg' ->
  k <> into -> dget cfg' k = dget cfg k.
Proof.
  intros H Hk. apply extend_action_inv in H.
  destruct H as (d & own & items & _ & _ & _ & ->).
  apply dget_dset_other. congruence.
Qed.

Lemma extend_action_other_action (cfg cfg' : Section_) (into : string)
  (from : pyval) (action action' : string) :
  AstralityModule.extend_action cfg into from action = Ok cfg' ->
  action' <> action ->
  block_list cfg' into action' = block_list cfg into action'.
Proof.
  intros H Ha. apply extend_action_inv in H.
  destruct H as (d & own & items & Hd & _ & _ & ->).
  unfold block_list, ditem. rewrite dget_dset_same, Hd. simpl.
  unfold ditem. rewrite dget_dset_other by congruence. reflexivity.
Qed.

Lemma extend_action_same (cfg cfg' : Section_) (into : string) (from : pyval)
  (action : string) :
  AstralityModule.extend_action cfg into from action = Ok cfg' ->
  exists own items,
    block_list cfg into action = Ok own
    /\ (let? v := getitem from action in py_iter v) = Ok items
    /\ block_list cfg' into action = Ok (own ++ items).
Proof.
  intros H. apply extend_action_inv in H.
  destruct H as (d & own & items & Hd & Hown & Hitems & ->).
  exists own, items. unfold block_list, ditem.
  rewrite dget_dset_same, Hd. simpl. unfold ditem.
  rewrite dget_dset_same, Hown. simpl. auto.
Qed.

(** Extending one list of a block keeps every list of every block a list. *)
Lemma extend_action_keeps_lists (cfg cfg' : Section_) (into : string)
  (from : pyval) (action blk a : string) :
  AstralityModule.extend_action cfg into from action = Ok cfg' ->
  (exists l, block_list cfg blk a = Ok l) ->
  exists l, block_list cfg' blk a = Ok l.
Proof.
  intros H [l Hl].
  destruct (String.eqb_spec blk into) as [->|Hblk].
  - destruct (String.eqb_spec a action) as [->|Ha].
    + destruct (extend_action_same _ _ _ _ _ H) as (own & items & _ & _ & Hr).
      eauto.
    + rewrite (extend_action_other_action _ _ _ _ _ a H Ha). eauto.
  - rewrite (block_list_ext cfg cfg' blk a
               (extend_action_other_block _ _ _ _ _ blk H Hblk)).
    eauto.
Qed.

Lemma import_event_block_other_block (cfg cfg' : Section_) (from : pyval)
  (into k : string) :
  AstralityModule._import_event_block cfg from into = Ok cfg' ->
  k <> into -> dget cfg' k = dget cfg k.
Proof.
  unfold AstralityModule._import_event_block. intros H Hk.
  bind_as H name E0. bind_as H fd E1. bind_as H c1 E2. bind_as H c2 E3.
  rewrite (extend_action_other_block _ _ _ _ _ k H Hk).
  rewrite (extend_action_other_block _ _ _ _ _ k E3 Hk).
  exact (extend_action_other_block _ _ _ _ _ k E2 Hk).
Qed.

Lemma import_event_block_keeps_lists (cfg cfg' : Section_) (from : pyval)
  (into blk a : string) :
  AstralityModule._import_event_block cfg from into = Ok cfg' ->
  (exists l, block_list cfg blk a = Ok l) ->
  exists l, block_list cfg' blk a = Ok l.
Proof.
  unfold AstralityModule._import_event_block. intros H Hl.
  bind_as H name E0. bind_as H fd E1. bind_as H c1 E2. bind_as H c2 E3.
  eauto using extend_action_keeps_lists.
Qed.

Lemma import_triggers_of_other_block (cfg cfg' : Section_) (blk k : string) :
  AstralityModule.import_triggers_of cfg blk = Ok cfg' ->
  k <> blk -> dget cfg' k = dget cfg k.
Proof.
  unfold AstralityModule.import_triggers_of. intros H Hk.
  bind_as H b E0. bind_as H has E1.
  destruct has; [|inversion H; reflexivity].
  bind_as H trig E2. bind_as H l E3.
  revert H. apply for_each_invariant with (P := fun c => dget c k = dget cfg k).
  - intros s x s' Hs Hx.
    rewrite (import_event_block_other_block _ _ _ _ k Hx Hk). exact Hs.
  - reflexivity.
Qed.

Lemma import_triggers_of_keeps_lists (cfg cfg' : Section_) (blk b a : string) :
  AstralityModule.import_triggers_of cfg blk = Ok cfg' ->
  (exists l, block_list cfg b a = Ok l) ->
  exists l, block_list cfg' b a = Ok l.
Proof.
  unfold AstralityModule.import_triggers_of. intros H Hl.
  bind_as H b0 E0. bind_as H has E1.
  destruct has; [|inversion H; subst; exact Hl].
  bind_as H trig E2. bind_as H l E3.
  revert H.
  apply for_each_invariant with (P := fun c => exists l, block_list c b a = Ok l).
  - intros s x s' Hs Hx. eauto using import_event_block_keeps_lists.
  - exact Hl.
Qed.

(** A block that declares no trigger is left as it is. *)
Lemma import_triggers_of_none (cfg cfg' : Section_) (blk : string) :
  (let? b := ditem cfg blk in getitem b "trigger") = Ok (PList []) ->
  AstralityModule.import_triggers_of cfg blk = Ok cfg' -> cfg' = cfg.
Proof.
  unfold AstralityModule.import_triggers_of. intros Ht H.
  bind_as Ht b Eb. rewrite Eb in H. simpl in H.
  bind_as H has E1. destruct has; [|inversion H; reflexivity].
  rewrite Ht in H. simpl in H. inversion H. reflexivity.
Qed.

(** A block that declares the one trigger [B], a top-level block: its run list
    gets the run list of [B], as [B] stands then, appended. *)
Lemma import_triggers_of_single (cfg cfg' : Section_) (A B : string)
  (imported : list pyval) :
  In B top_level_blocks ->
  (let? b := ditem cfg A in getitem b "trigger") = Ok (PList [PStr B]) ->
  block_list cfg B "run" = Ok imported ->
  AstralityModule.import_triggers_of cfg A = Ok cfg' ->
  exists own,
    block_list cfg A "run" = Ok own
    /\ block_list cfg' A "run" = Ok (own ++ imported).
Proof.
  unfold AstralityModule.import_triggers_of. intros HB Ht Himp H.
  bind_as Ht b Eb. rewrite Eb in H. simpl in H.
  bind_as H has E1.
  apply getitem_Ok in Ht. destruct Ht as [d [-> Hd]].
  simpl in E1. unfold dmem in E1. rewrite Hd in E1. inversion E1; subst has.
  simpl in H. unfold ditem in H. rewrite Hd in H. simpl in H.
  bind_as H c1 E2. inversion H; subst c1; clear H.
  unfold AstralityModule._import_event_block in E2. simpl in E2.
  assert (Hc : PyStr.contains "on_modified." B = false).
  { destruct HB as [<-|[<-|[<-|[]]]]; reflexivity. }
  rewrite Hc in E2.
  bind_as E2 fd F0. bind_as E2 c1 F1. bind_as E2 c2 F2.
  destruct (extend_action_same _ _ _ _ _ F1) as (own & items & Hown & Hitems & Hr).
  exists own. split; [exact Hown|].
  rewrite (extend_action_other_action _ _ _ _ _ "run" E2) by discriminate.
  rewrite (extend_action_other_action _ _ _ _ _ "run" F2) by discriminate.
  rewrite Hr. f_equal. f_equal.
  unfold block_list in Himp. rewrite F0 in Himp. simpl in Himp.
  bind_as Himp v G. rewrite G in Hitems. simpl in Hitems.
  destruct v; try discriminate. simpl in *. congruence.
Qed.

Lemma trigger_ext (cfg cfg' : Section_) (blk : string) :
  dget cfg' blk = dget cfg blk ->
  (let? b := ditem cfg' blk in getitem b "trigger")
  = (let? b := ditem cfg blk in getitem b "trigger").
Proof.
  intros H. unfold ditem. rewrite H. reflexivity.
Qed.

(** The three passes of [import_trigger_actions], one per top-level block. *)
Lemma import_trigger_actions_inv (cfg cfg' : Section_) :
  AstralityModule.import_trigger_actions cfg = Ok cfg' ->
  exists c1 c2,
    AstralityModule.import_triggers_of cfg "on_startup" = Ok c1
    /\ AstralityModule.import_triggers_of c1 "on_event" = Ok c2
    /\ AstralityModule.import_triggers_of c2 "on_exit" = Ok cfg'.
Proof.
  unfold AstralityModule.import_trigger_actions. intros H.
  bind_as H b1 E1. bind_as H b2 E2. bind_as H b3 E3. bind_as H om E4.
  bind_as H entries E5. bind_as H c1 S1. bind_as H c2 S2. bind_as H c3 S3.
  destruct (AstralityModule.trigger_among_values entries); [discriminate|].
  inversion H; subst. eauto.
Qed.

Lemma init_inv (env : Env) (section : string) (options : Section_)
  (m : AstralityModule.t) :
  AstralityModule.__init__ env [(section, options)] = Ok m ->
  exists norm,
    AstralityModule.populate_event_blocks options = Ok norm
    /\ AstralityModule.import_trigger_actions norm
       = Ok (AstralityModule.module_config m).
Proof.
  unfold AstralityModule.__init__. intros H.
  bind_as H n E0. bind_as H cfg1 E1. bind_as H cfg2 E2. bind_as H l E3.
  inversion H; subst. simpl. eauto.
Qed.

(** C3. After construction the [on_modified] mapping of a module is the
    normalized one: whatever triggers an entry of [on_modified] declares, no
    action of a referenced block is appended to its lists. *)
Theorem on_modified_entries_import_nothing (env : Env) (section : string)
  (options : Section_) (m : AstralityModule.t) :
  AstralityModule.__init__ env [(section, options)] = Ok m ->
  exists norm,
    AstralityModule.populate_event_blocks options = Ok norm
    /\ dget (AstralityModule.module_config m) "on_modified"
       = dget norm "on_modified".
Proof.
  intros H. destruct (init_inv _ _ _ _ H) as (norm & Hn & Hi).
  exists norm. split; [exact Hn|].
  destruct (import_trigger_actions_inv _ _ Hi) as (c1 & c2 & S1 & S2 & S3).
  rewrite (import_triggers_of_other_block _ _ _ "on_modified" S3) by discriminate.
  rewrite (import_triggers_of_other_block _ _ _ "on_modified" S2) by discriminate.
  apply (import_triggers_of_other_block _ _ _ "on_modified" S1). discriminate.
Qed.

Lemma on_modified_entries_import_nothing_witness :
  exists norm,
    AstralityModule.populate_event_blocks chained_triggers = Ok norm
    /\ dget (AstralityModule.module_config chained_module) "on_modified"
       = dget norm "on_modified".
Proof.
  apply (on_modified_entries_import_nothing env0 "module/m" chained_triggers
           chained_module).
  reflexivity.
Defined.

(** The entry for [notes.txt] declares the trigger [on_startup] and keeps the
    one command it declared. *)
Lemma watched_entry_keeps_its_own_run :
  AstralityModule.__init__ env0 [("module/m", chained_triggers)]
  = Ok chained_module
  /\ AstralityModule.startup_commands env0 chained_module = Ok ["b"; "c"]
  /\ dget (AstralityModule.module_config chained_module) "on_modified"
     = Some (PDict [("notes.txt",
                     PDict [("import_context", PList []);
                            ("compile", PList []);
                            ("run", PList [PStr "y"]);
                            ("trigger", PList [PStr "on_startup"])])])
  /\ AstralityModule.modified_commands env0 chained_module "notes.txt"
     = Ok ["y"].
Proof.
  repeat split; reflexivity.
Qed.

(** The run list of a top-level block that declares one trigger, through the
    three passes. *)
Lemma top_level_trigger_run_list (env : Env) (section : string)
  (options norm : Section_) (m : AstralityModule.t) (A B : string) :
  AstralityModule.__init__ env [(section, options)] = Ok m ->
  AstralityModule.populate_event_blocks options = Ok norm ->
  In A top_level_blocks -> In B top_level_blocks -> A <> B ->
  (let? b := ditem norm A in getitem b "trigger") = Ok (PList [PStr B]) ->
  exists own imported,
    block_list norm A "run" = Ok own
    /\ block_list
         (if Nat.ltb (resolution_rank B) (resolution_rank A)
          then AstralityModule.module_config m else norm) B "run"
       = Ok imported
    /\ block_list (AstralityModule.module_config m) A "run"
       = Ok (own ++ imported).
Proof.
  intros H Hn HA HB Hne Ht.
  destruct (init_inv _ _ _ _ H) as (norm' & Hn' & Hi).
  rewrite Hn in Hn'. inversion Hn'; subst norm'. clear Hn'.
  destruct (import_trigger_actions_inv _ _ Hi) as (c1 & c2 & S1 & S2 & S3).
  set (final := AstralityModule.module_config m) in *.
  assert (F1 : forall k, k <> "on_startup" -> dget c1 k = dget norm k)
    by (intros; eapply import_triggers_of_other_block; eassumption).
  assert (F2 : forall k, k <> "on_event" -> dget c2 k = dget c1 k)
    by (intros; eapply import_triggers_of_other_block; eassumption).
  assert (F3 : forall k, k <> "on_exit" -> dget final k = dget c2 k)
    by (intros; eapply import_triggers_of_other_block; eassumption).
  assert (L0 : exists l, block_list norm B "run" = Ok l).
  { eapply populate_event_blocks_lists; try eassumption. simpl. tauto. }
  assert (L1 : exists l, block_list c1 B "run" = Ok l)
    by (eapply import_triggers_of_keeps_lists; eassumption).
  assert (L2 : exists l, block_list c2 B "run" = Ok l)
    by (eapply import_triggers_of_keeps_lists; eassumption).
  destruct L0 as [l0 L0], L1 as [l1 L1], L2 as [l2 L2].
  destruct HA as [<-|[<-|[<-|[]]]]; destruct HB as [<-|[<-|[<-|[]]]];
    try congruence; simpl.
  - (* on_startup triggers on_event *)
    destruct (import_triggers_of_single _ _ _ "on_event" l0 ltac:(simpl; tauto) Ht L0 S1)
      as (own & Hown & Hr).
    exists own, l0. repeat split; try assumption.
    rewrite (block_list_ext c2 final) by (apply F3; discriminate).
    rewrite (block_list_ext c1 c2) by (apply F2; discriminate). exact Hr.
  - (* on_startup triggers on_exit *)
    destruct (import_triggers_of_single _ _ _ "on_exit" l0 ltac:(simpl; tauto) Ht L0 S1)
      as (own & Hown & Hr).
    exists own, l0. repeat split; try assumption.
    rewrite (block_list_ext c2 final) by (apply F3; discriminate).
    rewrite (block_list_ext c1 c2) by (apply F2; discriminate). exact Hr.
  - (* on_event triggers on_startup, resolved before *)
    rewrite <- (trigger_ext norm c1) in Ht by (apply F1; discriminate).
    destruct (import_triggers_of_single _ _ _ "on_startup" l1 ltac:(simpl; tauto) Ht L1 S2)
      as (own & Hown & Hr).
    exists own, l1. repeat split.
    + rewrite <- (block_list_ext norm c1) by (apply F1; discriminate). exact Hown.
    + rewrite (block_list_ext c2 final) by (apply F3; discriminate).
      rewrite (block_list_ext c1 c2) by (apply F2; discriminate). exact L1.
    + rewrite (block_list_ext c2 final) by (apply F3; discriminate). exact Hr.
  - (* on_event triggers on_exit *)
    rewrite <- (trigger_ext norm c1) in Ht by (apply F1; discriminate).
    rewrite <- (block_list_ext norm c1) in L0 by (apply F1; discriminate).
    destruct (import_triggers_of_single _ _ _ "on_exit" l0 ltac:(simpl; tauto) Ht L0 S2)
      as (own & Hown & Hr).
    exists own, l0. repeat split.
    + rewrite <- (block_list_ext norm c1) by (apply F1; discriminate). exact Hown.
    + rewrite <- (block_list_ext norm c1) by (apply F1; discriminate). exact L0.
    + rewrite (block_list_ext c2 final) by (apply F3; discriminate). exact Hr.
  - (* on_exit triggers on_startup, resolved before *)
    rewrite <- (trigger_ext norm c1) in Ht by (apply F1; discriminate).
    rewrite <- (trigger_ext c1 c2) in Ht by (apply F2; discriminate).
    destruct (import_triggers_of_single _ _ _ "on_startup" l2 ltac:(simpl; tauto) Ht L2 S3)
      as (own & Hown & Hr).
    exists own, l2. repeat split.
    + rewrite <- (block_list_ext norm c1) by (apply F1; discriminate).
      rewrite <- (block_list_ext c1 c2) by (apply F2; discriminate). exact Hown.
    + rewrite (block_list_ext c2 final) by (apply F3; discriminate). exact L2.
    + exact Hr.
  - (* on_exit triggers on_event, resolved before *)
    rewrite <- (trigger_ext norm c1) in Ht by (apply F1; discriminate).
    rewrite <- (trigger_ext c1 c2) in Ht by (apply F2; discriminate).
    destruct (import_triggers_of_single _ _ _ "on_event" l2 ltac:(simpl; tauto) Ht L2 S3)
      as (own & Hown & Hr).
    exists own, l2. repeat split.
    + rewrite <- (block_list_ext norm c1) by (apply F1; discriminate).
      rewrite <- (block_list_ext c1 c2) by (apply F2; discriminate). exact Hown.
    + rewrite (block_list_ext c2 final) by (apply F3; discriminate). exact L2.
    + exact Hr.
Qed.

(** C5, as amended. A top-level block [A] that declares the one trigger [B],
    another top-level block, ends with its own declared run commands followed
    by the run list of [B] as it stands when [A] is resolved: the declared one
    when [B] is resolved after [A], and the final, already augmented one when
    [B] is resolved before [A]. *)
Theorem single_trigger_run_list (env : Env) (section : string)
  (options norm : Section_) (m : AstralityModule.t) (A B : string) :
  AstralityModule.__init__ env [(section, options)] = Ok m ->
  AstralityModule.populate_event_blocks options = Ok norm ->
  In A top_level_blocks -> In B top_level_blocks -> A <> B ->
  (let? b := ditem norm A in getitem b "trigger") = Ok (PList [PStr B]) ->
  exists own imported,
    block_list norm A "run" = Ok own
    /\ block_list
         (if Nat.ltb (resolution_rank B) (resolution_rank A)
          then AstralityModule.module_config m else norm) B "run"
       = Ok imported
    /\ block_list (AstralityModule.module_config m) A "run"
       = Ok (own ++ imported).
Proof.
  exact (top_level_trigger_run_list env section options norm m A B).
Qed.

(** C5, as stated, fails: [on_exit] declares the trigger [on_startup], whose
    own trigger [on_event] was resolved before, and the command of [on_event]
    ends in the run list of [on_exit]. *)
Lemma trigger_expansion_is_not_single_level :
  AstralityModule.__init__ env0 [("module/m", chained_triggers)]
  = Ok chained_module
  /\ AstralityModule.populate_event_blocks chained_triggers
     = Ok chained_normalized
  /\ block_list chained_normalized "on_exit" "trigger" = Ok [PStr "on_startup"]
  /\ block_list chained_normalized "on_exit" "run" = Ok [PStr "a"]
  /\ block_list chained_normalized "on_startup" "run" = Ok [PStr "b"]
  /\ block_list (AstralityModule.module_config chained_module) "on_exit" "run"
     = Ok [PStr "a"; PStr "b"; PStr "c"]
  /\ block_list (AstralityModule.module_config chained_module) "on_exit" "run"
     <> Ok ([PStr "a"] ++ [PStr "b"]).
Proof.
  repeat split; try reflexivity. discriminate.
Qed.

Lemma single_trigger_run_list_witness :
  exists own imported,
    block_list chained_normalized "on_exit" "run" = Ok own
    /\ block_list
         (if Nat.ltb (resolution_rank "on_startup") (resolution_rank "on_exit")
          then AstralityModule.module_config chained_module
          else chained_normalized) "on_startup" "run"
       = Ok imported
    /\ block_list (AstralityModule.module_config chained_module) "on_exit" "run"
       = Ok (own ++ imported).
Proof.
  apply (single_trigger_run_list env0 "module/m" chained_triggers
           chained_normalized chained_module "on_exit" "on_startup").
  - reflexivity.
  - reflexivity.
  - simpl. tauto.
  - simpl. tauto.
  - discriminate.
  - reflexivity.
Defined.

(** Where the expansion is single-level: the triggered block declares no
    trigger of its own, or is resolved after the block that triggers it. *)
Lemma single_trigger_single_level (env : Env) (section : string)
  (options norm : Section_) (m : AstralityModule.t) (A B : string) :
  AstralityModule.__init__ env [(section, options)] = Ok m ->
  AstralityModule.populate_event_blocks options = Ok norm ->
  In A top_level_blocks -> In B top_level_blocks -> A <> B ->
  (let? b := ditem norm A in getitem b "trigger") = Ok (PList [PStr B]) ->
  (let? b := ditem norm B in getitem b "trigger") = Ok (PList [])
  \/ resolution_rank A < resolution_rank B ->
  exists own imported,
    block_list norm A "run" = Ok own
    /\ block_list norm B "run" = Ok imported
    /\ block_list (AstralityModule.module_config m) A "run"
       = Ok (own ++ imported).
Proof.
  intros H Hn HA HB Hne Ht Hsingle.
  destruct (top_level_trigger_run_list _ _ _ _ _ _ _ H Hn HA HB Hne Ht)
    as (own & imported & Hown & Himp & Hr).
  exists own, imported. repeat split; try assumption.
  destruct (Nat.ltb_spec (resolution_rank B) (resolution_rank A)) as [Hlt|Hge];
    [|exact Himp].
  destruct Hsingle as [Hnone|Hgt]; [|lia].
  rewrite <- Himp. symmetry. apply block_list_ext.
  destruct (init_inv _ _ _ _ H) as (norm' & Hn' & Hi).
  rewrite Hn in Hn'. inversion Hn'; subst norm'.
  destruct (import_trigger_actions_inv _ _ Hi) as (c1 & c2 & S1 & S2 & S3).
  assert (F1 : forall k, k <> "on_startup" -> dget c1 k = dget norm k)
    by (intros; eapply import_triggers_of_other_block; eassumption).
  assert (F2 : forall k, k <> "on_event" -> dget c2 k = dget c1 k)
    by (intros; eapply import_triggers_of_other_block; eassumption).
  assert (F3 : forall k, k <> "on_exit" ->
                 dget (AstralityModule.module_config m) k = dget c2 k)
    by (intros; eapply import_triggers_of_other_block; eassumption).
  destruct HB as [<-|[<-|[<-|[]]]].
  - rewrite (import_triggers_of_none _ _ _ Hnone S1) in *.
    rewrite F3, F2 by discriminate. reflexivity.
  - rewrite <- (trigger_ext norm c1) in Hnone by (apply F1; discriminate).
    rewrite (import_triggers_of_none _ _ _ Hnone S2) in *.
    rewrite F3, F1 by discriminate. reflexivity.
  - destruct HA as [<-|[<-|[<-|[]]]];
      unfold resolution_rank in Hlt; simpl in Hlt; lia.
Qed.

(** ** The accessors of a module *)

Lemma map_result_interpolate (env : Env) (m : AstralityModule.t)
  (commands : list string) :
  map_result (AstralityModule.interpolate_string env m) (map PStr commands)
  = Ok (map (PyStr.replace "{event}"
               (listener_event env (AstralityModule.event_listener m)))
          commands).
Proof.
  induction commands as [|c l IH]; simpl; [reflexivity|].
  rewrite IH. reflexivity.
Qed.

(** C8. [startup_commands] returns the run commands of [on_startup], in
    their order, each with [{event}] replaced by what the listener of the
    module reports; with no command it returns the empty tuple. *)
Theorem startup_commands_interpolated (env : Env) (m : AstralityModule.t)
  (blk : pyval) (commands : list string) :
  dget (AstralityModule.module_config m) "on_startup" = Some blk ->
  getitem blk "run" = Ok (PList (map PStr commands)) ->
  AstralityModule.startup_commands env m
  = Ok (map (PyStr.replace "{event}"
               (listener_event env (AstralityModule.event_listener m)))
          commands).
Proof.
  intros Hblk Hrun. unfold AstralityModule.startup_commands, ditem.
  rewrite Hblk. simpl. rewrite Hrun. simpl.
  unfold AstralityModule.interpolated_commands. simpl.
  destruct commands as [|c l]; [reflexivity|].
  apply (map_result_interpolate env m (c :: l)).
Qed.

Lemma startup_commands_echo_now :
  AstralityModule.__init__ env0 [("module/test", echo_event)] = Ok echo_module
  /\ listener_event env0 (AstralityModule.event_listener echo_module) = "now"
  /\ AstralityModule.startup_commands env0 echo_module = Ok ["echo now"].
Proof.
  split; [reflexivity|]. split; [reflexivity|].
  exact (startup_commands_interpolated env0 echo_module
           (PDict [("import_context", PList []); ("compile", PList []);
                   ("run", PList [PStr "echo {event}"]); ("trigger", PList [])])
           ["echo {event}"] eq_refl eq_refl).
Defined.

Lemma startup_commands_none_declared :
  AstralityModule.__init__ env0 [("module/test", [])] = Ok silent_module
  /\ AstralityModule.startup_commands env0 silent_module = Ok [].
Proof.
  split; reflexivity.
Qed.

(** C4. The assertion of [context_section_imports] lists [on_startup] twice
    and [on_exit] not at all: for the trigger [on_exit] the method raises
    [AssertionError], whatever the module. *)
Theorem context_section_imports_rejects_on_exit (env : Env)
  (m : AstralityModule.t) :
  AstralityModule.context_section_imports env m "on_exit" = Raise AssertionError.
Proof.
  reflexivity.
Qed.

Lemma context_section_imports_accepts_startup_and_event (env : Env)
  (m : AstralityModule.t) (trigger : string) (blk : dict pyval) :
  trigger = "on_startup" \/ trigger = "on_event" ->
  dget (AstralityModule.module_config m) trigger = Some (PDict blk) ->
  dget blk "import_context" = Some (PList []) ->
  AstralityModule.context_section_imports env m trigger = Ok [].
Proof.
  intros [-> | ->] Hblk Himp; unfold AstralityModule.context_section_imports;
    simpl; rewrite Hblk; simpl; rewrite Himp; reflexivity.
Qed.

(** ** [valid_class_section] *)

Lemma split_first (section : string) :
  exists rest, PyStr.split "/" section = first_component section :: rest.
Proof.
  unfold first_component.
  destruct section as [|c s]; simpl; [eauto|].
  destruct (Ascii.eqb c "/"); simpl; [eauto|].
  destruct (PyStr.split "/" s); simpl; eauto.
Qed.

(** C7. On a one-key mapping [valid_class_section] returns false when the
    first path component of the key is not [module], false when the section
    sets [enabled] to false, true when the component is [module] and neither
    [enabled] nor [requires] is set; on a mapping that has not exactly one
    key it raises. *)
Theorem valid_class_section_cases (env : Env) (w : World) :
  (forall name options,
      first_component name <> "module" ->
      AstralityModule.valid_class_section env [(name, options)] w
      = (w, Ok false))
  /\ (forall name options,
         dget options "enabled" = Some (PBool false) ->
         AstralityModule.valid_class_section env [(name, options)] w
         = (w, Ok false))
  /\ (forall name options,
         first_component name = "module" ->
         dget options "enabled" = None ->
         dget options "requires" = None ->
         AstralityModule.valid_class_section env [(name, options)] w
         = (w, Ok true))
  /\ (forall section,
         List.length section <> 1 ->
         exists msg,
           AstralityModule.valid_class_section env section w
           = (w, Raise (RuntimeError msg))).
Proof.
  repeat split.
  - intros name options Hname. unfold AstralityModule.valid_class_section.
    destruct (split_first name) as [rest ->].
    destruct (String.eqb_spec (first_component name) "module"); [contradiction|].
    reflexivity.
  - intros name options Hen. unfold AstralityModule.valid_class_section.
    rewrite Hen. simpl. rewrite andb_false_r. reflexivity.
  - intros name options Hname Hen Hreq.
    unfold AstralityModule.valid_class_section.
    destruct (split_first name) as [rest ->].
    rewrite Hname, Hen, Hreq. reflexivity.
  - intros section Hlen. unfold AstralityModule.valid_class_section.
    destruct section as [|[k v] [|kv rest]]; simpl in Hlen;
      try (eexists; reflexivity). lia.
Qed.

Lemma valid_class_section_examples :
  AstralityModule.valid_class_section env0 [("not-module/x", [])] w0
  = (w0, Ok false)
  /\ AstralityModule.valid_class_section env0
       [("module/x", [("enabled", PBool false)])] w0
     = (w0, Ok false)
  /\ AstralityModule.valid_class_section env0 [("module/x", [])] w0
     = (w0, Ok true)
  /\ (exists msg,
         AstralityModule.valid_class_section env0 [] w0
         = (w0, Raise (RuntimeError msg)))
  /\ (exists msg,
         AstralityModule.valid_class_section env0
           [("module/x", []); ("module/y", [])] w0
         = (w0, Raise (RuntimeError msg))).
Proof.
  destruct (valid_class_section_cases env0 w0) as (Hname & Hen & Hok & Hlen).
  split; [apply Hname; discriminate|].
  split; [apply Hen; reflexivity|].
  split; [apply Hok; reflexivity|].
  split; apply Hlen; discriminate.
Defined.

(** ** Methods: what a call can change *)

Lemma mbind_Ok {S A B : Type} (c : ST S A) (k : A -> ST S B) (s s' : S) (b : B) :
  mbind c k s = (s', Ok b) ->
  exists a s1, c s = (s1, Ok a) /\ k a s1 = (s', Ok b).
Proof.
  unfold mbind. destruct (c s) as [s1 [a|e]]; intros H; [eauto | discriminate].
Qed.

Ltac mbind_as H a s E := apply mbind_Ok in H; destruct H as (a & s & E & H).

Section Keeps.
Context {X : Type} (f : ModuleManager.t -> X).

Lemma keeps_ret {A : Type} (a : A) : preserves (keeps f) (ret a).
Proof. intros s s' r H. inversion H. reflexivity. Qed.

Lemma keeps_raise {A : Type} (e : exn) : preserves (keeps f) (@raise _ A e).
Proof. intros s s' r H. inversion H. reflexivity. Qed.

Lemma keeps_lift {A : Type} (x : Result A) : preserves (keeps f) (lift x).
Proof. intros s s' r H. inversion H. reflexivity. Qed.

Lemma keeps_get_self : preserves (keeps f) ModuleManager.get_self.
Proof. intros s s' r H. inversion H. reflexivity. Qed.

Lemma keeps_in_world {A : Type} (c : M A) :
  preserves (keeps f) (ModuleManager.in_world c).
Proof.
  intros [self w] s' r H. unfold ModuleManager.in_world, in_snd in H. simpl in H.
  destruct (c w) as [w' r']. inversion H. reflexivity.
Qed.

Lemma keeps_call_on {A : Type} (other : ModuleManager.t)
  (c : ModuleManager.Method A) :
  preserves (keeps f) (ModuleManager.call_on other c).
Proof.
  unfold ModuleManager.call_on. intros [self w] s' r H.
  unfold in_snd in H. simpl in H.
  destruct (run_with other c w) as [w' r']. inversion H. reflexivity.
Qed.

Lemma keeps_modify_self (g : ModuleManager.t -> ModuleManager.t) :
  (forall self, f (g self) = f self) ->
  preserves (keeps f) (ModuleManager.modify_self g).
Proof.
  intros Hg s s' r H. inversion H. unfold keeps. simpl. apply Hg.
Qed.

Lemma keeps_bind {A B : Type} (c : ModuleManager.Method A)
  (k : A -> ModuleManager.Method B) :
  preserves (keeps f) c -> (forall a, preserves (keeps f) (k a)) ->
  preserves (keeps f) (mbind c k).
Proof.
  intros Hc Hk s s' r H. unfold mbind in H.
  destruct (c s) as [s1 [a|e]] eqn:E.
  - unfold keeps. rewrite (Hk a _ _ _ H). exact (Hc _ _ _ E).
  - inversion H; subst. exact (Hc _ _ _ E).
Qed.

Lemma keeps_try_except {A : Type} (body handler : ModuleManager.Method A)
  (handles : exn -> bool) :
  preserves (keeps f) body -> preserves (keeps f) handler ->
  preserves (keeps f) (try_except body handles handler).
Proof.
  intros Hb Hh s s' r H. unfold try_except in H.
  destruct (body s) as [s1 [a|e]] eqn:E.
  - inversion H; subst. exact (Hb _ _ _ E).
  - destruct (handles e).
    + unfold keeps. rewrite (Hh _ _ _ H). exact (Hb _ _ _ E).
    + inversion H; subst. exact (Hb _ _ _ E).
Qed.

Lemma keeps_mfor_each {A : Type} (l : list A)
  (body : A -> ModuleManager.Method unit) :
  (forall x, preserves (keeps f) (body x)) ->
  preserves (keeps f) (mfor_each l body).
Proof.
  intros Hb. induction l as [|x l IH]; simpl.
  - apply keeps_ret.
  - apply keeps_bind; [apply Hb | intros _; exact IH].
Qed.

End Keeps.

(** Goes through the code of a method that keeps an attribute. *)
Ltac keeps_step :=
  first
    [ apply keeps_bind; [ | intros ? ]
    | apply keeps_ret
    | apply keeps_raise
    | apply keeps_lift
    | apply keeps_get_self
    | apply keeps_in_world
    | apply keeps_call_on
    | apply keeps_try_except
    | apply keeps_mfor_each; intros ?
    | apply keeps_modify_self; intros ?; reflexivity
    | match goal with
      | |- preserves _ (if ?b then _ else _) => destruct b
      end ].

Ltac keeps_all := repeat keeps_step.

Section KeptByMethods.
Context {X : Type} (f : ModuleManager.t -> X) (env : Env).

Ltac keeps_method :=
  keeps_all; try (apply keeps_modify_self; intros ?; auto).

Lemma run_commands_keeps (commands : list string) :
  preserves (keeps f) (ModuleManager.run_commands env commands).
Proof. unfold ModuleManager.run_commands. keeps_method. Qed.

Lemma compile_compilations_keeps (compilations : list pyval) :
  preserves (keeps f) (ModuleManager.compile_compilations env compilations).
Proof. unfold ModuleManager.compile_compilations. keeps_method. Qed.

Lemma compile_templates_keeps (trigger : string) :
  preserves (keeps f) (ModuleManager.compile_templates env trigger).
Proof. unfold ModuleManager.compile_templates. keeps_method. Qed.

Lemma import_context_sections_keeps (trigger : string) :
  (forall self c, f (ModuleManager.set_application_context self c) = f self) ->
  preserves (keeps f) (ModuleManager.import_context_sections env trigger).
Proof.
  intros Hf. unfold ModuleManager.import_context_sections. keeps_method.
Qed.

Lemma startup_keeps :
  (forall self b, f (ModuleManager.set_startup_done self b) = f self) ->
  (forall self b, f (ModuleManager.set_watcher_running self b) = f self) ->
  preserves (keeps f) (ModuleManager.startup env).
Proof.
  intros H1 H2. unfold ModuleManager.startup. keeps_method.
Qed.

Lemma on_event_keeps :
  (forall self e, f (ModuleManager.set_last_module_events self e) = f self) ->
  preserves (keeps f) (ModuleManager.on_event env).
Proof.
  intros H1. unfold ModuleManager.on_event. keeps_method.
Qed.

Lemma exit_keeps :
  (forall self b, f (ModuleManager.set_watcher_running self b) = f self) ->
  preserves (keeps f) (ModuleManager.exit env).
Proof.
  intros H1. unfold ModuleManager.exit. keeps_method.
Qed.

End KeptByMethods.

(** C2. Whatever path [modified] is called with, and however the call ends,
    the application context of the manager is the one it had before: the
    context imports of an [on_modified] block are not applied. *)
Theorem modified_leaves_application_context (env : Env) (p : Path)
  (self : ModuleManager.t) (w : World) :
  ModuleManager.application_context
    (fst (fst (ModuleManager.modified env p (self, w))))
  = ModuleManager.application_context self.
Proof.
  assert (H : preserves (keeps ModuleManager.application_context)
                (ModuleManager.modified env p)).
  { unfold ModuleManager.modified. keeps_all. }
  destruct (ModuleManager.modified env p (self, w)) as [s' r] eqn:E.
  exact (H _ _ _ E).
Qed.

(** ** The run loop *)

Lemma NoDup_module_events_from (env : Env)
  (l : dict AstralityModule.t) (acc : dict string) :
  NoDup (dkeys acc) ->
  NoDup (dkeys
           (fold_left
              (fun module_events kv =>
                 dset module_events (fst kv)
                   (listener_event env (AstralityModule.event_listener (snd kv))))
              l acc)).
Proof.
  revert acc. induction l as [|kv l IH]; simpl; intros acc H; [exact H|].
  apply IH. apply NoDup_dkeys_dset. exact H.
Qed.

Lemma NoDup_module_events (env : Env) (self : ModuleManager.t) :
  NoDup (dkeys (ModuleManager.module_events env self)).
Proof.
  apply NoDup_module_events_from. constructor.
Qed.

Lemma module_events_same (env env' : Env) (self self' : ModuleManager.t) :
  ModuleManager.modules self' = ModuleManager.modules self ->
  same_events env env' self ->
  ModuleManager.module_events env' self' = ModuleManager.module_events env self.
Proof.
  unfold ModuleManager.module_events, same_events. intros -> H.
  generalize (@nil (string * string)).
  induction (ModuleManager.modules self) as [|[name m] l IH]; simpl; intros acc;
    [reflexivity|].
  rewrite (H name m) by (left; reflexivity).
  apply IH. intros n' m' Hin. apply (H n' m'). right. exact Hin.
Qed.

Lemma startup_sets_startup_done (env : Env) (s s' : ModuleManager.t * World) :
  ModuleManager.startup env s = (s', Ok tt) ->
  ModuleManager.startup_done (fst s') = true.
Proof.
  unfold ModuleManager.startup. intros H.
  mbind_as H self0 s0 E0. mbind_as H u1 s1 E1. mbind_as H u2 s2 E2.
  inversion E2; subst. inversion H; subst. reflexivity.
Qed.

Lemma on_event_sets_baseline (env : Env) (s s' : ModuleManager.t * World) :
  ModuleManager.on_event env s = (s', Ok tt) ->
  ModuleManager.last_module_events (fst s')
  = ModuleManager.module_events env (fst s')
  /\ ModuleManager.modules (fst s') = ModuleManager.modules (fst s)
  /\ ModuleManager.startup_done (fst s') = ModuleManager.startup_done (fst s).
Proof.
  intros H.
  pose proof (on_event_keeps ModuleManager.modules env
                (fun _ _ => eq_refl) _ _ _ H) as Hm.
  pose proof (on_event_keeps ModuleManager.startup_done env
                (fun _ _ => eq_refl) _ _ _ H) as Hd.
  split; [|split; assumption].
  unfold ModuleManager.on_event in H.
  mbind_as H self0 s0 E0. mbind_as H u1 s1 E1.
  inversion H; subst. reflexivity.
Qed.

(** On a manager that has not started, [finish_tasks] takes the snapshot of
    the events and runs the startup batch: the context imports, the
    compilations and the commands of [on_startup]. *)
Lemma finish_tasks_not_started (env : Env) (self : ModuleManager.t) (w : World) :
  ModuleManager.startup_done self = false ->
  ModuleManager.finish_tasks env (self, w)
  = (let! _ := ModuleManager.import_context_sections env "on_startup" in
     let! _ := ModuleManager.compile_templates env "on_startup" in
     ModuleManager.startup env)
      (ModuleManager.set_last_module_events self
         (ModuleManager.module_events env self), w).
Proof.
  intros H. unfold ModuleManager.finish_tasks.
  unfold mbind at 1. simpl. rewrite H. reflexivity.
Qed.

(** On a started manager whose events are those of the snapshot,
    [finish_tasks] does nothing. *)
Lemma finish_tasks_nothing_due (env : Env) (self : ModuleManager.t) (w : World) :
  ModuleManager.startup_done self = true ->
  dict_eqb String.eqb (ModuleManager.last_module_events self)
    (ModuleManager.module_events env self) = true ->
  ModuleManager.finish_tasks env (self, w) = ((self, w), Ok tt).
Proof.
  intros Hd He. unfold ModuleManager.finish_tasks.
  unfold mbind at 1. simpl. rewrite Hd, He. reflexivity.
Qed.


(** The first call ran the startup batch once: one error record for the
    missing template, one compilation, one command. *)
Lemma finish_tasks_startup_batch :
  map (fun e => match e with
                | Compile s t _ => Compile s t []
                | _ => e
                end) (trace (snd started))
  = [LogError (ModuleManager.template_missing "/cfg/missing.tpl" "/out/missing");
     Compile "/cfg/bar.tpl" "/out/bar" [];
     Shell "echo static"].
Proof.
  reflexivity.
Qed.

(** ** Compilation *)

Lemma add_effects_cons (w : World) (e : effect) (es : list effect) :
  add_effects (emit w e) es = add_effects w (e :: es).
Proof.
  unfold add_effects, emit. simpl. rewrite <- app_assoc. reflexivity.
Qed.

Lemma add_effects_nil (w : World) : add_effects w [] = w.
Proof.
  destruct w. unfold add_effects. simpl. rewrite app_nil_r. reflexivity.
Qed.

Lemma add_effects_app (w : World) (es es' : list effect) :
  add_effects (add_effects w es) es' = add_effects w (es ++ es').
Proof.
  unfold add_effects. simpl. rewrite app_assoc. reflexivity.
Qed.

Lemma compile_template_missing (env : Env) (self : ModuleManager.t) (w : World)
  (source target : Path) :
  is_file env source = false ->
  ModuleManager.compile_template env source target (self, w)
  = ((self, emit w (LogError (ModuleManager.template_missing source target))),
     Ok tt).
Proof.
  intros H. unfold ModuleManager.compile_template, mbind. simpl.
  unfold ModuleManager.in_world, in_snd, try_except,
    ModuleManager.compiler_compile_template. simpl.
  rewrite H. reflexivity.
Qed.

Lemma compile_template_outcome (env : Env) (self : ModuleManager.t) (w : World)
  (t : Template) :
  (is_file env (source t) = true ->
   render_failure env (source t) (target t) = None) ->
  ModuleManager.compile_template env (source t) (target t) (self, w)
  = ((self, emit w (compilation_outcome env self t)), Ok tt).
Proof.
  intros H. unfold compilation_outcome.
  destruct (is_file env (source t)) eqn:E.
  - unfold ModuleManager.compile_template, mbind. simpl.
    unfold ModuleManager.in_world, in_snd, try_except,
      ModuleManager.compiler_compile_template. simpl.
    rewrite E, (H eq_refl). reflexivity.
  - apply compile_template_missing. exact E.
Qed.

Lemma compile_compilations_outcomes (env : Env) (self : ModuleManager.t)
  (compilations : list pyval) (templates : list Template) :
  Forall2 (resolves self) compilations templates ->
  (forall t, In t templates -> is_file env (source t) = true ->
             render_failure env (source t) (target t) = None) ->
  forall w,
    ModuleManager.compile_compilations env compilations (self, w)
    = ((self, add_effects w (map (compilation_outcome env self) templates)),
       Ok tt).
Proof.
  unfold ModuleManager.compile_compilations.
  induction 1 as [|c t cs ts Hc Hcs IH]; intros Hr w; simpl.
  - rewrite add_effects_nil. reflexivity.
  - destruct Hc as (sp & Hsp & Ht).
    unfold mbind at 1. unfold mbind at 1. simpl.
    unfold mbind at 1. simpl. rewrite Hsp. simpl.
    unfold mbind at 1. simpl. unfold ditem. rewrite Ht. simpl.
    rewrite (compile_template_outcome env self w t)
      by (apply Hr; left; reflexivity).
    rewrite IH by (intros t' Hin; apply Hr; right; exact Hin).
    rewrite add_effects_cons. reflexivity.
Qed.

Lemma compile_templates_outcomes (env : Env) (self : ModuleManager.t)
  (trigger : string) (batches : list (list Template)) :
  In trigger top_level_blocks ->
  Forall2
    (fun m templates =>
       exists compilations,
         (let? blk := ditem (AstralityModule.module_config m) trigger in
          let? c := getitem blk "compile" in
          py_iter c) = Ok compilations
         /\ Forall2 (resolves self) compilations templates)
    (dvalues (ModuleManager.modules self)) batches ->
  (forall t, In t (concat batches) -> is_file env (source t) = true ->
             render_failure env (source t) (target t) = None) ->
  forall w,
    ModuleManager.compile_templates env trigger (self, w)
    = ((self,
        add_effects w (map (compilation_outcome env self) (concat batches))),
       Ok tt).
Proof.
  intros Htop Hall Hr w. unfold ModuleManager.compile_templates.
  replace (existsb (String.eqb trigger) top_level_blocks) with true
    by (destruct Htop as [<-|[<-|[<-|[]]]]; reflexivity).
  simpl. unfold mbind at 1. simpl.
  revert w Hr. induction Hall as [|m ts ms tss Hm Hms IH]; intros w Hr; simpl.
  - rewrite add_effects_nil. reflexivity.
  - destruct Hm as (cs & Hcs & Hres).
    unfold mbind at 1. unfold mbind at 1. simpl. rewrite Hcs. simpl.
    rewrite (compile_compilations_outcomes env self cs ts Hres)
      by (intros t Hin; apply Hr; apply in_or_app; left; exact Hin).
    rewrite IH by (intros t Hin; apply Hr; apply in_or_app; right; exact Hin).
    rewrite add_effects_app, map_app. reflexivity.
Qed.

(** C9. A template whose source does not exist: [compile_template] catches
    the failure, logs an error that names source and target, and returns.
    In a batch, each scheduled compilation leaves its own outcome in the
    trace, in order: the missing ones an error record, the others their
    compilation. *)
Theorem missing_template_does_not_stop_the_batch (env : Env)
  (self : ModuleManager.t) (w : World) :
  (forall source target,
      is_file env source = false ->
      ModuleManager.compile_template env source target (self, w)
      = ((self,
          add_effects w
            [LogError
               ("Could not compile template " ++ PyStr.dq ++ source ++ PyStr.dq
                ++ " to target " ++ PyStr.dq ++ target ++ PyStr.dq
                ++ ". Template does not exist.")%string]),
         Ok tt))
  /\ (forall compilations templates,
         Forall2 (resolves self) compilations templates ->
         (forall t, In t templates -> is_file env (source t) = true ->
                    render_failure env (source t) (target t) = None) ->
         ModuleManager.compile_compilations env compilations (self, w)
         = ((self,
             add_effects w (map (compilation_outcome env self) templates)),
            Ok tt))
  /\ (forall trigger batches,
         In trigger top_level_blocks ->
         Forall2
           (fun m templates =>
              exists compilations,
                (let? blk := ditem (AstralityModule.module_config m) trigger in
                 let? c := getitem blk "compile" in
                 py_iter c) = Ok compilations
                /\ Forall2 (resolves self) compilations templates)
           (dvalues (ModuleManager.modules self)) batches ->
         (forall t, In t (concat batches) -> is_file env (source t) = true ->
                    render_failure env (source t) (target t) = None) ->
         ModuleManager.compile_templates env trigger (self, w)
         = ((self,
             add_effects w
               (map (compilation_outcome env self) (concat batches))),
            Ok tt)).
Proof.
  split; [|split].
  - intros source target H. apply compile_template_missing. exact H.
  - intros cs ts H Hr. apply compile_compilations_outcomes; assumption.
  - intros trigger batches Ht H Hr. apply compile_templates_outcomes; assumption.
Qed.

Lemma missing_template_in_a_batch_of_two :
  ModuleManager.compile_templates env_colors "on_startup"
    (two_templates_manager, w0)
  = ((two_templates_manager,
      add_effects w0
        [LogError
           (ModuleManager.template_missing "/cfg/missing.tpl" "/out/missing");
         Compile "/cfg/bar.tpl" "/out/bar"
           (ModuleManager.application_context two_templates_manager)]),
     Ok tt).
Proof.
  destruct (missing_template_does_not_stop_the_batch env_colors
              two_templates_manager w0) as (_ & _ & H).
  apply (H "on_startup"
           [[ {| source := "/cfg/missing.tpl"; target := "/out/missing" |};
              {| source := "/cfg/bar.tpl"; target := "/out/bar" |} ]]).
  - simpl. tauto.
  - repeat constructor.
    eexists. split; [reflexivity|].
    repeat constructor; eexists; split; reflexivity.
  - intros t Hin Hf. reflexivity.
Defined.

(** ** The callback of the watcher *)

(** A manager that [__init__] returned has a configuration directory. *)
Lemma init_has_config_directory (env : Env) (config : ApplicationConfig)
  (w w' : World) (self : ModuleManager.t) :
  ModuleManager.__init__ env config w = (w', Ok self) ->
  exists d,
    ModuleManager.config_option self "_runtime" "config_directory"
    = Ok (PStr d).
Proof.
  unfold ModuleManager.__init__. intros H.
  mbind_as H d s1 E1. mbind_as H t s2 E2. mbind_as H loaded s3 E3.
  destruct loaded as [[config' modules] u].
  mbind_as H prepared s4 E4. destruct prepared as [[templates temp_files] u'].
  mbind_as H paths s5 E5. mbind_as H watched s6 E6.
  inversion H; subst; clear H.
  unfold ModuleManager.config_option. simpl.
  unfold lift in E6. inversion E6 as [[Hs Hw]]. clear E6.
  bind_as Hw r R1. bind_as Hw v R2. rewrite R1. simpl. rewrite R2.
  destruct v; try discriminate. eauto.
Qed.

(** C10, as amended. A watched path other than the root configuration file,
    whose specified path is not a key of the template registry: [modified]
    raises [KeyError] with nothing compiled, nothing run and the manager as
    it was. *)
Theorem modified_needs_a_template (env : Env) (self : ModuleManager.t)
  (w : World) (p d : Path) (watched_file : WatchedFile) :
  ModuleManager.config_option self "_runtime" "config_directory" = Ok (PStr d) ->
  p <> PyPath.join d "astrality.yaml" ->
  dget (ModuleManager.on_modified_paths self) p = Some watched_file ->
  dget (ModuleManager.templates self) (specified_path watched_file) = None ->
  ModuleManager.modified env p (self, w) = ((self, w), Raise KeyError).
Proof.
  intros Hd Hp Hw Ht. unfold ModuleManager.modified.
  unfold mbind at 1. simpl. unfold mbind at 1. simpl. rewrite Hd. simpl.
  destruct (String.eqb_spec p (PyPath.join d "astrality.yaml")) as [|_];
    [contradiction|].
  unfold dmem. rewrite Hw. simpl.
  unfold mbind at 1. simpl. unfold ditem at 1. rewrite Hw. simpl.
  unfold mbind at 1. simpl. unfold ditem at 1. rewrite Ht. reflexivity.
Qed.

Lemma modified_needs_a_template_witness :
  ModuleManager.modified env0 "/cfg/notes.txt" (notes_watcher, w0)
  = ((notes_watcher, w0), Raise KeyError).
Proof.
  apply (modified_needs_a_template env0 notes_watcher w0 "/cfg/notes.txt" "/cfg"
           {| path := "/cfg/notes.txt";
              module := module_of env0 "module/m"
                          [("on_modified",
                            PDict [("notes.txt",
                                    PDict [("run", PStr "echo changed")])])];
              specified_path := "notes.txt" |}).
  - reflexivity.
  - discriminate.
  - reflexivity.
  - reflexivity.
Defined.

(** C10, as stated, fails: the module watches the root configuration file,
    no compile action names it, and [modified] returns without an error. *)
Lemma watched_root_file_raises_nothing :
  ModuleManager.__init__ env0 watches_root w0 = (w0, Ok root_watcher)
  /\ dmem (ModuleManager.on_modified_paths root_watcher) "/cfg/astrality.yaml"
     = true
  /\ option_map specified_path
       (dget (ModuleManager.on_modified_paths root_watcher) "/cfg/astrality.yaml")
     = Some "astrality.yaml"
  /\ dmem (ModuleManager.templates root_watcher) "astrality.yaml" = false
  /\ ModuleManager.modified env0 "/cfg/astrality.yaml" (root_watcher, w0)
     = ((root_watcher, w0), Ok tt).
Proof.
  repeat split; reflexivity.
Qed.

(** C1. With hot reload enabled, when the root configuration file is
    reported modified and loading the replacement raises, the exception
    leaves [modified]: the call to [user_configuration] stands before the
    [try] block. The manager is as it was. *)
Theorem modified_lets_load_failure_escape (env : Env) (self : ModuleManager.t)
  (w w' : World) (p d : Path) (hot_reload : pyval) (e : exn) :
  ModuleManager.config_option self "_runtime" "config_directory" = Ok (PStr d) ->
  p = PyPath.join d "astrality.yaml" ->
  ModuleManager.config_option self "settings/astrality" "hot_reload"
  = Ok hot_reload ->
  truthy hot_reload = true ->
  Config.user_configuration env (Some (PyPath.parent p)) w = (w', Raise e) ->
  ModuleManager.modified env p (self, w) = ((self, w'), Raise e).
Proof.
  intros Hd -> Hh Ht Hu. unfold ModuleManager.modified.
  unfold mbind at 1. simpl. unfold mbind at 1. simpl. rewrite Hd. simpl.
  rewrite String.eqb_refl.
  unfold mbind at 1. simpl. rewrite Hh. simpl. rewrite Ht. simpl.
  unfold mbind at 1. unfold ModuleManager.in_world, in_snd. simpl.
  rewrite Hu. reflexivity.
Qed.

Lemma modified_lets_load_failure_escape_witness :
  ModuleManager.modified env_unparsable "/cfg/astrality.yaml"
    (reloading_manager, w0)
  = ((reloading_manager, w0),
     Raise (ParsingError "File contains no section headers.")).
Proof.
  apply (modified_lets_load_failure_escape env_unparsable reloading_manager
           w0 w0 "/cfg/astrality.yaml" "/cfg" (PBool true)).
  - reflexivity.
  - reflexivity.
  - reflexivity.
  - reflexivity.
  - reflexivity.
Defined.

(** The part of C1 the code does: a replacement configuration that loads and
    from which no manager can be built is logged, the exception is caught and
    the manager is as it was. *)
Lemma modified_keeps_manager_when_construction_fails (env : Env)
  (self : ModuleManager.t) (w w' w'' : World) (p d : Path)
  (hot_reload : pyval) (config : ApplicationConfig) (e : exn) :
  ModuleManager.config_option self "_runtime" "config_directory" = Ok (PStr d) ->
  p = PyPath.join d "astrality.yaml" ->
  ModuleManager.config_option self "settings/astrality" "hot_reload"
  = Ok hot_reload ->
  truthy hot_reload = true ->
  Config.user_configuration env (Some (PyPath.parent p)) w = (w', Ok config) ->
  ModuleManager.__init__ env config w' = (w'', Raise e) ->
  ModuleManager.modified env p (self, w)
  = ((self,
      emit w'' (LogError "New configuration detected, but it is invalid!")),
     Ok tt).
Proof.
  intros Hd -> Hh Ht Hu Hi. unfold ModuleManager.modified.
  unfold mbind at 1. simpl. unfold mbind at 1. simpl. rewrite Hd. simpl.
  rewrite String.eqb_refl.
  unfold mbind at 1. simpl. rewrite Hh. simpl. rewrite Ht. simpl.
  unfold mbind at 1. unfold ModuleManager.in_world, in_snd. simpl.
  rewrite Hu. unfold try_except. unfold mbind at 1. simpl. rewrite Hi.
  reflexivity.
Qed.

Lemma unusable_configuration_is_caught :
  ModuleManager.modified env_unusable "/cfg/astrality.yaml"
    (reloading_manager, w0)
  = ((reloading_manager,
      emit w0 (LogError "New configuration detected, but it is invalid!")),
     Ok tt).
Proof.
  reflexivity.
Qed.

(** Two ways in which loading the replacement raises: the file is there and
    the parser rejects it, or no configuration file is found and
    [resolver_from_config_file] logs that and raises. *)
Lemma user_configuration_unparsable (env : Env) (config_directory : option Path)
  (w : World) (e : exn) :
  is_file env (snd (Config.infer_config_location env config_directory)) = true ->
  configparser_read env
    (snd (Config.infer_config_location env config_directory)) = Raise e ->
  Config.user_configuration env config_directory w = (w, Raise e).
Proof.
  unfold Config.user_configuration.
  destruct (Config.infer_config_location env config_directory) as [d f].
  simpl. intros Hf Hp.
  unfold mbind at 1. unfold Config.resolver_from_config_file.
  rewrite Hf. simpl. unfold mbind at 1. unfold lift. rewrite Hp. reflexivity.
Qed.

Lemma resolver_from_missing_file (env : Env) (config_file : Path)
  (with_env : bool) (w : World) :
  is_file env config_file = false ->
  Config.resolver_from_config_file env config_file with_env w
  = (emit w (LogCritical (Config.could_not_load config_file)),
     Raise (RuntimeError (Config.could_not_load config_file))).
Proof.
  intros H. unfold Config.resolver_from_config_file. rewrite H. reflexivity.
Qed.

(** C2 on a block that declares a context import: the template is compiled
    and the command run against the context as it was, where the same import
    declared under [on_startup] changes the context. *)
Lemma on_modified_import_context_is_ignored :
  ModuleManager.modified env_colors "/cfg/bar.tpl" (bar_manager, w0)
  = ((bar_manager,
      add_effects w0
        [Compile "/cfg/bar.tpl" "/out/bar"
           (ModuleManager.application_context bar_manager);
         Shell "reload /out/bar"]),
     Ok tt)
  /\ dget (ModuleManager.application_context bar_manager) "colors" = None
  /\ dget
       (ModuleManager.application_context
          (fst (fst (ModuleManager.import_context_sections env_colors
                       "on_startup" (bar_manager, w0)))))
       "colors"
     = Some [("background", PStr "black")].
Proof.
  repeat split; reflexivity.
Qed.

(** [import_context_sections] accepts [on_exit] and hands it to every
    module, which refuses it. *)
Lemma import_context_sections_on_exit (env : Env) (self : ModuleManager.t)
  (w : World) :
  ModuleManager.modules self <> [] ->
  ModuleManager.import_context_sections env "on_exit" (self, w)
  = ((self, w), Raise AssertionError).
Proof.
  intros H. unfold ModuleManager.import_context_sections. simpl.
  unfold mbind at 1. simpl.
  destruct (ModuleManager.modules self) as [|[n m] l]; [contradiction|].
  reflexivity.
Qed.

(** * Further facts *)

(** ** Dictionaries, continued *)

Lemma dget_not_In {V : Type} (d : dict V) (k : string) :
  ~ In k (dkeys d) -> dget d k = None.
Proof.
  induction d as [|[k' v'] d IH]; simpl; intros H; [reflexivity|].
  destruct (String.eqb_spec k k') as [->|Hne]; [tauto|].
  apply IH. tauto.
Qed.

Lemma dget_Some_In {V : Type} (d : dict V) (k : string) (v : V) :
  dget d k = Some v -> In k (dkeys d).
Proof.
  induction d as [|[k' v'] d IH]; simpl; [discriminate|].
  destruct (String.eqb_spec k k') as [->|Hne]; [tauto|].
  intros H. right. apply IH. exact H.
Qed.

(** [d.update(e)] then a lookup: the entry of [e], else the one of [d]. *)
Lemma dget_dupdate {V : Type} (e : dict V) :
  NoDup (dkeys e) ->
  forall (d : dict V) (k : string),
    dget (dupdate d e) k
    = match dget e k with Some v => Some v | None => dget d k end.
Proof.
  unfold dupdate.
  induction e as [|[k0 v0] e IH]; simpl; intros Hnd d k; [reflexivity|].
  inversion Hnd as [|? ? Hk0 He]; subst.
  rewrite (IH He).
  destruct (String.eqb_spec k k0) as [->|Hne].
  - rewrite (dget_not_In e k0 Hk0). apply dget_dset_same.
  - destruct (dget e k); [reflexivity|].
    apply dget_dset_other. congruence.
Qed.

(** ** Normalization, continued *)

Lemma listify_step_value (blk blk' : pyval) (action : string) :
  (let? v := getitem blk action in
   if is_list v then Ok blk else setitem blk action (PList [v])) = Ok blk' ->
  exists d d',
    blk = PDict d /\ blk' = PDict d'
    /\ dget d' action = Some (PList (normal_action (dget d action)))
    /\ (forall k, k <> action -> dget d' k = dget d k).
Proof.
  intros H. bind_as H a E. apply getitem_Ok in E. destruct E as [d [-> Hd]].
  destruct (is_list a) eqn:L.
  - inversion H; subst. exists d, d.
    split; [reflexivity|]. split; [reflexivity|]. split; [|reflexivity].
    rewrite Hd. destruct a; try discriminate. reflexivity.
  - simpl in H. inversion H; subst.
    exists d, (dset d action (PList [a])).
    split; [reflexivity|]. split; [reflexivity|]. split.
    + rewrite dget_dset_same, Hd. destruct a; try discriminate; reflexivity.
    + intros k Hk. apply dget_dset_other. congruence.
Qed.

Lemma listify_actions_value (d : dict pyval) (blk' : pyval) :
  AstralityModule.listify_actions (PDict d) = Ok blk' ->
  exists d', blk' = PDict d'
    /\ forall a, In a action_kinds ->
         dget d' a = Some (PList (normal_action (dget d a))).
Proof.
  unfold AstralityModule.listify_actions, action_kinds. cbn [for_each].
  intros H.
  bind_as H b1 S1. bind_as H b2 S2. bind_as H b3 S3. bind_as H b4 S4.
  apply listify_step_value in S1, S2, S3, S4.
  inversion H; subst; clear H.
  destruct S1 as (d0 & d1 & Heq0 & -> & H1 & F1). inversion Heq0; subst d0.
  destruct S2 as (d1' & d2 & Heq & -> & H2 & F2). inversion Heq; subst d1'.
  destruct S3 as (d2' & d3 & Heq' & -> & H3 & F3). inversion Heq'; subst d2'.
  destruct S4 as (d3' & d4 & Heq'' & -> & H4 & F4). inversion Heq''; subst d3'.
  exists d4. split; [reflexivity|].
  intros a [<-|[<-|[<-|[<-|[]]]]].
  - rewrite F4, F3, F2 by discriminate. exact H1.
  - rewrite F4, F3 by discriminate. rewrite H2, F1 by discriminate. reflexivity.
  - rewrite F4 by discriminate. rewrite H3, F2, F1 by discriminate. reflexivity.
  - rewrite H4, F3, F2, F1 by discriminate. reflexivity.
Qed.

(** The first loop of [populate_event_blocks]: each top-level block becomes
    the empty block updated with what was declared for it. *)
Lemma populate_top_level (cfg cfg' : Section_) :
  for_each top_level_blocks
    (fun c event_block =>
       let configured_event_block :=
         match dget c event_block with Some v => v | None => PDict [] end in
       let? blk := AstralityModule.populated configured_event_block in
       Ok (dset c event_block blk))
    cfg = Ok cfg' ->
  (forall blk, In blk top_level_blocks ->
     exists d,
       match dget cfg blk with Some v => v | None => PDict [] end = PDict d
       /\ dget cfg' blk
          = Some (PDict (dupdate AstralityModule.empty_event_block d)))
  /\ (forall k, ~ In k top_level_blocks -> dget cfg' k = dget cfg k).
Proof.
  unfold top_level_blocks. simpl. intros H.
  bind_as H c1 E1. bind_as E1 b1 P1.
  bind_as H c2 E2. bind_as E2 b2 P2.
  bind_as H c3 E3. bind_as E3 b3 P3.
  inversion E1; inversion E2; inversion E3; inversion H; subst;
    clear E1 E2 E3 H.
  rewrite !dget_dset_other in P3 by discriminate.
  rewrite dget_dset_other in P2 by discriminate.
  unfold AstralityModule.populated in P1, P2, P3.
  destruct (match dget cfg "on_startup" with Some v => v | None => PDict [] end)
    as [| | | |?|d1] eqn:D1; try discriminate.
  destruct (match dget cfg "on_event" with Some v => v | None => PDict [] end)
    as [| | | |?|d2] eqn:D2; try discriminate.
  destruct (match dget cfg "on_exit" with Some v => v | None => PDict [] end)
    as [| | | |?|d3] eqn:D3; try discriminate.
  inversion P1; inversion P2; inversion P3; subst. split.
  - intros blk [<-|[<-|[<-|[]]]].
    + exists d1. split; [exact D1|].
      rewrite !dget_dset_other by discriminate. apply dget_dset_same.
    + exists d2. split; [exact D2|].
      rewrite dget_dset_other by discriminate. apply dget_dset_same.
    + exists d3. split; [exact D3|]. apply dget_dset_same.
  - intros k Hk. rewrite !dget_dset_other; [reflexivity| | |];
      intros <-; apply Hk; tauto.
Qed.

Lemma listify_top_level_value (cfg cfg' : Section_) :
  for_each top_level_blocks
    (fun c event_block =>
       let? blk := ditem c event_block in
       let? blk' := AstralityModule.listify_actions blk in
       Ok (dset c event_block blk'))
    cfg = Ok cfg' ->
  (forall blk, In blk top_level_blocks ->
     exists v v', dget cfg blk = Some v
       /\ AstralityModule.listify_actions v = Ok v'
       /\ dget cfg' blk = Some v')
  /\ (forall k, ~ In k top_level_blocks -> dget cfg' k = dget cfg k).
Proof.
  unfold top_level_blocks. simpl. intros H.
  bind_as H c1 E1. bind_as E1 b1 G1. bind_as E1 n1 L1.
  bind_as H c2 E2. bind_as E2 b2 G2. bind_as E2 n2 L2.
  bind_as H c3 E3. bind_as E3 b3 G3. bind_as E3 n3 L3.
  inversion E1; inversion E2; inversion E3; inversion H; subst; clear E1 E2 E3 H.
  apply ditem_Ok in G1, G2, G3.
  rewrite !dget_dset_other in G3 by discriminate.
  rewrite dget_dset_other in G2 by discriminate.
  split.
  - intros blk [<-|[<-|[<-|[]]]].
    + exists b1, n1. repeat split; try assumption.
      rewrite !dget_dset_other by discriminate. apply dget_dset_same.
    + exists b2, n2. repeat split; try assumption.
      rewrite dget_dset_other by discriminate. apply dget_dset_same.
    + exists b3, n3. repeat split; try assumption. apply dget_dset_same.
  - intros k Hk. rewrite !dget_dset_other; [reflexivity| | |];
      intros <-; apply Hk; tauto.
Qed.

Lemma top_level_not_on_modified (blk : string) :
  In blk top_level_blocks -> blk <> "on_modified".
Proof.
  intros [<-|[<-|[<-|[]]]]; discriminate.
Qed.

(** The second step of [populate_event_blocks] leaves the top-level blocks
    alone. *)
Lemma populate_on_modified_frame (cfg cfg' : Section_) (k : string) :
  (if negb (dmem cfg "on_modified")
   then Ok (dset cfg "on_modified" (PDict []))
   else AstralityModule.map_on_modified AstralityModule.populated cfg)
  = Ok cfg' ->
  k <> "on_modified" -> dget cfg' k = dget cfg k.
Proof.
  intros H Hk. destruct (negb (dmem cfg "on_modified")).
  - inversion H; subst. apply dget_dset_other. congruence.
  - eapply map_on_modified_frame; eassumption.
Qed.

(** X2. What normalization makes of a declared top-level block: for each kind
    of action the declared list, the one-element list of a single declared
    action, or the empty list where none is declared. *)
Theorem populate_event_blocks_declared (options norm : Section_)
  (blk action : string) (d : dict pyval) :
  AstralityModule.populate_event_blocks options = Ok norm ->
  In blk top_level_blocks -> In action action_kinds ->
  match dget options blk with Some v => v | None => PDict [] end = PDict d ->
  NoDup (dkeys d) ->
  block_list norm blk action = Ok (normal_action (dget d action)).
Proof.
  unfold AstralityModule.populate_event_blocks. intros H Hblk Hact Hd Hnd.
  bind_as H cfg1 E1. bind_as H cfg2 E2. bind_as H cfg3 E3.
  pose proof (top_level_not_on_modified blk Hblk) as Hne.
  destruct (populate_top_level _ _ E1) as [T1 _].
  destruct (T1 blk Hblk) as (d' & Hd' & G1). rewrite Hd in Hd'.
  inversion Hd'; subst d'. clear Hd'.
  destruct (listify_top_level_value _ _ E3) as [T3 _].
  destruct (T3 blk Hblk) as (v & v' & G2 & L & G3).
  rewrite (populate_on_modified_frame _ _ blk E2 Hne), G1 in G2.
  inversion G2; subst v. clear G2.
  destruct (listify_actions_value _ _ L) as (d' & -> & Hv).
  unfold block_list, ditem.
  rewrite (map_on_modified_frame _ _ _ blk H Hne), G3. simpl.
  unfold ditem. rewrite (Hv action Hact). simpl. f_equal.
  rewrite (dget_dupdate d Hnd).
  destruct (dget d action) as [v|]; [reflexivity|].
  destruct Hact as [<-|[<-|[<-|[<-|[]]]]]; reflexivity.
Qed.

Lemma populate_event_blocks_declared_witness :
  block_list chained_normalized "on_event" "run" = Ok [PStr "c"]
  /\ block_list chained_normalized "on_event" "compile" = Ok []
  /\ block_list chained_normalized "on_exit" "run" = Ok [PStr "a"].
Proof.
  split; [|split].
  - apply (populate_event_blocks_declared chained_triggers chained_normalized
             "on_event" "run" [("run", PStr "c")]);
      try reflexivity; simpl; try tauto.
    repeat constructor. simpl. tauto.
  - apply (populate_event_blocks_declared chained_triggers chained_normalized
             "on_event" "compile" [("run", PStr "c")]);
      try reflexivity; simpl; try tauto.
    repeat constructor. simpl. tauto.
  - apply (populate_event_blocks_declared chained_triggers chained_normalized
             "on_exit" "run"
             [("run", PList [PStr "a"]); ("trigger", PStr "on_startup")]);
      try reflexivity; simpl; try tauto.
    repeat constructor; simpl; intuition discriminate.
Defined.

(** One pass over the keys of a mapping, each entry replaced by [f] of it:
    the keys stay, and every entry met is an output of [f]. *)
Lemma map_entries_keys (f : pyval -> Result pyval) (l : list string)
  (d d' : dict pyval) :
  for_each l
    (fun d template_name =>
       let? blk := ditem d template_name in
       let? blk' := f blk in
       Ok (dset d template_name blk'))
    d = Ok d' ->
  dkeys d' = dkeys d.
Proof.
  revert d. induction l as [|x l IH]; simpl; intros d H.
  - inversion H. reflexivity.
  - bind_as H d1 E. bind_as E blk G. bind_as E blk' F. inversion E; subst d1.
    rewrite (IH _ H), dkeys_dset. unfold dmem.
    apply ditem_Ok in G. rewrite G. reflexivity.
Qed.

Lemma map_entries_outputs (f : pyval -> Result pyval) (P : pyval -> Prop)
  (l : list string) :
  (forall b b', f b = Ok b' -> P b') ->
  forall d d',
    for_each l
      (fun d template_name =>
         let? blk := ditem d template_name in
         let? blk' := f blk in
         Ok (dset d template_name blk'))
      d = Ok d' ->
    forall k,
      In k l \/ (forall v, dget d k = Some v -> P v) ->
      forall v, dget d' k = Some v -> P v.
Proof.
  intros Hf. induction l as [|x l IH]; simpl; intros d d' H k Hk.
  - inversion H; subst. destruct Hk as [[]|Hk]. exact Hk.
  - bind_as H d1 E. bind_as E blk G. bind_as E blk' F. inversion E; subst d1.
    apply (IH _ _ H k).
    destruct (String.eqb_spec x k) as [->|Hne].
    + right. intros v. rewrite dget_dset_same. intros Hv.
      inversion Hv; subst. eapply Hf; eassumption.
    + destruct Hk as [[Hx|Hin]|Hgood]; [congruence | left; exact Hin |].
      right. intros v. rewrite dget_dset_other by exact Hne. apply Hgood.
Qed.

Lemma map_on_modified_outputs (f : pyval -> Result pyval) (P : pyval -> Prop)
  (cfg cfg' : Section_) :
  (forall b b', f b = Ok b' -> P b') ->
  AstralityModule.map_on_modified f cfg = Ok cfg' ->
  exists entries,
    dget cfg' "on_modified" = Some (PDict entries)
    /\ forall k v, dget entries k = Some v -> P v.
Proof.
  unfold AstralityModule.map_on_modified. intros Hf H.
  bind_as H om E1. bind_as H entries E2. bind_as H entries' E3.
  inversion H; subst. exists entries'. split; [apply dget_dset_same|].
  intros k v Hv.
  apply (map_entries_outputs f P _ Hf _ _ E3 k); [|exact Hv].
  left. rewrite <- (map_entries_keys _ _ _ _ E3).
  eapply dget_Some_In. exact Hv.
Qed.

Lemma listify_actions_holds_lists (b b' : pyval) :
  AstralityModule.listify_actions b = Ok b' -> holds_lists b'.
Proof.
  intros H. destruct (listify_actions_lists _ _ H) as (d' & -> & Hd).
  exists d'. split; [reflexivity | exact Hd].
Qed.

Lemma on_modified_entries_hold_lists (options norm : Section_) :
  AstralityModule.populate_event_blocks options = Ok norm ->
  exists entries,
    dget norm "on_modified" = Some (PDict entries)
    /\ forall k v, dget entries k = Some v -> holds_lists v.
Proof.
  intros H. unfold AstralityModule.populate_event_blocks in H.
  bind_as H cfg1 E1. bind_as H cfg2 E2. bind_as H cfg3 E3.
  apply (map_on_modified_outputs AstralityModule.listify_actions holds_lists
           cfg3 norm listify_actions_holds_lists H).
Qed.

(** X1. The invariant of normalization: once [populate_event_blocks] has
    returned, each of the three top-level blocks and every entry of
    [on_modified] holds a list under each of the four kinds of action. *)
Theorem populate_event_blocks_normal_form (options norm : Section_) :
  AstralityModule.populate_event_blocks options = Ok norm ->
  (forall blk, In blk top_level_blocks ->
     exists v, dget norm blk = Some v /\ holds_lists v)
  /\ exists entries,
       dget norm "on_modified" = Some (PDict entries)
       /\ forall k v, dget entries k = Some v -> holds_lists v.
Proof.
  intros H. split.
  - intros blk Hblk. unfold AstralityModule.populate_event_blocks in H.
    bind_as H cfg1 E1. bind_as H cfg2 E2. bind_as H cfg3 E3.
    destruct (listify_top_level _ _ E3 blk Hblk) as (v & Hv & Hl).
    exists v. split; [|exact Hl].
    rewrite (map_on_modified_frame _ _ _ blk H); [exact Hv|].
    apply top_level_not_on_modified. exact Hblk.
  - apply (on_modified_entries_hold_lists options norm H).
Qed.

Lemma populate_event_blocks_normal_form_witness :
  (forall blk, In blk top_level_blocks ->
     exists v, dget chained_normalized blk = Some v /\ holds_lists v)
  /\ exists entries,
       dget chained_normalized "on_modified" = Some (PDict entries)
       /\ forall k v, dget entries k = Some v -> holds_lists v.
Proof.
  apply (populate_event_blocks_normal_form chained_triggers chained_normalized).
  reflexivity.
Defined.

(** ** Trigger resolution, continued *)

(** The block a trigger reference names, as [_import_event_block] finds
    it. *)
Lemma import_event_block_run (cfg cfg' : Section_) (name into : string)
  (from : pyval) (imported : list pyval) :
  (if PyStr.contains "on_modified." name
   then
     let? on_modified := ditem cfg "on_modified" in
     let? entries := as_dict on_modified in
     Ok (match dget entries (PyStr.slice_from 12 name) with
         | Some b => b
         | None => PDict []
         end)
   else ditem cfg name) = Ok from ->
  (let? v := getitem from "run" in as_list v) = Ok imported ->
  AstralityModule._import_event_block cfg (PStr name) into = Ok cfg' ->
  exists own,
    block_list cfg into "run" = Ok own
    /\ block_list cfg' into "run" = Ok (own ++ imported).
Proof.
  intros Hfrom Himp H. unfold AstralityModule._import_event_block in H.
  cbn [as_str rbind] in H. rewrite Hfrom in H. cbn [rbind] in H.
  bind_as H c1 F1. bind_as H c2 F2.
  destruct (extend_action_same _ _ _ _ _ F1) as (own & items & Hown & Hitems & Hr).
  exists own. split; [exact Hown|].
  rewrite (extend_action_other_action _ _ _ _ _ "run" H) by discriminate.
  rewrite (extend_action_other_action _ _ _ _ _ "run" F2) by discriminate.
  rewrite Hr. do 2 f_equal.
  bind_as Himp v G. rewrite G in Hitems. simpl in Hitems.
  destruct v; try discriminate. simpl in *. congruence.
Qed.

Lemma import_triggers_of_one (cfg cfg' : Section_) (A name : string)
  (from : pyval) (imported : list pyval) :
  (let? b := ditem cfg A in getitem b "trigger") = Ok (PList [PStr name]) ->
  (if PyStr.contains "on_modified." name
   then
     let? on_modified := ditem cfg "on_modified" in
     let? entries := as_dict on_modified in
     Ok (match dget entries (PyStr.slice_from 12 name) with
         | Some b => b
         | None => PDict []
         end)
   else ditem cfg name) = Ok from ->
  (let? v := getitem from "run" in as_list v) = Ok imported ->
  AstralityModule.import_triggers_of cfg A = Ok cfg' ->
  exists own,
    block_list cfg A "run" = Ok own
    /\ block_list cfg' A "run" = Ok (own ++ imported).
Proof.
  unfold AstralityModule.import_triggers_of. intros Ht Hfrom Himp H.
  bind_as Ht b Eb. rewrite Eb in H. simpl in H.
  bind_as H has E1.
  apply getitem_Ok in Ht. destruct Ht as [d [-> Hd]].
  simpl in E1. unfold dmem in E1. rewrite Hd in E1. inversion E1; subst has.
  simpl in H. unfold ditem in H. rewrite Hd in H. simpl in H.
  bind_as H c1 E2. inversion H; subst c1; clear H.
  eapply import_event_block_run; eassumption.
Qed.

(** The passes before and after the one of a top-level block leave the
    block alone. *)
Lemma passes_around (norm final : Section_) (A : string) :
  AstralityModule.import_trigger_actions norm = Ok final ->
  In A top_level_blocks ->
  exists before after,
    AstralityModule.import_triggers_of before A = Ok after
    /\ dget before A = dget norm A
    /\ dget final A = dget after A
    /\ dget before "on_modified" = dget norm "on_modified".
Proof.
  intros Hi HA.
  destruct (import_trigger_actions_inv _ _ Hi) as (c1 & c2 & S1 & S2 & S3).
  assert (F1 : forall k, k <> "on_startup" -> dget c1 k = dget norm k)
    by (intros; eapply import_triggers_of_other_block; eassumption).
  assert (F2 : forall k, k <> "on_event" -> dget c2 k = dget c1 k)
    by (intros; eapply import_triggers_of_other_block; eassumption).
  assert (F3 : forall k, k <> "on_exit" -> dget final k = dget c2 k)
    by (intros; eapply import_triggers_of_other_block; eassumption).
  destruct HA as [<-|[<-|[<-|[]]]].
  - exists norm, c1. repeat split; try assumption.
    rewrite F3, F2 by discriminate. reflexivity.
  - exists c1, c2. repeat split; try assumption.
    + apply F1. discriminate.
    + apply F3. discriminate.
    + apply F1. discriminate.
  - exists c2, final. repeat split; try assumption.
    + rewrite F2, F1 by discriminate. reflexivity.
    + rewrite F2, F1 by discriminate. reflexivity.
Qed.

(** X4. A top-level block whose one trigger is the block itself ends with
    its run list twice: there is no guard against self-reference. *)
Theorem self_trigger_doubles_run_list (env : Env) (section : string)
  (options norm : Section_) (m : AstralityModule.t) (A : string) :
  AstralityModule.__init__ env [(section, options)] = Ok m ->
  AstralityModule.populate_event_blocks options = Ok norm ->
  In A top_level_blocks ->
  (let? b := ditem norm A in getitem b "trigger") = Ok (PList [PStr A]) ->
  exists own,
    block_list norm A "run" = Ok own
    /\ block_list (AstralityModule.module_config m) A "run" = Ok (own ++ own).
Proof.
  intros H Hn HA Ht.
  destruct (init_inv _ _ _ _ H) as (norm' & Hn' & Hi).
  rewrite Hn in Hn'. inversion Hn'; subst norm'. clear Hn'.
  destruct (passes_around _ _ A Hi HA) as (before & after & S & Hb & Ha & _).
  destruct (populate_event_blocks_lists _ _ A "run" Hn HA) as [own Hown];
    [simpl; tauto|].
  rewrite <- (trigger_ext norm before A Hb) in Ht.
  rewrite <- (block_list_ext norm before A "run" Hb) in Hown.
  destruct (import_triggers_of_single _ _ A A own HA Ht Hown S)
    as (own' & Hown' & Hr).
  rewrite Hown in Hown'. inversion Hown'; subst own'.
  exists own. split.
  - rewrite <- (block_list_ext norm before A "run" Hb). exact Hown.
  - rewrite (block_list_ext after _ A "run" Ha). exact Hr.
Qed.

Lemma self_trigger_doubles_run_list_witness :
  exists own,
    block_list self_triggered_normalized "on_exit" "run" = Ok own
    /\ block_list (AstralityModule.module_config self_triggered_module)
         "on_exit" "run" = Ok (own ++ own).
Proof.
  apply (self_trigger_doubles_run_list env0 "module/m" self_triggered
           self_triggered_normalized self_triggered_module "on_exit").
  - reflexivity.
  - reflexivity.
  - simpl. tauto.
  - reflexivity.
Defined.

Lemma dotted_reference (path : string) :
  PyStr.contains "on_modified." ("on_modified." ++ path) = true
  /\ PyStr.slice_from 12 ("on_modified." ++ path) = path.
Proof.
  split; [|reflexivity]. simpl. destruct path; reflexivity.
Qed.

(** X5. A top-level block whose one trigger is [on_modified.<path>] ends
    with its own run commands followed by those of the entry of [on_modified]
    for that path. *)
Theorem dotted_trigger_imports_watched_entry (env : Env) (section : string)
  (options norm : Section_) (m : AstralityModule.t) (A path : string)
  (entries : dict pyval) (entry : pyval) :
  AstralityModule.__init__ env [(section, options)] = Ok m ->
  AstralityModule.populate_event_blocks options = Ok norm ->
  In A top_level_blocks ->
  (let? b := ditem norm A in getitem b "trigger")
  = Ok (PList [PStr ("on_modified." ++ path)]) ->
  dget norm "on_modified" = Some (PDict entries) ->
  dget entries path = Some entry ->
  exists own imported,
    block_list norm A "run" = Ok own
    /\ (let? v := getitem entry "run" in as_list v) = Ok imported
    /\ block_list (AstralityModule.module_config m) A "run"
       = Ok (own ++ imported).
Proof.
  intros H Hn HA Ht Hom Hentry.
  destruct (init_inv _ _ _ _ H) as (norm' & Hn' & Hi).
  rewrite Hn in Hn'. inversion Hn'; subst norm'. clear Hn'.
  destruct (passes_around _ _ A Hi HA) as (before & after & S & Hb & Ha & Hm).
  destruct (on_modified_entries_hold_lists _ _ Hn) as (entries' & He & Hl).
  rewrite Hom in He. inversion He; subst entries'. clear He.
  destruct (Hl path entry Hentry) as (d & -> & Hd).
  destruct (Hd "run") as [imported Hrun]; [simpl; tauto|].
  rewrite <- (trigger_ext norm before A Hb) in Ht.
  destruct (import_triggers_of_one before after A ("on_modified." ++ path)
              (PDict d) imported Ht) as (own & Hown & Hr).
  - destruct (dotted_reference path) as [-> ->].
    unfold ditem. rewrite Hm, Hom. simpl. rewrite Hentry. reflexivity.
  - simpl. unfold ditem. rewrite Hrun. reflexivity.
  - exact S.
  - exists own, imported. repeat split.
    + rewrite <- (block_list_ext norm before A "run" Hb). exact Hown.
    + simpl. unfold ditem. rewrite Hrun. reflexivity.
    + rewrite (block_list_ext after _ A "run" Ha). exact Hr.
Qed.

Lemma dotted_trigger_imports_watched_entry_witness :
  exists own imported,
    block_list dotted_normalized "on_startup" "run" = Ok own
    /\ (let? v := getitem (PDict [("import_context", PList []);
                                  ("compile", PList []);
                                  ("run", PList [PStr "y"; PStr "z"]);
                                  ("trigger", PList [])]) "run" in
        as_list v) = Ok imported
    /\ block_list (AstralityModule.module_config dotted_module)
         "on_startup" "run" = Ok (own ++ imported).
Proof.
  apply (dotted_trigger_imports_watched_entry env0 "module/m" dotted_trigger
           dotted_normalized dotted_module "on_startup" "notes.txt"
           [("notes.txt",
             PDict [("import_context", PList []); ("compile", PList []);
                    ("run", PList [PStr "y"; PStr "z"]);
                    ("trigger", PList [])])]).
  - reflexivity.
  - reflexivity.
  - simpl. tauto.
  - reflexivity.
  - reflexivity.
  - reflexivity.
Defined.

(** X3. A trigger that names no block: for a reference that is not dotted,
    a name that is no key of the module raises [KeyError]; for a dotted
    reference, a path that [on_modified] has no entry for is given the empty
    dictionary, whose [run] is then missing, and that raises [KeyError]
    too. *)
Theorem dangling_trigger_raises (cfg : Section_) (name into : string) :
  (PyStr.contains "on_modified." name = false ->
   dget cfg name = None ->
   AstralityModule._import_event_block cfg (PStr name) into = Raise KeyError)
  /\ (forall entries d own,
         PyStr.contains "on_modified." name = true ->
         dget cfg "on_modified" = Some (PDict entries) ->
         dget entries (PyStr.slice_from 12 name) = None ->
         dget cfg into = Some (PDict d) ->
         dget d "run" = Some (PList own) ->
         AstralityModule._import_event_block cfg (PStr name) into
         = Raise KeyError).
Proof.
  split.
  - intros Hc Hn. unfold AstralityModule._import_event_block. simpl.
    rewrite Hc. unfold ditem. rewrite Hn. reflexivity.
  - intros entries d own Hc Hom He Hinto Hrun.
    unfold AstralityModule._import_event_block. cbn [as_str rbind].
    rewrite Hc. unfold ditem at 1. rewrite Hom. cbn [rbind as_dict].
    rewrite He. cbn [rbind].
    unfold AstralityModule.extend_action, ditem. rewrite Hinto. simpl.
    unfold ditem. rewrite Hrun. reflexivity.
Qed.

Lemma dangling_trigger_raises_witness :
  AstralityModule._import_event_block dotted_normalized (PStr "on_reload")
    "on_startup" = Raise KeyError
  /\ AstralityModule._import_event_block dotted_normalized
       (PStr "on_modified.other.txt") "on_startup" = Raise KeyError.
Proof.
  destruct (dangling_trigger_raises dotted_normalized "on_reload" "on_startup")
    as [Ha _].
  destruct (dangling_trigger_raises dotted_normalized "on_modified.other.txt"
              "on_startup") as [_ Hb].
  split.
  - apply Ha; reflexivity.
  - apply (Hb [("notes.txt",
                PDict [("import_context", PList []); ("compile", PList []);
                       ("run", PList [PStr "y"; PStr "z"]);
                       ("trigger", PList [])])]
              [("import_context", PList []); ("compile", PList []);
               ("run", PList [PStr "first"]);
               ("trigger", PList [PStr "on_modified.notes.txt"])]
              [PStr "first"]); reflexivity.
Defined.

(** A module that declares such a trigger cannot be constructed. *)
Lemma module_with_dangling_trigger :
  AstralityModule.__init__ env0
    [("module/m", [("on_exit", PDict [("trigger", PStr "on_reload")])])]
  = Raise KeyError.
Proof.
  reflexivity.
Qed.

(** ** The accessors of a module, continued *)

Lemma interpolated_commands_strings (env : Env) (m : AstralityModule.t)
  (commands : list string) :
  AstralityModule.interpolated_commands env m (PList (map PStr commands))
  = Ok (map (PyStr.replace "{event}"
               (listener_event env (AstralityModule.event_listener m)))
          commands).
Proof.
  unfold AstralityModule.interpolated_commands. simpl.
  destruct commands as [|c l]; [reflexivity|].
  apply (map_result_interpolate env m (c :: l)).
Qed.

(** X6. [on_event_commands], [exit_commands] and [modified_commands] return
    the run commands of their block, in order, each with [{event}] replaced
    by what the listener reports; [modified_commands] raises [KeyError] for a
    path [on_modified] has no entry for. *)
Theorem command_accessors (env : Env) (m : AstralityModule.t) :
  (forall blk commands,
      dget (AstralityModule.module_config m) "on_event" = Some blk ->
      getitem blk "run" = Ok (PList (map PStr commands)) ->
      AstralityModule.on_event_commands env m
      = Ok (map (PyStr.replace "{event}"
                   (listener_event env (AstralityModule.event_listener m)))
              commands))
  /\ (forall blk commands,
         dget (AstralityModule.module_config m) "on_exit" = Some blk ->
         getitem blk "run" = Ok (PList (map PStr commands)) ->
         AstralityModule.exit_commands env m
         = Ok (map (PyStr.replace "{event}"
                      (listener_event env (AstralityModule.event_listener m)))
                 commands))
  /\ (forall entries path blk commands,
         dget (AstralityModule.module_config m) "on_modified"
         = Some (PDict entries) ->
         dget entries path = Some blk ->
         getitem blk "run" = Ok (PList (map PStr commands)) ->
         AstralityModule.modified_commands env m path
         = Ok (map (PyStr.replace "{event}"
                      (listener_event env (AstralityModule.event_listener m)))
                 commands))
  /\ (forall entries path,
         dget (AstralityModule.module_config m) "on_modified"
         = Some (PDict entries) ->
         dget entries path = None ->
         AstralityModule.modified_commands env m path = Raise KeyError).
Proof.
  repeat split.
  - intros blk commands Hb Hr. unfold AstralityModule.on_event_commands, ditem.
    rewrite Hb. cbn [rbind]. rewrite Hr. cbn [rbind].
    apply interpolated_commands_strings.
  - intros blk commands Hb Hr. unfold AstralityModule.exit_commands, ditem.
    rewrite Hb. cbn [rbind]. rewrite Hr. cbn [rbind].
    apply interpolated_commands_strings.
  - intros entries path blk commands Hm He Hr.
    unfold AstralityModule.modified_commands, ditem.
    rewrite Hm. cbn [rbind getitem]. unfold ditem. rewrite He. cbn [rbind].
    rewrite Hr. cbn [rbind]. apply interpolated_commands_strings.
  - intros entries path Hm He.
    unfold AstralityModule.modified_commands, ditem.
    rewrite Hm. cbn [rbind getitem]. unfold ditem. rewrite He. reflexivity.
Qed.

Lemma command_accessors_witness :
  AstralityModule.exit_commands env0 chained_module = Ok ["a"; "b"; "c"]
  /\ AstralityModule.on_event_commands env0 echo_module = Ok []
  /\ AstralityModule.modified_commands env0 chained_module "notes.txt"
     = Ok ["y"]
  /\ AstralityModule.modified_commands env0 chained_module "other.txt"
     = Raise KeyError.
Proof.
  destruct (command_accessors env0 chained_module) as (_ & Hx & Hm & Hk).
  destruct (command_accessors env0 echo_module) as (He & _).
  split; [|split; [|split]].
  - exact (Hx (PDict [("import_context", PList []); ("compile", PList []);
                      ("run", PList [PStr "a"; PStr "b"; PStr "c"]);
                      ("trigger", PList [PStr "on_startup"])])
              ["a"; "b"; "c"] eq_refl eq_refl).
  - exact (He (PDict [("import_context", PList []); ("compile", PList []);
                      ("run", PList []); ("trigger", PList [])])
              [] eq_refl eq_refl).
  - exact (Hm [("notes.txt",
                PDict [("import_context", PList []); ("compile", PList []);
                       ("run", PList [PStr "y"]);
                       ("trigger", PList [PStr "on_startup"])])]
              "notes.txt" _ ["y"] eq_refl eq_refl eq_refl).
  - exact (Hk [("notes.txt",
                PDict [("import_context", PList []); ("compile", PList []);
                       ("run", PList [PStr "y"]);
                       ("trigger", PList [PStr "on_startup"])])]
              "other.txt" eq_refl eq_refl).
Defined.



(** ** [valid_class_section], continued *)




Lemma split_no_separator (name : string) :
  PyStr.contains "/" name = false -> PyStr.split "/" name = [name].
Proof.
  induction name as [|a s IH]; [reflexivity|].
  cbn [PyStr.contains PyStr.split]. intros H.
  apply orb_false_elim in H. destruct H as [Hp Hc].
  change (String.prefix "/" (String a s))
    with (if ascii_dec "/" a then String.prefix EmptyString s else false) in Hp.
  destruct (ascii_dec "/" a) as [<-|Hne].
  - destruct s; discriminate.
  - replace (Ascii.eqb a "/") with false
      by (symmetry; apply Ascii.eqb_neq; congruence).
    rewrite (IH Hc). reflexivity.
Qed.

(** X24. A section name without a slash has no second path component, so
    [Module] cannot be constructed from it; yet [valid_class_section]
    accepts the section named [module], whose first and only component is
    [module]. *)
Theorem section_without_slash (env : Env) (options : Section_) (w : World) :
  (forall section,
      PyStr.contains "/" section = false ->
      AstralityModule.__init__ env [(section, options)] = Raise IndexError)
  /\ (dget options "enabled" = None ->
      dget options "requires" = None ->
      AstralityModule.valid_class_section env [("module", options)] w
      = (w, Ok true)).
Proof.
  split.
  - intros section H. unfold AstralityModule.__init__.
    rewrite (split_no_separator section H). reflexivity.
  - intros He Hr. unfold AstralityModule.valid_class_section. simpl.
    rewrite He, Hr. reflexivity.
Qed.

Lemma section_without_slash_witness :
  AstralityModule.__init__ env0 [("module", [])] = Raise IndexError
  /\ AstralityModule.valid_class_section env0 [("module", [])] w0
     = (w0, Ok true).
Proof.
  destruct (section_without_slash env0 [] w0) as [H1 H2].
  split; [apply H1; reflexivity | apply H2; reflexivity].
Defined.

(** The constructor of the manager then raises on such a section. *)
Lemma manager_of_section_named_module :
  ModuleManager.__init__ env0 [settings false; runtime; ("module", [])] w0
  = (w0, Raise IndexError).
Proof.
  reflexivity.
Qed.

(** ** The run loop, continued *)

(** What a call of [finish_tasks] that returned leaves behind. *)
Lemma finish_tasks_returned (env : Env) (self self1 : ModuleManager.t)
  (w w1 : World) :
  ModuleManager.finish_tasks env (self, w) = ((self1, w1), Ok tt) ->
  ModuleManager.startup_done self1 = true
  /\ ModuleManager.modules self1 = ModuleManager.modules self
  /\ dict_eqb String.eqb (ModuleManager.last_module_events self1)
       (ModuleManager.module_events env self1) = true.
Proof.
  intros H. destruct (ModuleManager.startup_done self) eqn:Hd.
  - unfold ModuleManager.finish_tasks in H. unfold mbind at 1 in H.
    simpl in H. rewrite Hd in H. simpl in H.
    destruct (dict_eqb String.eqb (ModuleManager.last_module_events self)
                (ModuleManager.module_events env self)) eqn:He; simpl in H.
    + inversion H; subst. auto.
    + mbind_as H u1 s1 E1. mbind_as H u2 s2 E2.
      destruct (on_event_sets_baseline _ _ _ H) as (Hb & Hm & Hs).
      simpl in Hb, Hm, Hs.
      pose proof (import_context_sections_keeps ModuleManager.modules env
                    "on_event" (fun _ _ => eq_refl) _ _ _ E1) as M1.
      pose proof (compile_templates_keeps ModuleManager.modules env
                    "on_event" _ _ _ E2) as M2.
      pose proof (import_context_sections_keeps ModuleManager.startup_done env
                    "on_event" (fun _ _ => eq_refl) _ _ _ E1) as D1.
      pose proof (compile_templates_keeps ModuleManager.startup_done env
                    "on_event" _ _ _ E2) as D2.
      unfold keeps in *. simpl in *.
      split; [congruence|]. split; [congruence|].
      rewrite Hb. apply dict_eqb_refl. apply NoDup_module_events.
  - rewrite (finish_tasks_not_started env self w Hd) in H.
    mbind_as H u1 s1 E1. mbind_as H u2 s2 E2.
    pose proof (startup_sets_startup_done _ _ _ H) as Hdone.
    pose proof (import_context_sections_keeps ModuleManager.modules env
                  "on_startup" (fun _ _ => eq_refl) _ _ _ E1) as M1.
    pose proof (compile_templates_keeps ModuleManager.modules env
                  "on_startup" _ _ _ E2) as M2.
    pose proof (startup_keeps ModuleManager.modules env
                  (fun _ _ => eq_refl) (fun _ _ => eq_refl) _ _ _ H) as M3.
    pose proof (import_context_sections_keeps ModuleManager.last_module_events
                  env "on_startup" (fun _ _ => eq_refl) _ _ _ E1) as L1.
    pose proof (compile_templates_keeps ModuleManager.last_module_events env
                  "on_startup" _ _ _ E2) as L2.
    pose proof (startup_keeps ModuleManager.last_module_events env
                  (fun _ _ => eq_refl) (fun _ _ => eq_refl) _ _ _ H) as L3.
    unfold keeps in *. simpl in *.
    split; [exact Hdone|]. split; [congruence|].
    assert (Hl : ModuleManager.last_module_events self1
                 = ModuleManager.module_events env self) by congruence.
    assert (Hm : ModuleManager.modules self1 = ModuleManager.modules self)
      by congruence.
    rewrite Hl.
    replace (ModuleManager.module_events env self1)
      with (ModuleManager.module_events env self)
      by (unfold ModuleManager.module_events; rewrite Hm; reflexivity).
    apply dict_eqb_refl. apply NoDup_module_events.
Qed.

(** X11. [has_unfinished_tasks] tells what [finish_tasks] will do: where it
    is false [finish_tasks] changes nothing, and after a call of
    [finish_tasks] that returned it is false. *)
Theorem has_unfinished_tasks_decides (env : Env) (self : ModuleManager.t)
  (w : World) :
  (ModuleManager.has_unfinished_tasks env self = false ->
   ModuleManager.finish_tasks env (self, w) = ((self, w), Ok tt))
  /\ (forall self1 w1,
         ModuleManager.finish_tasks env (self, w) = ((self1, w1), Ok tt) ->
         ModuleManager.has_unfinished_tasks env self1 = false).
Proof.
  split.
  - unfold ModuleManager.has_unfinished_tasks. intros H.
    destruct (ModuleManager.startup_done self) eqn:Hd; [|discriminate].
    simpl in H. apply negb_false_iff in H.
    apply finish_tasks_nothing_due; assumption.
  - intros self1 w1 H.
    destruct (finish_tasks_returned _ _ _ _ _ H) as (Hd & _ & He).
    unfold ModuleManager.has_unfinished_tasks. rewrite Hd, He. reflexivity.
Qed.

Lemma has_unfinished_tasks_decides_witness :
  ModuleManager.has_unfinished_tasks env_colors two_templates_manager = true
  /\ ModuleManager.has_unfinished_tasks env_colors (fst started) = false
  /\ ModuleManager.finish_tasks env_colors (fst started, snd started)
     = ((fst started, snd started), Ok tt).
Proof.
  destruct (has_unfinished_tasks_decides env_colors two_templates_manager w0)
    as [_ H2].
  destruct (has_unfinished_tasks_decides env_colors (fst started) (snd started))
    as [H1 _].
  assert (Hf : ModuleManager.has_unfinished_tasks env_colors (fst started)
               = false)
    by (apply (H2 (fst started) (snd started)); reflexivity).
  split; [reflexivity|]. split; [exact Hf|]. exact (H1 Hf).
Defined.

Lemma fold_min_spec (l : list Z) (x : Z) :
  (fold_left Z.min l x <= x)%Z
  /\ (forall y, In y l -> (fold_left Z.min l x <= y)%Z)
  /\ (fold_left Z.min l x = x \/ In (fold_left Z.min l x) l).
Proof.
  revert x. induction l as [|y l IH]; intros x; simpl.
  - split; [lia|]. split; [tauto | left; reflexivity].
  - destruct (IH (Z.min x y)) as (H1 & H2 & H3). split; [lia|]. split.
    + intros z [<-|Hz]; [lia | apply H2; exact Hz].
    + destruct H3 as [H3|H3]; [|right; right; exact H3].
      rewrite H3. destruct (Z.min_spec x y) as [[_ ->]|[_ ->]]; [left|right; left];
        reflexivity.
Qed.

(** X18. [time_until_next_event] is the least of the times the listeners of
    the managed modules report: no more than any of them, and the time of
    one of them. Without a module there is no least value: [min] of the
    empty sequence raises. *)
Theorem time_until_next_event_least (time_left : EventListener -> Z)
  (self : ModuleManager.t) :
  (ModuleManager.modules self = [] ->
   ModuleManager.time_until_next_event time_left self = None)
  /\ (ModuleManager.modules self <> [] ->
      exists t,
        ModuleManager.time_until_next_event time_left self = Some t
        /\ (forall name m,
               In (name, m) (ModuleManager.modules self) ->
               (t <= time_left (AstralityModule.event_listener m))%Z)
        /\ (exists name m,
               In (name, m) (ModuleManager.modules self)
               /\ t = time_left (AstralityModule.event_listener m))).
Proof.
  unfold ModuleManager.time_until_next_event, dvalues. split.
  - intros ->. reflexivity.
  - intros Hne.
    destruct (ModuleManager.modules self) as [|[n0 m0] l]; [congruence|].
    cbn [map snd].
    set (f := fun module => time_left (AstralityModule.event_listener module)).
    set (times := map f (map snd l)).
    destruct (fold_min_spec times (f m0)) as (H1 & H2 & H3).
    eexists. split; [reflexivity|]. split.
    + intros name m [Heq|Hin].
      * inversion Heq; subst. exact H1.
      * apply H2. unfold times.
        change (In (f m) (map f (map snd l))). apply in_map.
        apply (in_map snd) in Hin. exact Hin.
    + destruct H3 as [H3|H3].
      * exists n0, m0. split; [left; reflexivity | exact H3].
      * unfold times in H3. apply in_map_iff in H3.
        destruct H3 as (m & Hm & Hin). apply in_map_iff in Hin.
        destruct Hin as ([n m'] & Hs & Hin). simpl in Hs. subst m'.
        exists n, m. split; [right; exact Hin | symmetry; exact Hm].
Qed.

Lemma time_until_next_event_least_witness :
  exists t,
    ModuleManager.time_until_next_event seconds_left two_listeners_manager
    = Some t
    /\ (forall name m,
           In (name, m) (ModuleManager.modules two_listeners_manager) ->
           (t <= seconds_left (AstralityModule.event_listener m))%Z)
    /\ (exists name m,
           In (name, m) (ModuleManager.modules two_listeners_manager)
           /\ t = seconds_left (AstralityModule.event_listener m)).
Proof.
  apply (proj2 (time_until_next_event_least seconds_left two_listeners_manager)).
  discriminate.
Defined.

(** Ten seconds and five seconds left: five. *)
Lemma time_until_next_event_of_two :
  ModuleManager.time_until_next_event seconds_left two_listeners_manager
  = Some 5000000%Z.
Proof.
  reflexivity.
Qed.

(** ** The callback of the watcher, continued *)

(** X14. What [modified] leaves alone: the root configuration file while hot
    reload is off, and any other path that no module watches. Neither the
    manager nor the world changes. *)
Theorem modified_ignores (env : Env) (self : ModuleManager.t) (w : World)
  (p d : Path) :
  ModuleManager.config_option self "_runtime" "config_directory" = Ok (PStr d) ->
  (forall hot_reload,
      p = PyPath.join d "astrality.yaml" ->
      ModuleManager.config_option self "settings/astrality" "hot_reload"
      = Ok hot_reload ->
      truthy hot_reload = false ->
      ModuleManager.modified env p (self, w) = ((self, w), Ok tt))
  /\ (p <> PyPath.join d "astrality.yaml" ->
      dget (ModuleManager.on_modified_paths self) p = None ->
      ModuleManager.modified env p (self, w) = ((self, w), Ok tt)).
Proof.
  intros Hd. split.
  - intros hot -> Hh Ht. unfold ModuleManager.modified.
    unfold mbind at 1. simpl. unfold mbind at 1. simpl. rewrite Hd. simpl.
    rewrite String.eqb_refl.
    unfold mbind at 1. simpl. rewrite Hh. simpl. rewrite Ht. reflexivity.
  - intros Hp Hw. unfold ModuleManager.modified.
    unfold mbind at 1. simpl. unfold mbind at 1. simpl. rewrite Hd. simpl.
    destruct (String.eqb_spec p (PyPath.join d "astrality.yaml")) as [|_];
      [contradiction|].
    unfold dmem. rewrite Hw. reflexivity.
Qed.

Lemma modified_ignores_witness :
  ModuleManager.modified env_unparsable "/cfg/astrality.yaml"
    (notes_watcher, w0) = ((notes_watcher, w0), Ok tt)
  /\ ModuleManager.modified env0 "/cfg/other.txt" (notes_watcher, w0)
     = ((notes_watcher, w0), Ok tt).
Proof.
  split.
  - destruct (modified_ignores env_unparsable notes_watcher w0
                "/cfg/astrality.yaml" "/cfg" eq_refl) as [H _].
    apply (H (PBool false)); reflexivity.
  - destruct (modified_ignores env0 notes_watcher w0 "/cfg/other.txt" "/cfg"
                eq_refl) as [_ H].
    apply H; [discriminate | reflexivity].
Defined.

(** X16. With hot reload on, once the replacement configuration has been
    loaded, [modified] returns whatever happens next: a manager that cannot
    be built, a failing exit command of the old manager and a failing
    startup of the new one are all caught. *)
Theorem modified_returns_once_loaded (env : Env) (self : ModuleManager.t)
  (w w' : World) (p d : Path) (hot_reload : pyval)
  (config : ApplicationConfig) :
  ModuleManager.config_option self "_runtime" "config_directory" = Ok (PStr d) ->
  p = PyPath.join d "astrality.yaml" ->
  ModuleManager.config_option self "settings/astrality" "hot_reload"
  = Ok hot_reload ->
  truthy hot_reload = true ->
  Config.user_configuration env (Some (PyPath.parent p)) w = (w', Ok config) ->
  snd (ModuleManager.modified env p (self, w)) = Ok tt.
Proof.
  intros Hd -> Hh Ht Hu. unfold ModuleManager.modified.
  unfold mbind at 1. simpl. unfold mbind at 1. simpl. rewrite Hd. simpl.
  rewrite String.eqb_refl.
  unfold mbind at 1. simpl. rewrite Hh. simpl. rewrite Ht. simpl.
  unfold mbind at 1. unfold ModuleManager.in_world at 1, in_snd. simpl.
  rewrite Hu. unfold try_except.
  match goal with
  | |- snd (match ?body with _ => _ end) = _ =>
      destruct body as [s [[]|e]]
  end; reflexivity.
Qed.

Lemma modified_returns_once_loaded_witness :
  snd (ModuleManager.modified env_unusable "/cfg/astrality.yaml"
         (reloading_manager, w0)) = Ok tt.
Proof.
  apply (modified_returns_once_loaded env_unusable reloading_manager w0 w0
           "/cfg/astrality.yaml" "/cfg" (PBool true)
           [("env", []);
            ("_runtime",
             [("config_directory", PStr "/cfg");
              ("config_file", PStr "/cfg/astrality.conf");
              ("temp_directory", PStr "/tmp/astrality")])]);
    reflexivity.
Defined.

(** ** Paths *)

Lemma prefix_cons (a b : ascii) (s1 s2 : string) :
  String.prefix (String a s1) (String b s2)
  = if ascii_dec a b then String.prefix s1 s2 else false.
Proof. reflexivity. Qed.

Lemma prefix_empty (s : string) : String.prefix EmptyString s = true.
Proof. destruct s; reflexivity. Qed.

Lemma absolute_not_tilde (p : Path) :
  PyPath.is_absolute p = true -> String.prefix "~" p = false.
Proof.
  unfold PyPath.is_absolute. destruct p as [|c p]; [discriminate|].
  rewrite !prefix_cons. destruct (ascii_dec "/" c) as [<-|Hc]; [|discriminate].
  intros _. destruct (ascii_dec "~" "/"); [discriminate|reflexivity].
Qed.

Lemma absolute_not_empty (p : Path) :
  PyPath.is_absolute p = true -> PyPath.is_empty p = false.
Proof.
  unfold PyPath.is_absolute. destruct p as [|c p]; [discriminate|].
  rewrite prefix_cons. destruct (ascii_dec "/" c) as [<-|Hc]; [|discriminate].
  intros _. reflexivity.
Qed.

Lemma absolute_append (p q : string) :
  PyPath.is_absolute p = true -> PyPath.is_absolute (p ++ q)%string = true.
Proof.
  unfold PyPath.is_absolute. destruct p as [|c p]; [discriminate|].
  cbn [append]. rewrite !prefix_cons.
  destruct (ascii_dec "/" c); [|discriminate].
  intros _. apply prefix_empty.
Qed.

(** [Path(a, b)] is absolute when [a] is. *)
Lemma join_absolute (a b : Path) :
  PyPath.is_absolute a = true -> PyPath.is_absolute (PyPath.join a b) = true.
Proof.
  intros Ha. unfold PyPath.join.
  destruct (PyPath.is_absolute b) eqn:Hb; [exact Hb|].
  rewrite (absolute_not_empty a Ha).
  destruct (PyPath.is_empty b); [exact Ha|].
  destruct (PyPath.ends_with_slash a); apply absolute_append; exact Ha.
Qed.

Lemma expand_absolute (env : Env) (self : ModuleManager.t) (p : Path) :
  PyPath.is_absolute p = true -> ModuleManager.expand_path env self p = Ok p.
Proof.
  intros H. unfold ModuleManager.expand_path, ModuleManager.expand_path_in,
    PyPath.expanduser.
  rewrite (absolute_not_tilde p H). cbn [rbind]. rewrite H. reflexivity.
Qed.

(** X17. [expand_path] leaves an absolute path as it is. A path whose first
    component is a tilde followed by the name of a user raises what the
    lookup of the home directory of that user raises. When the
    configuration directory and the home directories are absolute, what
    [expand_path] returns is absolute, and expanding it again changes
    nothing. *)
Theorem expand_path_absolute (env : Env) (self : ModuleManager.t) (p : Path) :
  (PyPath.is_absolute p = true -> ModuleManager.expand_path env self p = Ok p)
  /\ (forall e,
         String.prefix "~" p = true ->
         PyStr.slice_from 1 (first_component p) <> EmptyString ->
         user_home env (PyStr.slice_from 1 (first_component p)) = Raise e ->
         ModuleManager.expand_path env self p = Raise e)
  /\ (forall q,
         PyPath.is_absolute (ModuleManager.config_directory self) = true ->
         PyPath.is_absolute (home env) = true ->
         (forall username homedir,
             user_home env username = Ok homedir ->
             PyPath.is_absolute homedir = true) ->
         ModuleManager.expand_path env self p = Ok q ->
         PyPath.is_absolute q = true
         /\ ModuleManager.expand_path env self q = Ok q).
Proof.
  split; [apply expand_absolute|]. split.
  - intros e Ht Hu He.
    unfold ModuleManager.expand_path, ModuleManager.expand_path_in,
      PyPath.expanduser.
    rewrite Ht. fold (first_component p).
    destruct (String.eqb_spec (PyStr.slice_from 1 (first_component p)) "")
      as [Heq|_]; [contradiction|].
    rewrite He. reflexivity.
  - intros q Hc Hh Hu H.
    assert (Habs : PyPath.is_absolute q = true).
    { unfold ModuleManager.expand_path, ModuleManager.expand_path_in in H.
      bind_as H q' E.
      assert (Hq : PyPath.is_absolute q' = false
                   \/ PyPath.is_absolute q' = true)
        by (destruct (PyPath.is_absolute q'); auto).
      destruct Hq as [Hq|Hq]; rewrite Hq in H; cbn [negb] in H;
        inversion H; subst; clear H.
      - apply join_absolute. exact Hc.
      - exact Hq. }
    split; [exact Habs | apply expand_absolute; exact Habs].
Qed.

Lemma expand_path_absolute_witness :
  ModuleManager.expand_path env0 notes_watcher "/etc/motd" = Ok "/etc/motd"
  /\ ModuleManager.expand_path env0 notes_watcher "~nobody/notes.txt"
     = Raise (RuntimeError "Can't determine home directory for 'nobody'")
  /\ PyPath.is_absolute "/root/notes.txt" = true
  /\ ModuleManager.expand_path env0 notes_watcher "/root/notes.txt"
     = Ok "/root/notes.txt".
Proof.
  destruct (expand_path_absolute env0 notes_watcher "/etc/motd") as (H1 & _ & _).
  destruct (expand_path_absolute env0 notes_watcher "~nobody/notes.txt")
    as (_ & H2 & _).
  destruct (expand_path_absolute env0 notes_watcher "~root/notes.txt")
    as (_ & _ & H3).
  split; [exact (H1 eq_refl)|].
  split; [apply H2; [reflexivity | discriminate | reflexivity]|].
  apply (H3 "/root/notes.txt"); try reflexivity.
  intros username homedir. simpl.
  destruct (String.eqb username "root"); [|discriminate].
  intros H. inversion H. reflexivity.
Defined.

(** What [expand_path] makes of relative paths and of tildes. *)
Lemma expand_path_examples :
  ModuleManager.expand_path env0 notes_watcher "notes.txt"
  = Ok "/cfg/notes.txt"
  /\ ModuleManager.expand_path env0 notes_watcher "~" = Ok "/home/user"
  /\ ModuleManager.expand_path env0 notes_watcher "~/notes.txt"
     = Ok "/home/user/notes.txt"
  /\ ModuleManager.expand_path env0 notes_watcher "~root/notes.txt"
     = Ok "/root/notes.txt".
Proof. repeat split. Qed.

(** ** Commands *)

Lemma run_commands_trace (env : Env) (self : ModuleManager.t)
  (commands : list string) (timeout directory : pyval) :
  ModuleManager.config_option self "settings/astrality" "run_timeout"
  = Ok timeout ->
  ModuleManager.config_option self "_runtime" "config_directory"
  = Ok directory ->
  forall w,
    ModuleManager.run_commands env commands (self, w)
    = ((self, add_effects w (map (shell_effect self) commands)), Ok tt).
Proof.
  intros Ht Hd. unfold ModuleManager.run_commands.
  induction commands as [|c l IH]; intros w; simpl.
  - rewrite add_effects_nil. reflexivity.
  - unfold mbind at 1. unfold mbind at 1. simpl.
    unfold mbind at 1. simpl. rewrite Ht. simpl.
    unfold ModuleManager.run_shell. unfold mbind at 1. simpl.
    unfold mbind at 1. simpl. rewrite Hd. simpl.
    rewrite IH. rewrite add_effects_cons. reflexivity.
Qed.

(** The loop of [startup], [on_event] and [exit] over the modules, for the
    accessor each of them calls. *)
Lemma module_commands_trace (env : Env) (self : ModuleManager.t)
  (accessor : Env -> AstralityModule.t -> Result (list string))
  (timeout directory : pyval) (ms : list AstralityModule.t)
  (batches : list (list string)) :
  ModuleManager.config_option self "settings/astrality" "run_timeout"
  = Ok timeout ->
  ModuleManager.config_option self "_runtime" "config_directory"
  = Ok directory ->
  Forall2 (fun m commands => accessor env m = Ok commands) ms batches ->
  forall w,
    mfor_each ms
      (fun module =>
         let! commands := lift (accessor env module) in
         ModuleManager.run_commands env commands) (self, w)
    = ((self, add_effects w (map (shell_effect self) (concat batches))), Ok tt).
Proof.
  intros Ht Hd Hall. induction Hall as [|m cs ms bs Hm Hms IH]; intros w; simpl.
  - rewrite add_effects_nil. reflexivity.
  - unfold mbind at 1. unfold mbind at 1. simpl. rewrite Hm. simpl.
    rewrite (run_commands_trace env self cs timeout directory Ht Hd).
    rewrite IH. rewrite add_effects_app, map_app. reflexivity.
Qed.

(** X12. [startup] runs the startup commands of the modules, module after
    module and in the order of each, each with the template placeholders
    replaced by the targets; then the manager is started and its watcher
    runs. *)
Theorem startup_runs_commands (env : Env) (self : ModuleManager.t) (w : World)
  (timeout directory : pyval) (batches : list (list string)) :
  ModuleManager.config_option self "settings/astrality" "run_timeout"
  = Ok timeout ->
  ModuleManager.config_option self "_runtime" "config_directory"
  = Ok directory ->
  Forall2 (fun m commands => AstralityModule.startup_commands env m = Ok commands)
    (dvalues (ModuleManager.modules self)) batches ->
  ModuleManager.startup env (self, w)
  = ((ModuleManager.set_watcher_running
        (ModuleManager.set_startup_done self true) true,
      add_effects w (map (shell_effect self) (concat batches))),
     Ok tt).
Proof.
  intros Ht Hd Hall. unfold ModuleManager.startup.
  unfold mbind at 1. simpl. unfold mbind at 1.
  rewrite (module_commands_trace env self AstralityModule.startup_commands
             timeout directory _ batches Ht Hd Hall).
  reflexivity.
Qed.

(** X13. [exit] runs the exit commands of the modules in the same way,
    closes every temporary file of the manager and stops the watcher; it
    does so whether or not the manager has started, and changes nothing else
    of the manager. *)
Theorem exit_runs_commands (env : Env) (self : ModuleManager.t) (w : World)
  (timeout directory : pyval) (batches : list (list string)) :
  ModuleManager.config_option self "settings/astrality" "run_timeout"
  = Ok timeout ->
  ModuleManager.config_option self "_runtime" "config_directory"
  = Ok directory ->
  Forall2 (fun m commands => AstralityModule.exit_commands env m = Ok commands)
    (dvalues (ModuleManager.modules self)) batches ->
  ModuleManager.exit env (self, w)
  = ((ModuleManager.set_watcher_running self false,
      add_effects w
        (map (shell_effect self) (concat batches)
         ++ map TempFileClosed (ModuleManager.temp_files self))),
     Ok tt).
Proof.
  intros Ht Hd Hall. unfold ModuleManager.exit.
  unfold mbind at 1. simpl. unfold mbind at 1.
  rewrite (module_commands_trace env self AstralityModule.exit_commands
             timeout directory _ batches Ht Hd Hall).
  unfold mbind at 1. simpl. unfold mbind at 1.
  assert (Hclose : forall l w',
             mfor_each l
               (fun temp_file =>
                  ModuleManager.in_world (do_effect (TempFileClosed temp_file)))
               (self, w')
             = ((self, add_effects w' (map TempFileClosed l)), Ok tt)).
  { induction l as [|x l IH]; intros w'; simpl.
    - rewrite add_effects_nil. reflexivity.
    - unfold mbind at 1. simpl. rewrite IH, add_effects_cons. reflexivity. }
  rewrite Hclose. rewrite add_effects_app. reflexivity.
Qed.

Lemma startup_runs_commands_witness :
  ModuleManager.startup env_colors (temporary_manager, w0)
  = ((ModuleManager.set_watcher_running
        (ModuleManager.set_startup_done temporary_manager true) true,
      add_effects w0 [Shell "cat /tmp/m-tmp"]),
     Ok tt).
Proof.
  apply (startup_runs_commands env_colors temporary_manager w0 (PInt 1)
           (PStr "/cfg") [["cat {bar.tpl}"]]).
  - reflexivity.
  - reflexivity.
  - repeat constructor.
Defined.

Lemma exit_runs_commands_witness :
  ModuleManager.temp_files temporary_manager = ["/tmp/m-tmp"]
  /\ ModuleManager.exit env_colors (temporary_manager, w0)
     = ((ModuleManager.set_watcher_running temporary_manager false,
         add_effects w0
           [Shell "echo bye static"; TempFileClosed "/tmp/m-tmp"]),
        Ok tt).
Proof.
  split; [reflexivity|].
  apply (exit_runs_commands env_colors temporary_manager w0 (PInt 1)
           (PStr "/cfg") [["echo bye static"]]).
  - reflexivity.
  - reflexivity.
  - repeat constructor.
Defined.

(** X15. [modified] on a watched path whose specified path is a template:
    the compile actions of its block leave their outcomes in the trace, then
    its commands are run; the manager is as it was. *)
Theorem modified_watched_template (env : Env) (self : ModuleManager.t)
  (w : World) (p d : Path) (watched_file : WatchedFile) (own : Template)
  (entries : dict pyval) (blk compile : pyval) (compilations : list pyval)
  (templates : list Template) (commands : list string) (timeout : pyval) :
  ModuleManager.config_option self "_runtime" "config_directory" = Ok (PStr d) ->
  ModuleManager.config_option self "settings/astrality" "run_timeout"
  = Ok timeout ->
  p <> PyPath.join d "astrality.yaml" ->
  dget (ModuleManager.on_modified_paths self) p = Some watched_file ->
  dget (ModuleManager.templates self) (specified_path watched_file) = Some own ->
  dget (AstralityModule.module_config (module watched_file)) "on_modified"
  = Some (PDict entries) ->
  dget entries (specified_path watched_file) = Some blk ->
  getitem blk "compile" = Ok compile ->
  py_iter compile = Ok compilations ->
  Forall2 (resolves self) compilations templates ->
  (forall t, In t templates -> is_file env (source t) = true ->
             render_failure env (source t) (target t) = None) ->
  AstralityModule.modified_commands env (module watched_file)
    (specified_path watched_file) = Ok commands ->
  ModuleManager.modified env p (self, w)
  = ((self,
      add_effects w
        (map (compilation_outcome env self) templates
         ++ map (shell_effect self) commands)),
     Ok tt).
Proof.
  intros Hd Ht Hp Hw Hown Hom He Hc Hiter Hres Hr Hcmd.
  unfold ModuleManager.modified.
  unfold mbind at 1. simpl. unfold mbind at 1. simpl. rewrite Hd. simpl.
  destruct (String.eqb_spec p (PyPath.join d "astrality.yaml")) as [|_];
    [contradiction|].
  unfold dmem. rewrite Hw. simpl.
  unfold mbind at 1. simpl. unfold ditem at 1. rewrite Hw. simpl.
  unfold mbind at 1. simpl. unfold ditem at 1. rewrite Hown. simpl.
  unfold mbind at 1. simpl. unfold ditem at 1. rewrite Hom. simpl.
  unfold ditem at 1. rewrite He. simpl. rewrite Hc. simpl. rewrite Hiter.
  unfold mbind at 1.
  rewrite (compile_compilations_outcomes env self compilations templates Hres Hr).
  unfold mbind at 1. simpl. rewrite Hcmd.
  rewrite (run_commands_trace env self commands timeout (PStr d) Ht Hd).
  rewrite add_effects_app. reflexivity.
Qed.

Lemma modified_watched_template_witness :
  ModuleManager.modified env_colors "/cfg/bar.tpl" (bar_manager, w0)
  = ((bar_manager,
      add_effects w0
        [Compile "/cfg/bar.tpl" "/out/bar"
           (ModuleManager.application_context bar_manager);
         Shell "reload /out/bar"]),
     Ok tt).
Proof.
  apply (modified_watched_template env_colors bar_manager w0 "/cfg/bar.tpl"
           "/cfg"
           {| path := "/cfg/bar.tpl";
              module := module_of env_colors "module/m"
                          [("on_startup",
                            PDict [("import_context", dark_colors)]);
                           ("on_modified",
                            PDict [("bar.tpl",
                                    PDict [("import_context", dark_colors);
                                           ("compile",
                                            PDict [("template", PStr "bar.tpl");
                                                   ("target", PStr "/out/bar")]);
                                           ("run", PStr "reload {bar.tpl}")])])];
              specified_path := "bar.tpl" |}
           {| source := "/cfg/bar.tpl"; target := "/out/bar" |}
           [("bar.tpl",
             PDict [("import_context", PList [dark_colors]);
                    ("compile",
                     PList [PDict [("template", PStr "bar.tpl");
                                   ("target", PStr "/out/bar")]]);
                    ("run", PList [PStr "reload {bar.tpl}"]);
                    ("trigger", PList [])])]
           (PDict [("import_context", PList [dark_colors]);
                   ("compile",
                    PList [PDict [("template", PStr "bar.tpl");
                                  ("target", PStr "/out/bar")]]);
                   ("run", PList [PStr "reload {bar.tpl}"]);
                   ("trigger", PList [])])
           (PList [PDict [("template", PStr "bar.tpl");
                          ("target", PStr "/out/bar")]])
           [PDict [("template", PStr "bar.tpl"); ("target", PStr "/out/bar")]]
           [ {| source := "/cfg/bar.tpl"; target := "/out/bar" |} ]
           ["reload {bar.tpl}"] (PInt 1));
    try reflexivity.
  - discriminate.
  - repeat constructor. eexists. split; reflexivity.
Defined.

(** ** Placeholders *)

Lemma replace_aux_absent (old new s : string) :
  PyStr.contains old s = false -> PyStr.replace_aux old new s 0 = s.
Proof.
  induction s as [|a s IH]; [reflexivity|].
  cbn [PyStr.contains PyStr.replace_aux]. intros H.
  apply orb_false_elim in H. destruct H as [Hp Hc].
  rewrite Hp, (IH Hc). reflexivity.
Qed.

Lemma replace_absent (c : ascii) (old new s : string) :
  PyStr.contains (String c old) s = false ->
  PyStr.replace (String c old) new s = s.
Proof.
  apply replace_aux_absent.
Qed.

Lemma contains_longer (c : ascii) (rest s : string) :
  PyStr.contains (String c EmptyString) s = false ->
  PyStr.contains (String c rest) s = false.
Proof.
  induction s as [|a s IH]; [reflexivity|].
  cbn [PyStr.contains]. intros H.
  apply orb_false_elim in H. destruct H as [Hp Hc].
  rewrite (IH Hc), orb_false_r.
  rewrite prefix_cons in *. destruct (ascii_dec c a); [|reflexivity].
  rewrite prefix_empty in Hp. discriminate.
Qed.

(** X22. Interpolation leaves alone what holds no placeholder: the module
    returns a string without [{event}] as it is, whatever the event, and the
    manager a string without an opening brace, whatever the templates. *)
Theorem interpolation_without_placeholder (env : Env) (s : string) :
  (forall m,
      PyStr.contains "{event}" s = false ->
      AstralityModule.interpolate_string env m (PStr s) = Ok s)
  /\ (forall self,
         PyStr.contains "{" s = false ->
         ModuleManager.interpolate_string self s = s).
Proof.
  split.
  - intros m H. unfold AstralityModule.interpolate_string.
    rewrite (replace_absent _ _ _ _ H). reflexivity.
  - intros self H. unfold ModuleManager.interpolate_string.
    induction (ModuleManager.templates self) as [|[k t] l IH]; [reflexivity|].
    cbn [fold_left fst snd].
    change ("{" ++ k ++ "}")%string with (String "{" (k ++ "}")).
    rewrite (replace_absent "{" (k ++ "}") (target t) s
               (contains_longer "{" (k ++ "}") s H)).
    exact IH.
Qed.

Lemma interpolation_without_placeholder_witness :
  AstralityModule.interpolate_string env0 echo_module (PStr "echo {even}")
  = Ok "echo {even}"
  /\ ModuleManager.interpolate_string bar_manager "reload bar.tpl"
     = "reload bar.tpl".
Proof.
  destruct (interpolation_without_placeholder env0 "echo {even}") as [H1 _].
  destruct (interpolation_without_placeholder env0 "reload bar.tpl") as [_ H2].
  split; [apply H1; reflexivity | apply H2; reflexivity].
Defined.

(** ** The configuration loader *)

Lemma dget_dremove_other {V : Type} (d : dict V) (k k' : string) :
  k <> k' -> dget (dremove d k) k' = dget d k'.
Proof.
  intros Hne. induction d as [|[k0 v0] d IH]; simpl; [reflexivity|].
  destruct (String.eqb_spec k k0) as [->|Hk]; simpl.
  - destruct (String.eqb_spec k' k0); [congruence | reflexivity].
  - destruct (String.eqb k' k0); [reflexivity | exact IH].
Qed.

Lemma dget_dremove_same {V : Type} (d : dict V) (k : string) :
  NoDup (dkeys d) -> dget (dremove d k) k = None.
Proof.
  induction d as [|[k0 v0] d IH]; simpl; intros Hnd; [reflexivity|].
  inversion Hnd as [|? ? Hk0 Hd]; subst.
  destruct (String.eqb_spec k k0) as [->|Hk]; simpl.
  - apply dget_not_In. exact Hk0.
  - destruct (String.eqb_spec k k0); [congruence | apply IH; exact Hd].
Qed.

(** X19. [resolver_from_config_file]: without the file it logs a critical
    record that names the file and raises [RuntimeError]; with the file, what
    it returns has no [DEFAULT] section, has the expanded environment as its
    [env] section when asked for, shadowing a section of that name in the
    file, and has every other section as the parser gave it. *)
Theorem resolver_from_config_file_sections (env : Env) (config_file : Path)
  (w : World) :
  (forall with_env,
      is_file env config_file = false ->
      Config.resolver_from_config_file env config_file with_env w
      = (add_effects w
           [LogCritical
              ("Could not load config file " ++ PyStr.dq ++ config_file
               ++ PyStr.dq ++ ".")%string],
         Raise (RuntimeError
                  ("Could not load config file " ++ PyStr.dq ++ config_file
                   ++ PyStr.dq ++ ".")%string)))
  /\ (forall with_env parsed,
         is_file env config_file = true ->
         configparser_read env config_file = Ok parsed ->
         NoDup (dkeys parsed) ->
         dmem parsed "DEFAULT" = true ->
         exists conf,
           Config.resolver_from_config_file env config_file with_env w
           = (w, Ok conf)
           /\ dget conf "DEFAULT" = None
           /\ (with_env = true -> dget conf "env" = Some (expanded_env env))
           /\ (forall k,
                  k <> "DEFAULT" -> (with_env = true -> k <> "env") ->
                  dget conf k = dget parsed k)).
Proof.
  split.
  - intros with_env H.
    rewrite (resolver_from_missing_file env config_file with_env w H).
    reflexivity.
  - intros with_env parsed Hf Hp Hnd Hdef.
    unfold Config.resolver_from_config_file. rewrite Hf. cbn [negb].
    unfold mbind at 1. unfold lift at 1. rewrite Hp.
    set (conf_dict := if with_env then dset parsed "env" (expanded_env env)
                      else parsed).
    assert (Hnd' : NoDup (dkeys conf_dict))
      by (unfold conf_dict; destruct with_env;
          [apply NoDup_dkeys_dset|]; exact Hnd).
    assert (Hdef' : exists v, dget conf_dict "DEFAULT" = Some v).
    { unfold conf_dict, dmem in *. destruct with_env.
      - rewrite dget_dset_other by discriminate.
        destruct (dget parsed "DEFAULT"); [eauto | discriminate].
      - destruct (dget parsed "DEFAULT"); [eauto | discriminate]. }
    destruct Hdef' as [v Hv].
    exists (dremove conf_dict "DEFAULT").
    unfold mbind at 1. unfold lift, ditem. rewrite Hv.
    split; [reflexivity|]. split; [apply dget_dremove_same; exact Hnd'|].
    split.
    + intros ->. rewrite dget_dremove_other by discriminate.
      apply dget_dset_same.
    + intros k Hk Henv. rewrite dget_dremove_other by congruence.
      unfold conf_dict. destruct with_env; [|reflexivity].
      apply dget_dset_other. intros Heq. apply (Henv eq_refl). congruence.
Qed.

Lemma resolver_from_config_file_sections_witness :
  exists conf,
    Config.resolver_from_config_file env_parsed "/cfg/astrality.conf" true w0
    = (w0, Ok conf)
    /\ dget conf "DEFAULT" = None
    /\ (true = true -> dget conf "env" = Some (expanded_env env_parsed))
    /\ (forall k,
           k <> "DEFAULT" -> (true = true -> k <> "env") ->
           dget conf k = dget parsed_file k).
Proof.
  apply (proj2 (resolver_from_config_file_sections env_parsed
                  "/cfg/astrality.conf" w0) true parsed_file).
  - reflexivity.
  - reflexivity.
  - repeat constructor; simpl; intuition discriminate.
  - reflexivity.
Defined.

(** X20. What [user_configuration] returns holds the section [_runtime]
    with the directory and the file [infer_config_location] found and the
    temporary directory, in place of any section of that name in the file;
    the file it names exists. *)
Theorem user_configuration_runtime (env : Env) (config_directory : option Path)
  (w w' : World) (config : ApplicationConfig) :
  Config.user_configuration env config_directory w = (w', Ok config) ->
  dget config "_runtime"
  = Some [("config_directory",
           PStr (fst (Config.infer_config_location env config_directory)));
          ("config_file",
           PStr (snd (Config.infer_config_location env config_directory)));
          ("temp_directory",
           PStr (PyPath.join
                   (match tmpdir env with Some d => d | None => "/tmp" end)
                   "astrality"))]
  /\ is_file env (snd (Config.infer_config_location env config_directory))
     = true.
Proof.
  unfold Config.user_configuration.
  destruct (Config.infer_config_location env config_directory) as [d f].
  intros H. mbind_as H conf s1 E1. mbind_as H rt s2 E2.
  inversion H; subst; clear H. split.
  - unfold Config.infer_runtime_variables_from_config in E2.
    mbind_as E2 u s3 E3. inversion E2; subst.
    unfold dupdate. simpl. apply dget_dset_same.
  - simpl. unfold Config.resolver_from_config_file in E1.
    destruct (is_file env f); [reflexivity|]. simpl in E1.
    unfold mbind in E1. simpl in E1. discriminate.
Qed.

Lemma user_configuration_runtime_witness :
  dget loaded_configuration "_runtime"
  = Some [("config_directory",
           PStr (fst (Config.infer_config_location env_parsed None)));
          ("config_file",
           PStr (snd (Config.infer_config_location env_parsed None)));
          ("temp_directory",
           PStr (PyPath.join
                   (match tmpdir env_parsed with
                    | Some d => d
                    | None => "/tmp"
                    end) "astrality"))]
  /\ is_file env_parsed (snd (Config.infer_config_location env_parsed None))
     = true.
Proof.
  apply (user_configuration_runtime env_parsed None w0
           (add_effects w0 [Mkdir "/tmp/astrality"])).
  reflexivity.
Defined.

(** X21. [insert_into] of [config.py]: when the file loads and has the
    section asked for, the configuration returned has that section under the
    given name and every other section as before; a file without the
    section raises [KeyError], and a failure to load the file is passed
    on. *)
Theorem insert_into_section (env : Env) (config : ApplicationConfig)
  (section from_section : string) (from_config_file : Path) (w w' : World) :
  (forall conf subtree,
      Config.resolver_from_config_file env from_config_file false w
      = (w', Ok conf) ->
      dget conf from_section = Some subtree ->
      exists config',
        Config.insert_into env config section from_config_file from_section w
        = (w', Ok config')
        /\ dget config' section = Some subtree
        /\ forall k, k <> section -> dget config' k = dget config k)
  /\ (forall conf,
         Config.resolver_from_config_file env from_config_file false w
         = (w', Ok conf) ->
         dget conf from_section = None ->
         Config.insert_into env config section from_config_file from_section w
         = (w', Raise KeyError))
  /\ (forall e,
         Config.resolver_from_config_file env from_config_file false w
         = (w', Raise e) ->
         Config.insert_into env config section from_config_file from_section w
         = (w', Raise e)).
Proof.
  unfold Config.insert_into. repeat split.
  - intros conf subtree Hr Hs. exists (dset config section subtree).
    unfold mbind at 1. rewrite Hr. unfold mbind at 1. unfold lift, ditem.
    rewrite Hs. split; [reflexivity|]. split; [apply dget_dset_same|].
    intros k Hk. apply dget_dset_other. congruence.
  - intros conf Hr Hs. unfold mbind at 1. rewrite Hr.
    unfold mbind at 1. unfold lift, ditem. rewrite Hs. reflexivity.
  - intros e Hr. unfold mbind at 1. rewrite Hr. reflexivity.
Qed.

Lemma insert_into_section_witness :
  (exists config',
      Config.insert_into env_parsed [runtime; ("colors", [])] "colors"
        "/cfg/astrality.conf" "colors" w0 = (w0, Ok config')
      /\ dget config' "colors" = Some [("background", PStr "black")]
      /\ forall k, k <> "colors" ->
           dget config' k = dget [runtime; ("colors", [])] k)
  /\ Config.insert_into env_parsed [runtime] "colors" "/cfg/astrality.conf"
       "fonts" w0 = (w0, Raise KeyError).
Proof.
  split.
  - destruct (insert_into_section env_parsed [runtime; ("colors", [])] "colors"
                "colors" "/cfg/astrality.conf" w0 w0) as (H & _).
    apply (H [("colors", [("background", PStr "black")]);
              ("env", [("shadowed", PStr "yes")])]); reflexivity.
  - destruct (insert_into_section env_parsed [runtime] "colors" "fonts"
                "/cfg/astrality.conf" w0 w0) as (_ & H & _).
    apply (H [("colors", [("background", PStr "black")]);
              ("env", [("shadowed", PStr "yes")])]); reflexivity.
Defined.

(** ** The registries the constructor builds *)

Lemma mfor_each_establishes {S A : Type} (R : S -> S -> Prop)
  (Q : A -> S -> Prop) (body : A -> ST S unit) :
  (forall s, R s s) ->
  (forall s1 s2 s3, R s1 s2 -> R s2 s3 -> R s1 s3) ->
  (forall x s s' r, body x s = (s', r) -> R s s') ->
  (forall x s s', body x s = (s', Ok tt) -> Q x s') ->
  (forall x s s', Q x s -> R s s' -> Q x s') ->
  forall l s s' r,
    mfor_each l body s = (s', r) ->
    R s s' /\ (r = Ok tt -> forall x, In x l -> Q x s').
Proof.
  intros Hrefl Htrans Hbody Hq Hstable.
  induction l as [|x l IH]; simpl; intros s s' r H.
  - inversion H; subst. split; [apply Hrefl | intros _ y []].
  - unfold mbind in H. destruct (body x s) as [s1 [[]|e]] eqn:E.
    + destruct (IH _ _ _ H) as [HR HQ]. split.
      * eapply Htrans; [eapply Hbody; exact E | exact HR].
      * intros Hr y [<-|Hy]; [|apply HQ; assumption].
        eapply Hstable; [eapply Hq; exact E | exact HR].
    + inversion H; subst. split; [eapply Hbody; exact E | discriminate].
Qed.

Lemma mfor_each_preserves {S A : Type} (R : S -> S -> Prop)
  (body : A -> ST S unit) :
  (forall s, R s s) ->
  (forall s1 s2 s3, R s1 s2 -> R s2 s3 -> R s1 s3) ->
  (forall x, preserves R (body x)) ->
  forall l, preserves R (mfor_each l body).
Proof.
  intros Hrefl Htrans Hbody l s s' r H.
  apply (mfor_each_establishes R (fun _ _ => True) body Hrefl Htrans Hbody
           (fun _ _ _ _ => I) (fun _ _ _ _ _ => I) l s s' r H).
Qed.

Lemma registry_grows_refl (s : (dict Template * list Path) * World) :
  registry_grows s s.
Proof. intros k H. exact H. Qed.

Lemma registry_grows_trans (s1 s2 s3 : (dict Template * list Path) * World) :
  registry_grows s1 s2 -> registry_grows s2 s3 -> registry_grows s1 s3.
Proof. intros H1 H2 k H. apply H2, H1, H. Qed.

Lemma registered_stable (c : pyval) (s s' : (dict Template * list Path) * World) :
  registered c s -> registry_grows s s' -> registered c s'.
Proof.
  intros (sp & Hsp & Hm) Hg. exists sp. split; [exact Hsp | apply Hg, Hm].
Qed.

Lemma dmem_dset {V : Type} (d : dict V) (k k' : string) (v : V) :
  dmem (dset d k v) k' = true <-> k = k' \/ dmem d k' = true.
Proof.
  unfold dmem. destruct (String.eqb_spec k k') as [->|Hne].
  - rewrite dget_dset_same. tauto.
  - rewrite dget_dset_other by exact Hne. tauto.
Qed.

(** One compile action in [prepare_templates]: the registry keeps what it
    had, and the action is registered when the pass returns. *)
Lemma prepare_compile_action (env : Env) (config_directory : Path)
  (module : AstralityModule.t) (compile_action : pyval)
  (s s' : (dict Template * list Path) * World) (r : Result unit) :
  (let! specified_source :=
     lift (let? v := getitem compile_action "template" in as_str v) in
   let! absolute_source :=
     lift (ModuleManager.expand_path_in env config_directory specified_source) in
   let! has_target := lift (py_contains compile_action "target") in
   let! target :=
     if has_target then
       let! t := lift (let? v := getitem compile_action "target" in as_str v) in
       lift (ModuleManager.expand_path_in env config_directory t)
     else ModuleManager.create_temp_file env (AstralityModule.name module) in
   let! st := get_fst in
   put_fst
     (dset (fst st) specified_source
        {| source := absolute_source; target := target |},
      snd st)) s = (s', r) ->
  registry_grows s s' /\ (r = Ok tt -> registered compile_action s').
Proof.
  destruct s as [[templates temp_files] w].
  unfold mbind at 1. unfold lift at 1.
  destruct (let? v := getitem compile_action "template" in as_str v)
    as [sp|e] eqn:Esp.
  2:{ intros H. inversion H; subst. split; [apply registry_grows_refl|discriminate]. }
  unfold mbind at 1. unfold lift at 1.
  destruct (ModuleManager.expand_path_in env config_directory sp)
    as [absolute_source|e] eqn:Ea.
  2:{ intros H. inversion H; subst. split; [apply registry_grows_refl|discriminate]. }
  unfold mbind at 1. unfold lift at 1.
  destruct (py_contains compile_action "target") as [has|e] eqn:Eh.
  2:{ intros H. inversion H; subst. split; [apply registry_grows_refl|discriminate]. }
  unfold mbind at 1.
  destruct has.
  - unfold mbind at 1. unfold lift at 1.
    destruct (let? v := getitem compile_action "target" in as_str v)
      as [t|e] eqn:Et.
    2:{ intros H. inversion H; subst.
        split; [apply registry_grows_refl|discriminate]. }
    unfold lift at 1.
    destruct (ModuleManager.expand_path_in env config_directory t)
      as [target|e] eqn:Etg.
    2:{ intros H. inversion H; subst.
        split; [apply registry_grows_refl|discriminate]. }
    unfold ret, mbind, get_fst, put_fst. simpl. intros H. inversion H; subst.
    split.
    + intros k Hk. simpl in *. apply dmem_dset. right. exact Hk.
    + intros _. exists sp. split; [exact Esp|].
      simpl. apply dmem_dset. left. reflexivity.
  - unfold ModuleManager.create_temp_file, mbind, get_fst, put_fst. simpl.
    intros H. inversion H; subst. split.
    + intros k Hk. simpl in *. apply dmem_dset. right. exact Hk.
    + intros _. exists sp. split; [exact Esp|].
      simpl. apply dmem_dset. left. reflexivity.
Qed.

Lemma prepare_templates_registers (env : Env) (config_directory : Path)
  (modules : list AstralityModule.t)
  (s s' : (dict Template * list Path) * World) (r : Result unit) :
  ModuleManager.prepare_templates env config_directory modules s = (s', r) ->
  registry_grows s s'
  /\ (r = Ok tt ->
      forall m, In m modules ->
        exists blocks,
          ModuleManager.blocks_of m = Ok blocks
          /\ forall blk, In blk blocks ->
               exists compilations,
                 (let? c := getitem blk "compile" in py_iter c)
                 = Ok compilations
                 /\ forall c, In c compilations -> registered c s').
Proof.
  unfold ModuleManager.prepare_templates.
  apply (mfor_each_establishes registry_grows
           (fun m s' =>
              exists blocks,
                ModuleManager.blocks_of m = Ok blocks
                /\ forall blk, In blk blocks ->
                     exists compilations,
                       (let? c := getitem blk "compile" in py_iter c)
                       = Ok compilations
                       /\ forall c, In c compilations -> registered c s')).
  - apply registry_grows_refl.
  - apply registry_grows_trans.
  - (* a module keeps the registry *)
    intros m s1 s2 r1 H. unfold mbind at 1 in H. unfold lift at 1 in H.
    destruct (ModuleManager.blocks_of m) as [blocks|e];
      [|inversion H; subst; apply registry_grows_refl].
    revert H.
    apply (mfor_each_preserves registry_grows _ registry_grows_refl
             registry_grows_trans).
    intros blk s3 s4 r3 H. unfold mbind at 1 in H. unfold lift at 1 in H.
    destruct (let? c := getitem blk "compile" in py_iter c) as [cs|e];
      [|inversion H; subst; apply registry_grows_refl].
    revert H.
    apply (mfor_each_preserves registry_grows _ registry_grows_refl
             registry_grows_trans).
    intros c s5 s6 r5 H.
    apply (prepare_compile_action env config_directory m c s5 s6 r5 H).
  - (* a module whose pass returned is registered *)
    intros m s1 s2 H. unfold mbind at 1 in H. unfold lift at 1 in H.
    destruct (ModuleManager.blocks_of m) as [blocks|e]; [|discriminate].
    exists blocks. split; [reflexivity|].
    refine (proj2 (mfor_each_establishes registry_grows
             (fun blk s' =>
                exists compilations,
                  (let? c := getitem blk "compile" in py_iter c)
                  = Ok compilations
                  /\ forall c, In c compilations -> registered c s')
             _ registry_grows_refl registry_grows_trans _ _ _
             blocks s1 s2 (Ok tt) H) eq_refl).
    + clear H. intros blk s3 s4 r3 H.
      unfold mbind at 1 in H. unfold lift at 1 in H.
      destruct (let? c := getitem blk "compile" in py_iter c) as [cs|e];
        [|inversion H; subst; apply registry_grows_refl].
      revert H.
      apply (mfor_each_preserves registry_grows _ registry_grows_refl
               registry_grows_trans).
      intros c s5 s6 r5 H.
      apply (prepare_compile_action env config_directory m c s5 s6 r5 H).
    + clear H. intros blk s3 s4 H.
      unfold mbind at 1 in H. unfold lift at 1 in H.
      destruct (let? c := getitem blk "compile" in py_iter c) as [cs|e];
        [|discriminate].
      exists cs. split; [reflexivity|].
      refine (proj2 (mfor_each_establishes registry_grows registered
               _ registry_grows_refl registry_grows_trans _ _ _
               cs s3 s4 (Ok tt) H) eq_refl).
      * clear H. intros c s5 s6 r5 H.
        apply (prepare_compile_action env config_directory m c s5 s6 r5 H).
      * clear H. intros c s5 s6 H.
        apply (prepare_compile_action env config_directory m c s5 s6 (Ok tt) H).
        reflexivity.
      * apply registered_stable.
    + intros blk s3 s4 (cs & Hcs & Hc) Hg. exists cs. split; [exact Hcs|].
      intros c Hin. eapply registered_stable; [apply Hc; exact Hin | exact Hg].
  - intros m s1 s2 (blocks & Hb & Hblk) Hg. exists blocks. split; [exact Hb|].
    intros blk Hin. destruct (Hblk blk Hin) as (cs & Hcs & Hc).
    exists cs. split; [exact Hcs|].
    intros c Hc'. eapply registered_stable; [apply Hc; exact Hc' | exact Hg].
Qed.

Lemma registered_resolves (self : ModuleManager.t) (c : pyval)
  (temp_files : list Path) (w : World) :
  registered c ((ModuleManager.templates self, temp_files), w) ->
  exists t, resolves self c t.
Proof.
  intros (sp & Hsp & Hmem). simpl in Hmem. unfold dmem in Hmem.
  destruct (dget (ModuleManager.templates self) sp) as [t|] eqn:Ht;
    [|discriminate].
  exists t, sp. split; [|exact Ht].
  bind_as Hsp v Hv. destruct v; try discriminate.
  inversion Hsp; subst. exact Hv.
Qed.

(** X9. The constructor leaves no compile action without a template: in a
    manager that [__init__] returned, every block of every module has a
    compile list, and every compile action of it resolves to an entry of
    the registry of templates. *)
Theorem init_registers_every_template (env : Env) (config : ApplicationConfig)
  (w w' : World) (self : ModuleManager.t) :
  ModuleManager.__init__ env config w = (w', Ok self) ->
  registry_complete self.
Proof.
  unfold ModuleManager.__init__. intros H.
  mbind_as H d s1 E1. mbind_as H t s2 E2. mbind_as H loaded s3 E3.
  destruct loaded as [[config' modules] u].
  mbind_as H prepared s4 E4. destruct prepared as [[templates temp_files] u'].
  mbind_as H paths s5 E5. mbind_as H watched s6 E6.
  inversion H; subst; clear H.
  unfold run_with in E4.
  destruct (ModuleManager.prepare_templates env d (dvalues modules) ([], [], s3))
    as [[st wp] r] eqn:Hp.
  destruct r as [[]|e]; [|discriminate].
  inversion E4; subst; clear E4.
  destruct (prepare_templates_registers env d (dvalues modules) _ _ _ Hp)
    as [_ Hreg].
  intros name m Hin. simpl in Hin.
  destruct (Hreg eq_refl m) as (blocks & Hb & Hblk).
  { unfold dvalues. apply (in_map snd _ _ Hin). }
  exists blocks. split; [exact Hb|].
  intros blk Hblkin. destruct (Hblk blk Hblkin) as (cs & Hcs & Hc).
  exists cs. split; [exact Hcs|].
  intros c Hcin.
  apply (registered_resolves _ c temp_files s4). simpl. apply Hc. exact Hcin.
Qed.

(** ** The registry of watched paths *)

Lemma for_each_invariant_in {A S : Type} (P : S -> Prop)
  (f : S -> A -> Result S) (l : list A) :
  (forall s x s', In x l -> P s -> f s x = Ok s' -> P s') ->
  forall s s', P s -> for_each l f s = Ok s' -> P s'.
Proof.
  induction l as [|x l IH]; simpl; intros Hf s s' Hs H.
  - inversion H; subst; assumption.
  - bind_as H s1 E. apply (IH (fun s0 y s0' Hy => Hf s0 y s0' (or_intror Hy)) s1 s').
    + apply (Hf s x s1); auto.
    + exact H.
Qed.

Lemma for_each_establishes {A S : Type} (R : S -> S -> Prop)
  (Q : A -> S -> Prop) (f : S -> A -> Result S) :
  (forall s, R s s) ->
  (forall s1 s2 s3, R s1 s2 -> R s2 s3 -> R s1 s3) ->
  (forall x s s', f s x = Ok s' -> R s s' /\ Q x s') ->
  (forall x s s', Q x s -> R s s' -> Q x s') ->
  forall l s s', for_each l f s = Ok s' ->
    R s s' /\ forall x, In x l -> Q x s'.
Proof.
  intros Hrefl Htrans Hbody Hstable.
  induction l as [|x l IH]; simpl; intros s s' H.
  - inversion H; subst. split; [apply Hrefl | intros x []].
  - bind_as H s1 E. destruct (Hbody x s s1 E) as [HR HQ].
    destruct (IH s1 s' H) as [HR' HQ'].
    split; [eapply Htrans; eassumption|].
    intros y [<-|Hy]; [eapply Hstable; eassumption | apply HQ'; exact Hy].
Qed.

Section WatchedPaths.
Variables (env : Env) (config_directory : Path)
  (modules : list AstralityModule.t).

(** What the loop of [find_on_modified_paths] keeps true of every entry. *)
Lemma find_on_modified_paths_sound (paths : dict WatchedFile) :
  ModuleManager.find_on_modified_paths env config_directory modules = Ok paths ->
  forall p watched_file,
    dget paths p = Some watched_file ->
    path watched_file = p
    /\ ModuleManager.expand_path_in env config_directory
         (specified_path watched_file) = Ok p
    /\ In (module watched_file) modules
    /\ exists entries,
         dget (AstralityModule.module_config (module watched_file))
           "on_modified" = Some (PDict entries)
         /\ In (specified_path watched_file) (dkeys entries).
Proof.
  pose (entry_sound := fun (p : Path) (watched_file : WatchedFile) =>
    path watched_file = p
    /\ ModuleManager.expand_path_in env config_directory
         (specified_path watched_file) = Ok p
    /\ In (module watched_file) modules
    /\ exists entries,
         dget (AstralityModule.module_config (module watched_file))
           "on_modified" = Some (PDict entries)
         /\ In (specified_path watched_file) (dkeys entries)).
  change (ModuleManager.find_on_modified_paths env config_directory modules
          = Ok paths ->
          forall p wf, dget paths p = Some wf -> entry_sound p wf).
  unfold ModuleManager.find_on_modified_paths.
  apply (for_each_invariant_in
           (fun paths => forall p wf, dget paths p = Some wf -> entry_sound p wf)).
  - intros acc m acc' Hm Hacc H.
    bind_as H on_modified E1. bind_as H entries E2.
    apply ditem_Ok in E1. destruct on_modified; try discriminate.
    inversion E2; subst; clear E2.
    revert H.
    apply (for_each_invariant_in
             (fun paths => forall p wf, dget paths p = Some wf -> entry_sound p wf));
      [|exact Hacc].
    intros acc1 k acc2 Hk Hacc1 H. bind_as H q Eexp.
    inversion H; subst; clear H.
    intros p wf Hget.
    destruct (String.eqb_spec q p) as [<-|Hne].
    + rewrite dget_dset_same in Hget. inversion Hget; subst; clear Hget.
      unfold entry_sound. repeat split; simpl; auto. exists entries. auto.
    + rewrite dget_dset_other in Hget by exact Hne. apply Hacc1. exact Hget.
  - intros p wf Hget. discriminate.
Qed.

Lemma find_on_modified_paths_complete (paths : dict WatchedFile) :
  ModuleManager.find_on_modified_paths env config_directory modules = Ok paths ->
  forall m, In m modules ->
    exists entries,
      dget (AstralityModule.module_config m) "on_modified" = Some (PDict entries)
      /\ forall k, In k (dkeys entries) ->
           exists p,
             ModuleManager.expand_path_in env config_directory k = Ok p
             /\ dmem paths p = true.
Proof.
  unfold ModuleManager.find_on_modified_paths. intros H.
  pose (grows := fun a b : dict WatchedFile =>
                   forall k, dmem a k = true -> dmem b k = true).
  pose (watched := fun (k : string) (paths : dict WatchedFile) =>
                     exists p,
                       ModuleManager.expand_path_in env config_directory k
                       = Ok p
                       /\ dmem paths p = true).
  assert (Hrefl : forall s, grows s s) by (intros s k Hk; exact Hk).
  assert (Htrans : forall s1 s2 s3, grows s1 s2 -> grows s2 s3 -> grows s1 s3)
    by (intros s1 s2 s3 H12 H23 k Hk; apply H23, H12, Hk).
  assert (Hstable : forall k s s', watched k s -> grows s s' -> watched k s').
  { intros k s s' (p & Hp & Hmem) Hg. exists p. split; [exact Hp|].
    apply Hg. exact Hmem. }
  refine (proj2 (for_each_establishes grows
            (fun m paths =>
               exists entries,
                 dget (AstralityModule.module_config m) "on_modified"
                 = Some (PDict entries)
                 /\ forall k, In k (dkeys entries) -> watched k paths)
            _ Hrefl Htrans _ _ modules [] paths H)).
  - clear H. intros m acc acc' H.
    bind_as H on_modified E1. bind_as H entries E2.
    apply ditem_Ok in E1. destruct on_modified; try discriminate.
    inversion E2; subst; clear E2.
    assert (Hkeys :
              grows acc acc'
              /\ forall k, In k (dkeys entries) -> watched k acc').
    { refine (for_each_establishes grows watched
                _ Hrefl Htrans _ Hstable (dkeys entries) acc acc' H).
      clear H. intros k s s' H. bind_as H q Eexp.
      inversion H; subst; clear H. split.
      - intros k' Hk'. apply dmem_dset. right. exact Hk'.
      - exists q. split; [exact Eexp|]. apply dmem_dset. left. reflexivity. }
    destruct Hkeys as [Hg Hq].
    split; [exact Hg|]. exists entries. split; [exact E1 | exact Hq].
  - clear H. intros m s s' (entries & He & Hk) Hg. exists entries.
    split; [exact He|]. intros k Hin. apply (Hstable k s s'); auto.
Qed.

End WatchedPaths.

Lemma init_on_modified_paths (env : Env) (config : ApplicationConfig)
  (w w' : World) (self : ModuleManager.t) :
  ModuleManager.__init__ env config w = (w', Ok self) ->
  ModuleManager.find_on_modified_paths env (ModuleManager.config_directory self)
    (dvalues (ModuleManager.modules self))
  = Ok (ModuleManager.on_modified_paths self).
Proof.
  unfold ModuleManager.__init__. intros H.
  mbind_as H d s1 E1. mbind_as H t s2 E2. mbind_as H loaded s3 E3.
  destruct loaded as [[config' modules] u].
  mbind_as H prepared s4 E4. destruct prepared as [[templates temp_files] u'].
  mbind_as H paths s5 E5. mbind_as H watched s6 E6.
  inversion H; subst; clear H. simpl.
  unfold lift in E5.
  destruct (ModuleManager.find_on_modified_paths env d (dvalues modules));
    inversion E5; reflexivity.
Qed.

(** X10. Every entry of the registry of watched paths of a manager that
    [__init__] returned is keyed by the expansion of its specified path,
    and names a managed module whose [on_modified] block has an entry for
    that specified path. *)
Theorem init_watched_entries_sound (env : Env) (config : ApplicationConfig)
  (w w' : World) (self : ModuleManager.t) (p : Path)
  (watched_file : WatchedFile) :
  ModuleManager.__init__ env config w = (w', Ok self) ->
  dget (ModuleManager.on_modified_paths self) p = Some watched_file ->
  watched_entry_sound env self p watched_file.
Proof.
  intros Hinit Hget. apply init_on_modified_paths in Hinit.
  destruct (find_on_modified_paths_sound env _ _ _ Hinit p watched_file Hget)
    as (Hp & He & Hm & Hentries).
  unfold watched_entry_sound, ModuleManager.expand_path.
  repeat split; auto.
  unfold dvalues in Hm. apply in_map_iff in Hm.
  destruct Hm as ([name m] & Heq & Hin). simpl in Heq. subst m.
  exists name. exact Hin.
Qed.

Lemma init_watched_entries_sound_witness :
  watched_entry_sound env0 notes_watcher "/cfg/notes.txt"
    {| path := "/cfg/notes.txt";
       module := module_of env0 "module/m"
                   [("on_modified",
                     PDict [("notes.txt",
                             PDict [("run", PStr "echo changed")])])];
       specified_path := "notes.txt" |}.
Proof.
  apply (init_watched_entries_sound env0 (watches_notes false) w0 w0
           notes_watcher);
    vm_compute; reflexivity.
Defined.

(** X23. The registry of watched paths of a manager that [__init__]
    returned covers the modules: every key of the [on_modified] block of
    every managed module is registered under its expanded path. *)
Theorem init_watches_every_entry (env : Env) (config : ApplicationConfig)
  (w w' : World) (self : ModuleManager.t) (name : string)
  (m : AstralityModule.t) :
  ModuleManager.__init__ env config w = (w', Ok self) ->
  In (name, m) (ModuleManager.modules self) ->
  watches_module env self m.
Proof.
  intros Hinit Hin. apply init_on_modified_paths in Hinit.
  apply (find_on_modified_paths_complete env _ _ _ Hinit m).
  unfold dvalues. apply (in_map snd _ _ Hin).
Qed.

Lemma init_registers_every_template_witness :
  registry_complete two_templates_manager.
Proof.
  apply (init_registers_every_template env_colors two_templates w0 w0).
  vm_compute. reflexivity.
Defined.

Lemma init_watches_every_entry_witness :
  watches_module env0 notes_watcher
    (module_of env0 "module/m"
       [("on_modified",
         PDict [("notes.txt", PDict [("run", PStr "echo changed")])])]).
Proof.
  apply (init_watches_every_entry env0 (watches_notes false) w0 w0
           notes_watcher "m").
  - vm_compute. reflexivity.
  - vm_compute. left. reflexivity.
Defined.

(** ** Dictionaries built in a loop *)

Lemma dset_new {V : Type} (d : dict V) (k : string) (v : V) :
  ~ In k (dkeys d) -> dset d k v = (d ++ [(k, v)])%list.
Proof.
  induction d as [|[k' v'] d IH]; simpl; intros H; [reflexivity|].
  destruct (String.eqb_spec k k') as [->|Hne]; [tauto|].
  rewrite IH by tauto. reflexivity.
Qed.

(** A loop that sets, for each entry of a dictionary, its key to [f] of its
    value: the entries come out in the same order. *)
Lemma fold_dset_map_values {V W : Type} (f : V -> W) (d : dict V)
  (acc : dict W) :
  NoDup (dkeys acc ++ dkeys d) ->
  fold_left (fun acc kv => dset acc (fst kv) (f (snd kv))) d acc
  = (acc ++ map_values f d)%list.
Proof.
  revert acc. induction d as [|[k v] d IH]; simpl; intros acc H.
  - rewrite app_nil_r. reflexivity.
  - rewrite dset_new.
    + rewrite IH.
      * rewrite <- app_assoc. reflexivity.
      * unfold dkeys in *. rewrite map_app, <- app_assoc. exact H.
    + apply NoDup_remove_2 in H. rewrite in_app_iff in H. tauto.
Qed.

(** ** [module_events] and [on_event] *)

(** X26. When the names of the managed modules are distinct, [module_events]
    has one entry for each module, in the order of the modules: the name of
    the module and the event its listener reports. *)
Theorem module_events_of_modules (env : Env) (self : ModuleManager.t) :
  NoDup (dkeys (ModuleManager.modules self)) ->
  ModuleManager.module_events env self
  = map_values
      (fun m => listener_event env (AstralityModule.event_listener m))
      (ModuleManager.modules self).
Proof.
  intros H. unfold ModuleManager.module_events.
  apply (fold_dset_map_values
           (fun m => listener_event env (AstralityModule.event_listener m))
           (ModuleManager.modules self) []).
  exact H.
Qed.

Lemma module_events_of_modules_witness :
  ModuleManager.module_events env0 two_listeners_manager
  = map_values
      (fun m => listener_event env0 (AstralityModule.event_listener m))
      (ModuleManager.modules two_listeners_manager).
Proof.
  apply (module_events_of_modules env0 two_listeners_manager).
  repeat constructor; simpl; intuition discriminate.
Defined.

(** X25. [on_event] runs the event commands of the modules, module after
    module and in the order of each, each with the template placeholders
    replaced by the targets; then it records the events of the listeners
    as the last ones seen, and changes nothing else of the manager. *)
Theorem on_event_runs_commands (env : Env) (self : ModuleManager.t) (w : World)
  (timeout directory : pyval) (batches : list (list string)) :
  ModuleManager.config_option self "settings/astrality" "run_timeout"
  = Ok timeout ->
  ModuleManager.config_option self "_runtime" "config_directory"
  = Ok directory ->
  Forall2 (fun m commands => AstralityModule.on_event_commands env m = Ok commands)
    (dvalues (ModuleManager.modules self)) batches ->
  ModuleManager.on_event env (self, w)
  = ((ModuleManager.set_last_module_events self
        (ModuleManager.module_events env self),
      add_effects w (map (shell_effect self) (concat batches))),
     Ok tt).
Proof.
  intros Ht Hd Hall. unfold ModuleManager.on_event.
  unfold mbind at 1. simpl. unfold mbind at 1.
  rewrite (module_commands_trace env self AstralityModule.on_event_commands
             timeout directory _ batches Ht Hd Hall).
  reflexivity.
Qed.

Lemma on_event_runs_commands_witness :
  ModuleManager.on_event env0 (announcing_manager, w0)
  = ((ModuleManager.set_last_module_events announcing_manager
        [("a", "static"); ("b", "static")],
      add_effects w0 [Shell "echo a"; Shell "echo static"; Shell "echo b"]),
     Ok tt).
Proof.
  apply (on_event_runs_commands env0 announcing_manager w0 (PInt 1)
           (PStr "/cfg") [["echo a"; "echo static"]; ["echo b"]]).
  - reflexivity.
  - reflexivity.
  - repeat constructor.
Defined.

(** ** The replacements of the placeholders *)

Lemma prepare_compile_action_keys (env : Env) (config_directory : Path)
  (module : AstralityModule.t) (compile_action : pyval)
  (s s' : (dict Template * list Path) * World) (r : Result unit) :
  (let! specified_source :=
     lift (let? v := getitem compile_action "template" in as_str v) in
   let! absolute_source :=
     lift (ModuleManager.expand_path_in env config_directory specified_source) in
   let! has_target := lift (py_contains compile_action "target") in
   let! target :=
     if has_target then
       let! t := lift (let? v := getitem compile_action "target" in as_str v) in
       lift (ModuleManager.expand_path_in env config_directory t)
     else ModuleManager.create_temp_file env (AstralityModule.name module) in
   let! st := get_fst in
   put_fst
     (dset (fst st) specified_source
        {| source := absolute_source; target := target |},
      snd st)) s = (s', r) ->
  NoDup (dkeys (fst (fst s))) -> NoDup (dkeys (fst (fst s'))).
Proof.
  destruct s as [[templates temp_files] w].
  unfold mbind at 1. unfold lift at 1.
  destruct (let? v := getitem compile_action "template" in as_str v)
    as [sp|e] eqn:Esp.
  2:{ intros H. inversion H; subst. tauto. }
  unfold mbind at 1. unfold lift at 1.
  destruct (ModuleManager.expand_path_in env config_directory sp)
    as [absolute_source|e] eqn:Ea.
  2:{ intros H. inversion H; subst. tauto. }
  unfold mbind at 1. unfold lift at 1.
  destruct (py_contains compile_action "target") as [has|e] eqn:Eh.
  2:{ intros H. inversion H; subst. tauto. }
  unfold mbind at 1.
  destruct has.
  - unfold mbind at 1. unfold lift at 1.
    destruct (let? v := getitem compile_action "target" in as_str v)
      as [t|e] eqn:Et.
    2:{ intros H. inversion H; subst. tauto. }
    unfold lift at 1.
    destruct (ModuleManager.expand_path_in env config_directory t)
      as [target|e] eqn:Etg.
    2:{ intros H. inversion H; subst. tauto. }
    unfold ret, mbind, get_fst, put_fst. simpl. intros H. inversion H; subst.
    simpl. apply NoDup_dkeys_dset.
  - unfold ModuleManager.create_temp_file, mbind, get_fst, put_fst. simpl.
    intros H. inversion H; subst. simpl. apply NoDup_dkeys_dset.
Qed.

Lemma prepare_templates_distinct (env : Env) (config_directory : Path)
  (modules : list AstralityModule.t) :
  preserves
    (fun s s' : (dict Template * list Path) * World =>
       NoDup (dkeys (fst (fst s))) -> NoDup (dkeys (fst (fst s'))))
    (ModuleManager.prepare_templates env config_directory modules).
Proof.
  unfold ModuleManager.prepare_templates.
  pose (R := fun s s' : (dict Template * list Path) * World =>
               NoDup (dkeys (fst (fst s))) -> NoDup (dkeys (fst (fst s')))).
  assert (Hrefl : forall s, R s s) by (intros s H; exact H).
  assert (Htrans : forall s1 s2 s3, R s1 s2 -> R s2 s3 -> R s1 s3)
    by (intros s1 s2 s3 H12 H23 H; apply H23, H12, H).
  apply (mfor_each_preserves R _ Hrefl Htrans).
  intros m s1 s2 r1 H. unfold mbind at 1 in H. unfold lift at 1 in H.
  destruct (ModuleManager.blocks_of m) as [blocks|e];
    [|inversion H; subst; apply Hrefl].
  revert H. apply (mfor_each_preserves R _ Hrefl Htrans).
  intros blk s3 s4 r3 H. unfold mbind at 1 in H. unfold lift at 1 in H.
  destruct (let? c := getitem blk "compile" in py_iter c) as [cs|e];
    [|inversion H; subst; apply Hrefl].
  revert H. apply (mfor_each_preserves R _ Hrefl Htrans).
  intros c s5 s6 r5 H.
  exact (prepare_compile_action_keys env config_directory m c s5 s6 r5 H).
Qed.

(** X27. In a manager that [__init__] returned, the keys of the registry of
    templates are distinct and the placeholder replacements have one entry
    for each template, in the order of the registry: the specified path of
    the template and its target. *)
Theorem init_string_replacements (env : Env) (config : ApplicationConfig)
  (w w' : World) (self : ModuleManager.t) :
  ModuleManager.__init__ env config w = (w', Ok self) ->
  NoDup (dkeys (ModuleManager.templates self))
  /\ ModuleManager.string_replacements self
     = map_values target (ModuleManager.templates self).
Proof.
  unfold ModuleManager.__init__. intros H.
  mbind_as H d s1 E1. mbind_as H t s2 E2. mbind_as H loaded s3 E3.
  destruct loaded as [[config' modules] u].
  mbind_as H prepared s4 E4. destruct prepared as [[templates temp_files] u'].
  mbind_as H paths s5 E5. mbind_as H watched s6 E6.
  inversion H; subst; clear H. simpl.
  unfold run_with in E4.
  destruct (ModuleManager.prepare_templates env d (dvalues modules) ([], [], s3))
    as [[st wp] r] eqn:Hp.
  destruct r as [[]|e]; [|discriminate].
  inversion E4; subst; clear E4.
  assert (Hnd : NoDup (dkeys templates)).
  { apply (prepare_templates_distinct env d (dvalues modules) _ _ _ Hp).
    constructor. }
  split; [exact Hnd|].
  unfold ModuleManager.generate_string_replacements.
  apply (fold_dset_map_values target templates []). exact Hnd.
Qed.

Lemma init_string_replacements_witness :
  NoDup (dkeys (ModuleManager.templates two_templates_manager))
  /\ ModuleManager.string_replacements two_templates_manager
     = map_values target (ModuleManager.templates two_templates_manager).
Proof.
  apply (init_string_replacements env_colors two_templates w0 w0).
  vm_compute. reflexivity.
Defined.

(** ** The tasks that are due *)

Lemma for_each_app {A S : Type} (f : S -> A -> Result S) (l1 l2 : list A)
  (s : S) :
  for_each (l1 ++ l2) f s = let? s1 := for_each l1 f s in for_each l2 f s1.
Proof.
  revert s. induction l1 as [|x l1 IH]; intros s; simpl; [reflexivity|].
  destruct (f s x) as [s1|e]; simpl; [apply IH | reflexivity].
Qed.

Lemma set_application_context_same (self : ModuleManager.t) :
  ModuleManager.set_application_context self
    (ModuleManager.application_context self) = self.
Proof. destruct self. reflexivity. Qed.

(** The imports of one module in [import_context_sections]: the
    application context becomes what the imports leave, and nothing else
    changes. *)
Lemma import_sections_of_module (env : Env)
  (imports : list ContextSectionImport) :
  forall (self : ModuleManager.t) (w : World) (context : Context),
    context_after env self imports = Ok context ->
    mfor_each imports
      (fun csi =>
         let! self := ModuleManager.get_self in
         let! from_config_file :=
           lift (ModuleManager.expand_path env self (from_config_file csi)) in
         let! context :=
           lift (insert_into env (ModuleManager.application_context self)
                   (into_section csi) (from_section csi) from_config_file) in
         ModuleManager.modify_self
           (fun self => ModuleManager.set_application_context self context))
      (self, w)
    = ((ModuleManager.set_application_context self context, w), Ok tt).
Proof.
  unfold context_after.
  induction imports as [|csi l IH]; intros self w context H.
  - simpl in H. inversion H; subst.
    rewrite set_application_context_same. reflexivity.
  - cbn [for_each] in H. bind_as H context1 E1. bind_as E1 file E0.
    cbn [mfor_each]. unfold mbind at 1. unfold mbind at 1.
    unfold ModuleManager.get_self, get_fst at 1. cbn [fst].
    unfold mbind at 1. unfold lift at 1. rewrite E0.
    unfold mbind at 1. unfold lift at 1. rewrite E1.
    unfold ModuleManager.modify_self, modify_fst at 1. cbn [fst snd].
    apply (IH (ModuleManager.set_application_context self context1) w context).
    exact H.
Qed.

Lemma import_sections_of_modules (env : Env) (trigger : string)
  (ms : list AstralityModule.t) (imports : list (list ContextSectionImport)) :
  Forall2
    (fun m i => AstralityModule.context_section_imports env m trigger = Ok i)
    ms imports ->
  forall (self : ModuleManager.t) (w : World) (context : Context),
    context_after env self (concat imports) = Ok context ->
    mfor_each ms
      (fun module =>
         let! context_section_imports :=
           lift (AstralityModule.context_section_imports env module trigger) in
         mfor_each context_section_imports
           (fun csi =>
              let! self := ModuleManager.get_self in
              let! from_config_file :=
                lift (ModuleManager.expand_path env self
                        (from_config_file csi)) in
              let! context :=
                lift (insert_into env (ModuleManager.application_context self)
                        (into_section csi) (from_section csi)
                        from_config_file) in
              ModuleManager.modify_self
                (fun self =>
                   ModuleManager.set_application_context self context)))
      (self, w)
    = ((ModuleManager.set_application_context self context, w), Ok tt).
Proof.
  induction 1 as [|m i ms imports Hm Hms IH]; intros self w context H.
  - simpl in H. unfold context_after in H. simpl in H. inversion H; subst.
    rewrite set_application_context_same. reflexivity.
  - cbn [concat] in H. unfold context_after in H. rewrite for_each_app in H.
    bind_as H context1 E1.
    cbn [mfor_each]. unfold mbind at 1. unfold mbind at 1. unfold lift at 1.
    rewrite Hm.
    rewrite (import_sections_of_module env i self w context1 E1).
    apply (IH (ModuleManager.set_application_context self context1) w context).
    exact H.
Qed.

(** [import_context_sections] for a trigger it accepts: the application
    context becomes what the imports of the modules leave, done module after
    module and in the order of each; nothing else changes. *)
Lemma import_context_sections_imports (env : Env) (self : ModuleManager.t)
  (trigger : string) (imports : list (list ContextSectionImport))
  (context : Context) (w : World) :
  In trigger top_level_blocks ->
  Forall2
    (fun m i => AstralityModule.context_section_imports env m trigger = Ok i)
    (dvalues (ModuleManager.modules self)) imports ->
  context_after env self (concat imports) = Ok context ->
  ModuleManager.import_context_sections env trigger (self, w)
  = ((ModuleManager.set_application_context self context, w), Ok tt).
Proof.
  intros Ht Hi Hc. unfold ModuleManager.import_context_sections.
  replace (existsb (String.eqb trigger) top_level_blocks) with true.
  2:{ symmetry. apply existsb_exists. exists trigger.
      split; [exact Ht | apply String.eqb_refl]. }
  cbn [negb]. unfold mbind at 1.
  unfold ModuleManager.get_self, get_fst at 1. cbn [fst].
  apply (import_sections_of_modules env trigger _ imports Hi self w context Hc).
Qed.

(** The three steps of a batch one after the other: the imports, the
    compilations with the imported context, the commands. *)
Lemma batch_steps (env : Env) (self : ModuleManager.t) (trigger : string)
  (commands_of : Env -> AstralityModule.t -> Result (list string))
  (imports : list (list ContextSectionImport)) (context : Context)
  (templates : list (list Template)) (commands : list (list string))
  (timeout directory : pyval) (w : World) :
  In trigger top_level_blocks ->
  ModuleManager.config_option self "settings/astrality" "run_timeout"
  = Ok timeout ->
  ModuleManager.config_option self "_runtime" "config_directory"
  = Ok directory ->
  batch env self trigger commands_of imports context templates commands ->
  let imported := ModuleManager.set_application_context self context in
  ModuleManager.import_context_sections env trigger (self, w)
  = ((imported, w), Ok tt)
  /\ ModuleManager.compile_templates env trigger (imported, w)
     = ((imported,
         add_effects w
           (map (compilation_outcome env imported) (concat templates))),
        Ok tt)
  /\ forall w',
       mfor_each (dvalues (ModuleManager.modules imported))
         (fun module =>
            let! commands := lift (commands_of env module) in
            ModuleManager.run_commands env commands) (imported, w')
       = ((imported,
           add_effects w' (map (shell_effect imported) (concat commands))),
          Ok tt).
Proof.
  intros Ht Hto Hd (Hi & Hc & Hts & Hr & Hcs) imported. split; [|split].
  - apply (import_context_sections_imports env self trigger imports context w
             Ht Hi Hc).
  - apply (compile_templates_outcomes env imported trigger templates Ht Hts Hr).
  - intros w'.
    apply (module_commands_trace env imported commands_of timeout directory
             _ commands Hto Hd Hcs).
Qed.

(** Whatever the first call did, once it has returned the next call does
    nothing while no module reports another event. *)
Lemma finish_tasks_again (env env' : Env) (self self1 : ModuleManager.t)
  (w w1 : World) :
  ModuleManager.finish_tasks env (self, w) = ((self1, w1), Ok tt) ->
  same_events env env' self ->
  ModuleManager.finish_tasks env' (self1, w1) = ((self1, w1), Ok tt).
Proof.
  intros H Hsame.
  destruct (finish_tasks_returned _ _ _ _ _ H) as (Hdone & Hm & He).
  apply finish_tasks_nothing_due; [exact Hdone|].
  rewrite (module_events_same env env' self self1 Hm Hsame).
  replace (ModuleManager.module_events env self)
    with (ModuleManager.module_events env self1)
    by (unfold ModuleManager.module_events; rewrite Hm; reflexivity).
  exact He.
Qed.

(** C6. Two calls of [finish_tasks] in a row, no module reporting another
    event during the second than during the first. On a manager that has not
    started, the first call takes the snapshot of the events and performs
    the startup batch: the context imports of [on_startup], then its
    compilations with the imported context, then its commands, each once
    and in order; the manager is then started. On a started manager whose
    events differ from the snapshot, the first call performs the batch of
    [on_event] in the same way and takes the new snapshot. In both cases
    the second call changes neither the manager nor the world: no import, no
    compilation, no command. *)
Theorem finish_tasks_twice (env env' : Env) (self : ModuleManager.t)
  (w : World) (timeout directory : pyval)
  (imports : list (list ContextSectionImport)) (context : Context)
  (templates : list (list Template)) (commands : list (list string)) :
  ModuleManager.config_option self "settings/astrality" "run_timeout"
  = Ok timeout ->
  ModuleManager.config_option self "_runtime" "config_directory"
  = Ok directory ->
  same_events env env' self ->
  (ModuleManager.startup_done self = false ->
   batch env self "on_startup" AstralityModule.startup_commands
     imports context templates commands ->
   let imported :=
     ModuleManager.set_application_context
       (ModuleManager.set_last_module_events self
          (ModuleManager.module_events env self))
       context in
   let self1 :=
     ModuleManager.set_watcher_running
       (ModuleManager.set_startup_done imported true) true in
   let w1 := add_effects w (batch_effects env imported templates commands) in
   ModuleManager.finish_tasks env (self, w) = ((self1, w1), Ok tt)
   /\ ModuleManager.finish_tasks env' (self1, w1) = ((self1, w1), Ok tt))
  /\ (ModuleManager.startup_done self = true ->
      dict_eqb String.eqb (ModuleManager.last_module_events self)
        (ModuleManager.module_events env self) = false ->
      batch env self "on_event" AstralityModule.on_event_commands
        imports context templates commands ->
      let imported := ModuleManager.set_application_context self context in
      let self1 :=
        ModuleManager.set_last_module_events imported
          (ModuleManager.module_events env self) in
      let w1 := add_effects w (batch_effects env imported templates commands) in
      ModuleManager.finish_tasks env (self, w) = ((self1, w1), Ok tt)
      /\ ModuleManager.finish_tasks env' (self1, w1) = ((self1, w1), Ok tt)).
Proof.
  intros Hto Hd Hsame. split.
  - intros Hnot Hb imported self1 w1.
    assert (Hsecond :
              ModuleManager.finish_tasks env' (self1, w1) = ((self1, w1), Ok tt)).
    { apply finish_tasks_nothing_due; [reflexivity|].
      rewrite (module_events_same env env' self self1 eq_refl Hsame).
      apply dict_eqb_refl. apply NoDup_module_events. }
    split; [|exact Hsecond].
    rewrite (finish_tasks_not_started env self w Hnot).
    destruct (batch_steps env
                (ModuleManager.set_last_module_events self
                   (ModuleManager.module_events env self))
                "on_startup" AstralityModule.startup_commands
                imports context templates commands timeout directory w)
      as (Himp & Hcomp & Hrun);
      [simpl; tauto | exact Hto | exact Hd | exact Hb|].
    unfold mbind at 1. rewrite Himp.
    unfold mbind at 1. rewrite Hcomp.
    unfold ModuleManager.startup.
    unfold mbind at 1. unfold ModuleManager.get_self, get_fst at 1. cbn [fst].
    unfold mbind at 1. rewrite Hrun.
    unfold w1, batch_effects. rewrite <- add_effects_app. reflexivity.
  - intros Hdone Hdiff Hb imported self1 w1.
    assert (Hsecond :
              ModuleManager.finish_tasks env' (self1, w1) = ((self1, w1), Ok tt)).
    { apply finish_tasks_nothing_due; [exact Hdone|].
      rewrite (module_events_same env env' self self1 eq_refl Hsame).
      apply dict_eqb_refl. apply NoDup_module_events. }
    split; [|exact Hsecond].
    unfold ModuleManager.finish_tasks.
    unfold mbind at 1. unfold ModuleManager.get_self, get_fst at 1. cbn [fst].
    rewrite Hdone, Hdiff. cbn [negb].
    destruct (batch_steps env self "on_event" AstralityModule.on_event_commands
                imports context templates commands timeout directory w)
      as (Himp & Hcomp & Hrun);
      [simpl; tauto | exact Hto | exact Hd | exact Hb|].
    unfold mbind at 1. rewrite Himp.
    unfold mbind at 1. rewrite Hcomp.
    unfold ModuleManager.on_event.
    unfold mbind at 1. unfold ModuleManager.get_self, get_fst at 1. cbn [fst].
    unfold mbind at 1. rewrite Hrun.
    unfold w1, batch_effects. rewrite <- add_effects_app. reflexivity.
Qed.

Lemma finish_tasks_twice_witness :
  (ModuleManager.finish_tasks env_colors (two_batches_manager, w0)
   = (two_batches_started, Ok tt)
   /\ ModuleManager.finish_tasks env_colors two_batches_started
      = (two_batches_started, Ok tt))
  /\ (ModuleManager.finish_tasks env_night two_batches_started
      = (two_batches_at_night, Ok tt)
      /\ ModuleManager.finish_tasks env_night two_batches_at_night
         = (two_batches_at_night, Ok tt)).
Proof.
  split.
  - apply (proj1 (finish_tasks_twice env_colors env_colors two_batches_manager w0
                    (PInt 1) (PStr "/cfg")
                    [[{| into_section := Some "colors";
                         from_section := Some "dark";
                         from_config_file := "colors.conf" |}]]
                    (ModuleManager.application_context (fst two_batches_started))
                    [[{| source := "/cfg/bar.tpl"; target := "/out/bar" |}]]
                    [["reload {bar.tpl}"]]
                    eq_refl eq_refl (fun _ _ _ => eq_refl))).
    + reflexivity.
    + unfold batch. split; [repeat constructor|].
      split; [reflexivity|].
      split; [|split; [intros; reflexivity | repeat constructor]].
      constructor; [|constructor].
      eexists. split; [reflexivity|].
      constructor; [|constructor]. eexists. split; reflexivity.
  - apply (proj2 (finish_tasks_twice env_night env_night (fst two_batches_started)
                    (snd two_batches_started) (PInt 1) (PStr "/cfg")
                    [[{| into_section := Some "night";
                         from_section := Some "dark";
                         from_config_file := "colors.conf" |}]]
                    (ModuleManager.application_context (fst two_batches_at_night))
                    [[{| source := "/cfg/missing.tpl";
                         target := "/out/missing" |}]]
                    [["echo night"]]
                    eq_refl eq_refl (fun _ _ _ => eq_refl))).
    + reflexivity.
    + reflexivity.
    + unfold batch. split; [repeat constructor|].
      split; [reflexivity|].
      split; [|split; [intros; reflexivity | repeat constructor]].
      constructor; [|constructor].
      eexists. split; [reflexivity|].
      constructor; [|constructor]. eexists. split; reflexivity.
Defined.

(** What the two batches of the example leave: the imported section, and
    in the trace the compilation and the command of the startup batch,
    then the error record and the command of the batch of [on_event]. *)
Lemma finish_tasks_batches :
  dget (ModuleManager.application_context (fst two_batches_started)) "colors"
  = Some [("background", PStr "black")]
  /\ trace (snd two_batches_started)
     = [Compile "/cfg/bar.tpl" "/out/bar"
          (ModuleManager.application_context (fst two_batches_started));
        Shell "reload /out/bar"]
  /\ dget (ModuleManager.application_context (fst two_batches_at_night)) "night"
     = Some [("background", PStr "black")]
  /\ trace (snd two_batches_at_night)
     = (trace (snd two_batches_started)
        ++ [LogError
              (ModuleManager.template_missing "/cfg/missing.tpl" "/out/missing");
            Shell "echo night"])%list.
Proof. repeat split. Qed.
